(** * rtsp-simple-server: H265 format processor and RTMP connection engine

    A shallow embedding of [internal/core/formatprocessor_h265.go] (package
    [core]) and of the RTMP connection code that follows it in the same
    source file (package [rtmp]), with the properties the specification
    states about them.

    Go values are modelled as follows.
    - A [[]byte] is a [list byte]; a slice that the code tests against [nil]
      is an [option (list byte)], [None] being [nil].
    - Fixed-width integers are [Z] with the wrap-around written out.
    - A pointer that may be [nil] is an [option].
    - A Go [error] is a value of [error]; sentinel errors compared with [==]
      are constructors of their own.
    - Functions of other packages (pion/rtp, gortsplib, net/url, the
      configuration decoders) are the operations of a class, over which the
      code that calls them is stated; small instances of these classes serve
      to run the code on concrete inputs. *)

From Stdlib Require Import ZArith List String Ascii Bool Lia PeanoNat PrimFloat.
From Stdlib.Strings Require Import Byte.
From Equations Require Import Equations.
Import ListNotations.

Set Implicit Arguments.
Set Warnings "-register-all".

(** ** Bytes and fixed-width integers *)

Definition bytes := list byte.

Definition byteZ (b : byte) : Z := Z.of_N (Byte.to_N b).

Definition uint16 (z : Z) : Z := z mod 2 ^ 16.

Definition int64 (z : Z) : Z := (z + 2 ^ 63) mod 2 ^ 64 - 2 ^ 63.

Fixpoint bytes_Equal (a b : bytes) : bool :=
  match a, b with
  | [], [] => true
  | x :: a', y :: b' => Byte.eqb x y && bytes_Equal a' b'
  | _, _ => false
  end.

(** [bytes.Equal] on slices that may be nil: a nil slice equals an empty one. *)
Definition slice_Equal (a b : option bytes) : bool :=
  bytes_Equal (match a with Some x => x | None => [] end)
              (match b with Some x => x | None => [] end).

(** ** Wire values and messages *)

(** *** notedit/rtmp/format/flv/flvio: AMF0 values *)
Module flvio.

(** What an [interface{}] of a command or data message can hold. *)
Inductive Value : Type :=
| Nil
| Float64 (f : float)
| Int (z : Z)
| Bool (b : bool)
| Str (s : string)
| Map (kvs : list (string * Value)).

(** [type AMFMap []AMFKv] *)
Definition AMFMap : Type := list (string * Value).

Fixpoint GetV (a : AMFMap) (k : string) : option Value :=
  match a with
  | [] => None
  | (k', v) :: a' => if String.eqb k' k then Some v else GetV a' k
  end.

Definition GetString (a : AMFMap) (k : string) : option string :=
  match GetV a k with
  | Some (Str s) => Some s
  | _ => None
  end.

(** [GetFloat64] with its [ok] dropped: the zero value when absent. *)
Definition GetFloat64 (a : AMFMap) (k : string) : float :=
  match GetV a k with
  | Some (Float64 f) => f
  | _ => 0%float
  end.

Definition AVC_SEQHDR : Z := 0.
Definition AVC_NALU : Z := 1.
Definition AAC_SEQHDR : Z := 0.

End flvio.

(** *** internal/rtmp/message *)

(** Modelled from the spec: the Protocol Message of internal/rtmp/message,
    whose declarations are not among the sources here: a tagged union of
    commands, data messages, audio and video units and control messages,
    each with the fields that the connection code reads or fills in. *)
Module message.

Module MsgCommandAMF0.
Record t : Type := mk {
  ChunkStreamID : Z;
  MessageStreamID : Z;
  Name : string;
  CommandID : Z;
  Arguments : list flvio.Value
}.
End MsgCommandAMF0.

Module MsgDataAMF0.
Record t : Type := mk {
  ChunkStreamID : Z;
  MessageStreamID : Z;
  Payload : list flvio.Value
}.
End MsgDataAMF0.

Module MsgAudio.
Record t : Type := mk {
  ChunkStreamID : Z;
  DTS : Z;              (* time.Duration: int64 nanoseconds *)
  MessageStreamID : Z;
  AACType : Z;
  Payload : bytes
}.
End MsgAudio.

Module MsgVideo.
Record t : Type := mk {
  ChunkStreamID : Z;
  DTS : Z;              (* time.Duration: int64 nanoseconds *)
  MessageStreamID : Z;
  IsKeyFrame : bool;
  H264Type : Z;
  Payload : bytes
}.
End MsgVideo.

Inductive Message : Type :=
| SetWindowAckSize (Value : Z)
| SetPeerBandwidth (Value : Z) (Type_ : Z)
| SetChunkSize (Value : Z)
| UserControlStreamIsRecorded (StreamID : Z)
| UserControlStreamBegin (StreamID : Z)
| UserControlSetBufferLength (BufferLength : Z)
| CommandAMF0 (m : MsgCommandAMF0.t)
| DataAMF0 (m : MsgDataAMF0.t)
| Audio (m : MsgAudio.t)
| Video (m : MsgVideo.t)
| Acknowledge (Value : Z).

End message.

(** ** Errors and results shared by both packages *)

Inductive error : Type :=
| ErrNonStartingPacketAndNoPrevious  (* rtph265.ErrNonStartingPacketAndNoPrevious *)
| ErrMorePacketsNeeded               (* rtph265.ErrMorePacketsNeeded *)
| errEmptyMetadata                   (* var errEmptyMetadata = errors.New(...) *)
| Errorf (msg : string)              (* fmt.Errorf(msg) *)
| ErrorfValue (msg : string) (v : flvio.Value)   (* fmt.Errorf(msg ++ " %v", v) *)
| ErrorfCommand (msg : string) (cmd : message.MsgCommandAMF0.t) (* ... "%+v", cmd *)
| ErrorfError (msg : string) (inner : error)     (* fmt.Errorf(msg ++ " %v", err) *)
| ErrExternal (origin : string) (detail : string). (* made by another package *)

(** [err == sentinel], for the sentinels the code compares with. *)
Definition error_eqb (a b : error) : bool :=
  match a, b with
  | ErrNonStartingPacketAndNoPrevious, ErrNonStartingPacketAndNoPrevious => true
  | ErrMorePacketsNeeded, ErrMorePacketsNeeded => true
  | errEmptyMetadata, errEmptyMetadata => true
  | _, _ => false
  end.

Inductive result (A : Type) : Type :=
| Ok (a : A)
| Err (e : error).
Arguments Ok {A} a.
Arguments Err {A} e.

(** ** Collaborating packages *)

(** *** pion/rtp *)
Module rtp.

Record Header : Type := mkHeader {
  Padding : bool;
  Marker : bool;
  PayloadType : Z;     (* uint8 *)
  SequenceNumber : Z;  (* uint16 *)
  Timestamp : Z;       (* uint32 *)
  SSRC : Z;            (* uint32 *)
  CSRC : list Z
}.

Record Packet : Type := mkPacket {
  Hdr : Header;
  Payload : bytes;
  PaddingSize : Z      (* byte *)
}.

End rtp.

(** *** gortsplib/pkg/codecs/h265 *)
Module h265.

Definition NALUType_VPS_NUT : Z := 32.
Definition NALUType_SPS_NUT : Z := 33.
Definition NALUType_PPS_NUT : Z := 34.
Definition NALUType_AggregationUnit : Z := 48.

(** [h265.NALUType((b >> 1) & 0b111111)] *)
Definition NALUType (b : byte) : Z := Z.land (Z.shiftr (byteZ b) 1) 63.

End h265.

(** *** gortsplib/pkg/format: the H265 track descriptor *)
Module format.

Record H265 : Type := mkH265 {
  PayloadTyp : Z;
  VPS : option bytes;
  SPS : option bytes;
  PPS : option bytes;
  MaxDONDiff : Z
}.

Definition SafeVPS (f : H265) : option bytes := VPS f.
Definition SafeSPS (f : H265) : option bytes := SPS f.
Definition SafePPS (f : H265) : option bytes := PPS f.

Definition SafeSetVPS (f : H265) (v : bytes) : H265 :=
  mkH265 (PayloadTyp f) (Some v) (SPS f) (PPS f) (MaxDONDiff f).
Definition SafeSetSPS (f : H265) (v : bytes) : H265 :=
  mkH265 (PayloadTyp f) (VPS f) (Some v) (PPS f) (MaxDONDiff f).
Definition SafeSetPPS (f : H265) (v : bytes) : H265 :=
  mkH265 (PayloadTyp f) (VPS f) (SPS f) (Some v) (MaxDONDiff f).

Module H264.
Record t : Type := mk {
  PayloadTyp : Z;
  SPS : bytes;
  PPS : bytes;
  PacketizationMode : Z
}.
End H264.

Module MPEG4Audio.
Record t (Config : Type) : Type := mk {
  PayloadTyp : Z;
  Config_ : Config;
  SizeLength : Z;
  IndexLength : Z;
  IndexDeltaLength : Z
}.
End MPEG4Audio.

(** The values of the interface [format.Format] that the RTMP code builds. *)
Inductive Format : Type :=
| OfH264 (f : H264.t)
| OfH265 (f : H265).

End format.

(** *** gortsplib/pkg/formatdecenc/rtph265 *)
Module rtph265.

(** The exported fields of [rtph265.Encoder] that the processor fills in, and
    the encoder's private state, which only the library reads and writes. *)
Record Encoder (S : Type) : Type := mkEncoder {
  PayloadType : Z;
  SSRC : option Z;
  InitialSequenceNumber : option Z;
  InitialTimestamp : option Z;
  MaxDONDiff : Z;
  internal : S
}.

(** What the processor needs from pion/rtp and gortsplib, and the constant
    [maxPacketSize] of package [core], which is declared in another file. *)
Class Library : Type := {
  maxPacketSize : Z;
  MarshalSize : rtp.Packet -> Z;
  DecoderState : Type;
  EncoderState : Type;
  CreateDecoder : format.H265 -> DecoderState;
  CreateEncoder : format.H265 -> Encoder EncoderState;
  DecodeUntilMarker :
    DecoderState -> rtp.Packet -> DecoderState * result (list bytes * Z);
  Init : Encoder unit -> EncoderState;
  Encode :
    Encoder EncoderState -> list bytes -> Z ->
    EncoderState * result (option (list rtp.Packet))
}.

End rtph265.

(** ** Package core: the H265 format processor *)

Module core.

(** The three slices returned by the extraction, in the order VPS, SPS, PPS. *)
Definition ParamSets : Type := (option bytes * option bytes * option bytes)%type.

Definition noParamSets : ParamSets := (None, None, None).

(** [uint16(payload[0])<<8 | uint16(payload[1])] *)
Definition unitSize (b0 b1 : byte) : Z :=
  Z.lor (uint16 (Z.shiftl (uint16 (byteZ b0)) 8)) (uint16 (byteZ b1)).

(** The [for len(payload) > 0] loop of the aggregation case.  [first] is
    [pkt.Payload[0]], which the loop body reads to classify each unit. *)
Equations? aggregationLoop (first : byte) (payload : bytes)
    (vps sps pps : option bytes) : ParamSets by wf (List.length payload) lt :=
  aggregationLoop first [] vps sps pps := (vps, sps, pps);
  aggregationLoop first [_] vps sps pps := (vps, sps, pps);
  aggregationLoop first (b0 :: b1 :: rest) vps sps pps :=
    let size := unitSize b0 b1 in
    if (size =? 0)%Z then (vps, sps, pps)
    else if (size >? Z.of_nat (List.length rest))%Z then noParamSets
    else
      let nalu := firstn (Z.to_nat size) rest in
      let typ := h265.NALUType first in
      if (typ =? h265.NALUType_VPS_NUT)%Z then
        aggregationLoop first (skipn (Z.to_nat size) rest) (Some nalu) sps pps
      else if (typ =? h265.NALUType_SPS_NUT)%Z then
        aggregationLoop first (skipn (Z.to_nat size) rest) vps (Some nalu) pps
      else if (typ =? h265.NALUType_PPS_NUT)%Z then
        aggregationLoop first (skipn (Z.to_nat size) rest) vps sps (Some nalu)
      else
        aggregationLoop first (skipn (Z.to_nat size) rest) vps sps pps.
Proof.
  all: rewrite length_skipn; lia.
Qed.

(** extract VPS, SPS and PPS without decoding RTP packets *)
Definition rtpH265ExtractVPSSPSPPS (pkt : rtp.Packet) : ParamSets :=
  match rtp.Payload pkt with
  | first :: _ :: rest =>
      let typ := h265.NALUType first in
      if (typ =? h265.NALUType_VPS_NUT)%Z then (Some (rtp.Payload pkt), None, None)
      else if (typ =? h265.NALUType_SPS_NUT)%Z then (None, Some (rtp.Payload pkt), None)
      else if (typ =? h265.NALUType_PPS_NUT)%Z then (None, None, Some (rtp.Payload pkt))
      else if (typ =? h265.NALUType_AggregationUnit)%Z then
        aggregationLoop first rest None None None
      else noParamSets
  | _ => noParamSets
  end.

(** The aggregation loop as the specification words it: every sub-unit is
    classified by its own first byte.  Not what the code computes; kept to
    compare the two. *)
Equations? aggregationLoop_spec (payload : bytes)
    (vps sps pps : option bytes) : ParamSets by wf (List.length payload) lt :=
  aggregationLoop_spec [] vps sps pps := (vps, sps, pps);
  aggregationLoop_spec [_] vps sps pps := (vps, sps, pps);
  aggregationLoop_spec (b0 :: b1 :: rest) vps sps pps :=
    let size := unitSize b0 b1 in
    if (size =? 0)%Z then (vps, sps, pps)
    else if (size >? Z.of_nat (List.length rest))%Z then noParamSets
    else
      let nalu := firstn (Z.to_nat size) rest in
      let typ := match nalu with b :: _ => h265.NALUType b | [] => 0%Z end in
      if (typ =? h265.NALUType_VPS_NUT)%Z then
        aggregationLoop_spec (skipn (Z.to_nat size) rest) (Some nalu) sps pps
      else if (typ =? h265.NALUType_SPS_NUT)%Z then
        aggregationLoop_spec (skipn (Z.to_nat size) rest) vps (Some nalu) pps
      else if (typ =? h265.NALUType_PPS_NUT)%Z then
        aggregationLoop_spec (skipn (Z.to_nat size) rest) vps sps (Some nalu)
      else
        aggregationLoop_spec (skipn (Z.to_nat size) rest) vps sps pps.
Proof.
  all: rewrite length_skipn; lia.
Qed.

Definition rtpH265ExtractVPSSPSPPS_spec (pkt : rtp.Packet) : ParamSets :=
  match rtp.Payload pkt with
  | first :: _ :: rest =>
      let typ := h265.NALUType first in
      if (typ =? h265.NALUType_VPS_NUT)%Z then (Some (rtp.Payload pkt), None, None)
      else if (typ =? h265.NALUType_SPS_NUT)%Z then (None, Some (rtp.Payload pkt), None)
      else if (typ =? h265.NALUType_PPS_NUT)%Z then (None, None, Some (rtp.Payload pkt))
      else if (typ =? h265.NALUType_AggregationUnit)%Z then
        aggregationLoop_spec rest None None None
      else noParamSets
  | _ => noParamSets
  end.

(** A call of one of the track's [SafeSet...] methods. *)
Inductive StoreCall : Type :=
| CallSafeSetVPS (v : bytes)
| CallSafeSetSPS (v : bytes)
| CallSafeSetPPS (v : bytes).

Definition isVPSCall (c : StoreCall) : bool :=
  match c with CallSafeSetVPS _ => true | _ => false end.
Definition isSPSCall (c : StoreCall) : bool :=
  match c with CallSafeSetSPS _ => true | _ => false end.
Definition isPPSCall (c : StoreCall) : bool :=
  match c with CallSafeSetPPS _ => true | _ => false end.

(** [updateTrackParametersFromRTPPacket]: the track after the call, and the
    [SafeSet...] calls the method made, in order. *)
Definition updateTrackParametersFromRTPPacket
    (f : format.H265) (pkt : rtp.Packet) : format.H265 * list StoreCall :=
  let '(vps, sps, pps) := rtpH265ExtractVPSSPSPPS pkt in
  let s := (f, []) in
  let s :=
    match vps with
    | Some v =>
        if negb (slice_Equal vps (format.SafeVPS (fst s)))
        then (format.SafeSetVPS (fst s) v, snd s ++ [CallSafeSetVPS v]) else s
    | None => s
    end in
  let s :=
    match sps with
    | Some v =>
        if negb (slice_Equal sps (format.SafeSPS (fst s)))
        then (format.SafeSetSPS (fst s) v, snd s ++ [CallSafeSetSPS v]) else s
    | None => s
    end in
  match pps with
  | Some v =>
      if negb (slice_Equal pps (format.SafePPS (fst s)))
      then (format.SafeSetPPS (fst s) v, snd s ++ [CallSafeSetPPS v]) else s
  | None => s
  end.

(** [updateTrackParametersFromNALUs] has an empty body. *)
Definition updateTrackParametersFromNALUs
    (f : format.H265) (nalus : list bytes) : format.H265 := f.

(** [remuxNALUs] returns its argument. *)
Definition remuxNALUs (nalus : list bytes) : list bytes := nalus.

Record dataH265 : Type := mkData {
  rtpPackets : option (list rtp.Packet);
  ntp : Z;
  pts : Z;
  nalus : list bytes
}.

Definition getRTPPackets (d : dataH265) : option (list rtp.Packet) := rtpPackets d.
Definition getNTP (d : dataH265) : Z := ntp d.

Inductive panic : Type :=
| IndexOutOfRange    (* tdata.rtpPackets[0] on an empty slice *)
| NilDereference.    (* a method of a nil *rtph265.Encoder reading its fields *)

Section Processor.

Context {L : rtph265.Library}.

Record formatProcessorH265 : Type := mkProcessor {
  format : format.H265;
  encoder : option (rtph265.Encoder rtph265.EncoderState);
  decoder : option rtph265.DecoderState
}.

Definition newFormatProcessorH265 (forma : format.H265) (allocateEncoder : bool)
    : result formatProcessorH265 :=
  Ok (mkProcessor forma
        (if allocateEncoder then Some (rtph265.CreateEncoder forma) else None)
        None).

(** How a call of [process] ends: it returns (with the processor and the
    batch as the call left them, and the error or nil), or it panics. *)
Inductive outcome : Type :=
| Returned (t : formatProcessorH265) (d : dataH265) (err : option error)
| Panicked (why : panic).

(** [pkt.Header.Padding = false; pkt.PaddingSize = 0] *)
Definition removePadding (pkt : rtp.Packet) : rtp.Packet :=
  let h := rtp.Hdr pkt in
  rtp.mkPacket
    (rtp.mkHeader false (rtp.Marker h) (rtp.PayloadType h) (rtp.SequenceNumber h)
       (rtp.Timestamp h) (rtp.SSRC h) (rtp.CSRC h))
    (rtp.Payload pkt) 0.

(** The encoder of the size-triggered switch: the struct literal followed by
    [t.encoder.Init()]. *)
Definition seededEncoder (f : format.H265) (pkt : rtp.Packet)
    : rtph265.Encoder rtph265.EncoderState :=
  let h := rtp.Hdr pkt in
  let v1 := rtp.SSRC h in
  let v2 := rtp.SequenceNumber h in
  let v3 := rtp.Timestamp h in
  let lit :=
    rtph265.mkEncoder (rtp.PayloadType h) (Some v1) (Some v2) (Some v3)
      (format.MaxDONDiff f) tt in
  rtph265.mkEncoder (rtp.PayloadType h) (Some v1) (Some v2) (Some v3)
    (format.MaxDONDiff f) (rtph265.Init lit).

(** Lines 143-165: the first packet is inspected, and while no encoder exists
    its padding is removed and its size checked.  The packet is reached
    through a pointer, so the batch sees the removal too. *)
Definition inspectFirstPacket (t : formatProcessorH265) (pkt : rtp.Packet)
    : formatProcessorH265 * rtp.Packet :=
  let t := mkProcessor (fst (updateTrackParametersFromRTPPacket (format t) pkt))
             (encoder t) (decoder t) in
  match encoder t with
  | None =>
      let pkt := removePadding pkt in
      if (rtph265.MarshalSize pkt >? rtph265.maxPacketSize)%Z
      then (mkProcessor (format t) (Some (seededEncoder (format t) pkt)) (decoder t), pkt)
      else (t, pkt)
  | Some _ => (t, pkt)
  end.

Definition isSome {A} (o : option A) : bool :=
  match o with Some _ => true | None => false end.

(** The decoder the call uses: the existing one, or a new one. *)
Definition currentDecoder (t : formatProcessorH265) : rtph265.DecoderState :=
  match decoder t with
  | Some d => d
  | None => rtph265.CreateDecoder (format t)
  end.

(** Lines 201-207: [t.encoder.Encode] and the store of its packets. *)
Definition encodeUnits (t : formatProcessorH265) (tdata : dataH265) : outcome :=
  match encoder t with
  | None => Panicked NilDereference
  | Some e =>
      let '(st, r) := rtph265.Encode e (nalus tdata) (pts tdata) in
      let e := rtph265.mkEncoder (rtph265.PayloadType e) (rtph265.SSRC e)
                 (rtph265.InitialSequenceNumber e) (rtph265.InitialTimestamp e)
                 (rtph265.MaxDONDiff e) st in
      let t := mkProcessor (format t) (Some e) (decoder t) in
      match r with
      | Err err => Returned t tdata (Some err)
      | Ok pkts => Returned t (mkData pkts (ntp tdata) (pts tdata) (nalus tdata)) None
      end
  end.

(** Lines 192-195 and what follows them: without an encoder the batch is
    routed as it is, with one its units are encoded. *)
Definition routeOrEncode (t : formatProcessorH265) (tdata : dataH265) : outcome :=
  match encoder t with
  | None => Returned t tdata None
  | Some _ => encodeUnits t tdata
  end.

Definition process (t : formatProcessorH265) (tdata : dataH265)
    (hasNonRTSPReaders : bool) : outcome :=
  match rtpPackets tdata with
  | Some [] => Panicked IndexOutOfRange
  | Some (pkt :: others) =>
      let '(t, pkt) := inspectFirstPacket t pkt in
      let tdata := mkData (Some (pkt :: others)) (ntp tdata) (pts tdata) (nalus tdata) in
      (* decode from RTP *)
      if hasNonRTSPReaders || isSome (encoder t) then
        let dec := currentDecoder t in
        let tdata :=
          if isSome (encoder t)
          then mkData None (ntp tdata) (pts tdata) (nalus tdata) else tdata in
        let '(dec, r) := rtph265.DecodeUntilMarker dec pkt in
        let t := mkProcessor (format t) (encoder t) (Some dec) in
        match r with
        | Err err =>
            if error_eqb err ErrNonStartingPacketAndNoPrevious
               || error_eqb err ErrMorePacketsNeeded
            then Returned t tdata None
            else Returned t tdata (Some err)
        | Ok (ns, p) =>
            let tdata := mkData (rtpPackets tdata) (ntp tdata) p (remuxNALUs ns) in
            routeOrEncode t tdata
        end
      else routeOrEncode t tdata
  | None =>
      let t := mkProcessor (updateTrackParametersFromNALUs (format t) (nalus tdata))
                 (encoder t) (decoder t) in
      let tdata := mkData (rtpPackets tdata) (ntp tdata) (pts tdata)
                     (remuxNALUs (nalus tdata)) in
      encodeUnits t tdata
  end.

End Processor.

(** *** Vocabulary of the properties *)

(** The extracted bytes are there and differ from the stored ones. *)
Definition differs (extracted stored : option bytes) : bool :=
  match extracted with
  | Some _ => negb (slice_Equal extracted stored)
  | None => false
  end.

Definition callsIf (b : bool) (extracted : option bytes) (call : bytes -> StoreCall)
    : list StoreCall :=
  match extracted with
  | Some v => if b then [call v] else []
  | None => []
  end.

End core.

(** ** Package strings *)

Module strings.

(** [strings.Split(s, sep)] for a separator of one byte. *)
Fixpoint Split (s : string) (sep : ascii) : list string :=
  match s with
  | EmptyString => [EmptyString]
  | String c s' =>
      if Ascii.eqb c sep then EmptyString :: Split s' sep
      else
        match Split s' sep with
        | seg :: segs => String c seg :: segs
        | [] => [String c EmptyString]
        end
  end.

(** [strings.Join(elems, sep)] *)
Fixpoint Join (elems : list string) (sep : string) : string :=
  match elems with
  | [] => EmptyString
  | [a] => a
  | a :: rest => (a ++ sep ++ Join rest sep)%string
  end.

Definition HasPrefix (s prefix : string) : bool := String.prefix prefix s.

End strings.

(** ** Package net/url *)

Module url.

Record URL : Type := mkURL {
  Scheme : string;
  Opaque : string;
  Host : string;
  Path : string;
  RawPath : string;
  ForceQuery : bool;
  RawQuery : string;
  Fragment : string
}.

Definition withForceQuery (u : URL) (b : bool) : URL :=
  mkURL (Scheme u) (Opaque u) (Host u) (Path u) (RawPath u) b (RawQuery u) (Fragment u).
Definition withHost (u : URL) (h : string) : URL :=
  mkURL (Scheme u) (Opaque u) h (Path u) (RawPath u) (ForceQuery u) (RawQuery u) (Fragment u).
Definition withScheme (u : URL) (s : string) : URL :=
  mkURL s (Opaque u) (Host u) (Path u) (RawPath u) (ForceQuery u) (RawQuery u) (Fragment u).
(** The parsers and the path printer of net/url. *)
Class Library : Type := {
  Parse : string -> result URL;
  ParseRequestURI : string -> result URL;
  EscapedPath : URL -> string
}.

Section RequestURI.
Context {L : Library}.

(** [u.RequestURI()]: the opaque part, or else the escaped path (a slash
    when that is empty), followed by the query when there is one. *)
Definition RequestURI (u : URL) : string :=
  let result :=
    if String.eqb (Opaque u) "" then
      let p := EscapedPath u in
      if String.eqb p "" then "/"%string else p
    else if strings.HasPrefix (Opaque u) "//" then (Scheme u ++ ":" ++ Opaque u)%string
    else Opaque u in
  if ForceQuery u || negb (String.eqb (RawQuery u) "")
  then (result ++ "?" ++ RawQuery u)%string
  else result.

End RequestURI.

End url.

(** ** Package rtmp: the connection engine *)

Module rtmp.

Import message.

Definition codecH264 : float := 7%float.
Definition codecAAC : float := 10%float.

Definition resultIsOK1 (res : MsgCommandAMF0.t) : bool :=
  match MsgCommandAMF0.Arguments res with
  | _ :: flvio.Map ma :: _ =>
      match flvio.GetString ma "level" with
      | Some v => String.eqb v "status"
      | None => false
      end
  | _ => false
  end.

Definition resultIsOK2 (res : MsgCommandAMF0.t) : bool :=
  match MsgCommandAMF0.Arguments res with
  | _ :: flvio.Float64 v :: _ => PrimFloat.eqb v 1%float
  | _ => false
  end.

(** The decoders of configuration records and of AVCC payloads, which live in
    internal/rtmp/h264conf and in gortsplib. *)
Class Library : Type := {
  AudioConfig : Type;
  h264conf_Unmarshal : bytes -> result (bytes * bytes);   (* SPS, PPS *)
  mpeg4audio_Unmarshal : bytes -> result AudioConfig;
  AVCCUnmarshal : bytes -> result (list bytes)
}.

(** Modelled from the spec: the Message Channel ([message.ReadWriter] over the
    byte counter, internal/rtmp/message and internal/rtmp/bytecounter) and the
    transport handshake (internal/rtmp/handshake).  The engine only reads the
    next message and writes a message; a read or a write that fails returns
    the transport's error.  [incoming] are the messages the peer sends, after
    which a read fails with [readError]; [writable] is the number of writes
    the transport still accepts, after which a write fails with
    [writeError]; [written] are the messages written so far, oldest first. *)
Record Conn : Type := mkConn {
  handshakeError : option error;
  incoming : list Message;
  readError : error;
  written : list Message;
  writable : nat;
  writeError : error
}.

Definition withIncoming (c : Conn) (inbox : list Message) : Conn :=
  mkConn (handshakeError c) inbox (readError c) (written c) (writable c) (writeError c).

(** [c.mrw.Read()] *)
Definition Read (c : Conn) : Conn * result Message :=
  match incoming c with
  | [] => (c, Err (readError c))
  | m :: rest => (withIncoming c rest, Ok m)
  end.

(** [c.mrw.Write(msg)] *)
Definition Write (c : Conn) (msg : Message) : Conn * option error :=
  match writable c with
  | O => (c, Some (writeError c))
  | S n =>
      (mkConn (handshakeError c) (incoming c) (readError c) (written c ++ [msg]) n
         (writeError c), None)
  end.

(** A run of [err = c.mrw.Write(...); if err != nil { return ..., err }]. *)
Fixpoint writeAll (c : Conn) (msgs : list Message) : Conn * option error :=
  match msgs with
  | [] => (c, None)
  | m :: rest =>
      match Write c m with
      | (c', Some e) => (c', Some e)
      | (c', None) => writeAll c' rest
      end
  end.

Definition ReadMessage (c : Conn) : Conn * result Message := Read c.
Definition WriteMessage (c : Conn) (msg : Message) : Conn * option error := Write c msg.

(** The [for] loop of [readCommand]; every turn reads one message. *)
Fixpoint readCommandFrom (inbox : list Message) (failure : error)
    : list Message * result MsgCommandAMF0.t :=
  match inbox with
  | [] => ([], Err failure)
  | CommandAMF0 cmd :: rest => (rest, Ok cmd)
  | _ :: rest => readCommandFrom rest failure
  end.

Definition readCommand (c : Conn) : Conn * result MsgCommandAMF0.t :=
  let '(rest, r) := readCommandFrom (incoming c) (readError c) in
  (withIncoming c rest, r).

Section Engine.

Context {U : url.Library} {X : Library}.

Local Open Scope string_scope.

Definition splitPath (u : url.URL) : string * string :=
  let nu := url.withForceQuery u false in
  let pathsegs := strings.Split (url.RequestURI nu) "/" in
  let app := EmptyString in
  let stream := EmptyString in
  let app :=
    if (List.length pathsegs =? 2)%nat then nth 1 pathsegs EmptyString else app in
  let '(app, stream) :=
    if (List.length pathsegs =? 3)%nat
    then (nth 1 pathsegs EmptyString, nth 2 pathsegs EmptyString)
    else (app, stream) in
  if (3 <? List.length pathsegs)%nat
  then (strings.Join (firstn 2 (skipn 1 pathsegs)) "/", strings.Join (skipn 3 pathsegs) "/")
  else (app, stream).

Definition createURL (tcurl app play : string) : result url.URL :=
  match url.ParseRequestURI ("/" ++ app ++ "/" ++ play) with
  | Err err => Err err
  | Ok u =>
      match url.Parse tcurl with
      | Err err => Err err
      | Ok tu =>
          if String.eqb (url.Host tu) "" then Err (Errorf "invalid host")
          else
            let u := url.withHost u (url.Host tu) in
            if String.eqb (url.Scheme tu) "" then Err (Errorf "invalid scheme")
            else Ok (url.withScheme u (url.Scheme tu))
      end
  end.

(** The [_result] that answers [connect]. *)
Definition connectResult (cmd : MsgCommandAMF0.t) (oe : float) : Message :=
  CommandAMF0
    (MsgCommandAMF0.mk (MsgCommandAMF0.ChunkStreamID cmd) 0 "_result"
       (MsgCommandAMF0.CommandID cmd)
       [ flvio.Map [ ("fmsVer", flvio.Str "LNX 9,0,124,2");
                     ("capabilities", flvio.Float64 31%float) ];
         flvio.Map [ ("level", flvio.Str "status");
                     ("code", flvio.Str "NetConnection.Connect.Success");
                     ("description", flvio.Str "Connection succeeded.");
                     ("objectEncoding", flvio.Float64 oe) ] ]).

(** The [_result] that answers [createStream]. *)
Definition createStreamResult (cmd : MsgCommandAMF0.t) : Message :=
  CommandAMF0
    (MsgCommandAMF0.mk (MsgCommandAMF0.ChunkStreamID cmd) 0 "_result"
       (MsgCommandAMF0.CommandID cmd) [ flvio.Nil; flvio.Float64 1%float ]).

(** An [onStatus] command on chunk stream 5 and message stream 0x1000000. *)
Definition onStatus (cmd : MsgCommandAMF0.t) (code description : string) : Message :=
  CommandAMF0
    (MsgCommandAMF0.mk 5 16777216 "onStatus" (MsgCommandAMF0.CommandID cmd)
       [ flvio.Nil;
         flvio.Map [ ("level", flvio.Str "status");
                     ("code", flvio.Str code);
                     ("description", flvio.Str description) ] ]).

(** [case "play":] of the command loop. *)
Definition playCommand (tcURL connectpath : string) (c : Conn) (cmd : MsgCommandAMF0.t)
    : Conn * result (url.URL * bool) :=
  match MsgCommandAMF0.Arguments cmd with
  | _ :: flvio.Str actionpath :: _ =>
      match createURL tcURL connectpath actionpath with
      | Err err => (c, Err err)
      | Ok u =>
          match
            writeAll c
              [ UserControlStreamIsRecorded 1;
                UserControlStreamBegin 1;
                onStatus cmd "NetStream.Play.Reset" "play reset";
                onStatus cmd "NetStream.Play.Start" "play start";
                onStatus cmd "NetStream.Data.Start" "data start";
                onStatus cmd "NetStream.Play.PublishNotify" "publish notify" ]
          with
          | (c, Some err) => (c, Err err)
          | (c, None) => (c, Ok (u, false))
          end
      end
  | _ => (c, Err (Errorf "invalid play command arguments"))
  end.

(** [case "publish":] of the command loop. *)
Definition publishCommand (tcURL connectpath : string) (c : Conn) (cmd : MsgCommandAMF0.t)
    : Conn * result (url.URL * bool) :=
  match MsgCommandAMF0.Arguments cmd with
  | _ :: flvio.Str actionpath :: _ =>
      match createURL tcURL connectpath actionpath with
      | Err err => (c, Err err)
      | Ok u =>
          match writeAll c [ onStatus cmd "NetStream.Publish.Start" "publish start" ] with
          | (c, Some err) => (c, Err err)
          | (c, None) => (c, Ok (u, true))
          end
      end
  | _ => (c, Err (Errorf "invalid publish command arguments"))
  end.

Definition inspect {A} (a : A) : {b : A | a = b} := exist _ a eq_refl.

Lemma readCommandFrom_shorter inbox failure rest cmd :
  readCommandFrom inbox failure = (rest, Ok cmd) ->
  (List.length rest < List.length inbox)%nat.
Proof.
  induction inbox as [|m inbox IH]; simpl; [discriminate|].
  destruct m; try (intros H; apply IH in H; lia).
  intros H. injection H as <- _. lia.
Qed.

Lemma readCommand_shorter c c1 cmd :
  readCommand c = (c1, Ok cmd) ->
  (List.length (incoming c1) < List.length (incoming c))%nat.
Proof.
  unfold readCommand.
  destruct (readCommandFrom (incoming c) (readError c)) as [rest r] eqn:E.
  intros H. injection H as <- ->. simpl.
  eapply readCommandFrom_shorter. exact E.
Qed.

Lemma Write_incoming c m : incoming (fst (Write c m)) = incoming c.
Proof. unfold Write. destruct (writable c); reflexivity. Qed.

(** The [for] loop of [InitializeServer] that reads commands until [play] or
    [publish]. *)
Equations? commandLoop (tcURL connectpath : string) (c : Conn)
    : Conn * result (url.URL * bool) by wf (List.length (incoming c)) lt :=
  commandLoop tcURL connectpath c with inspect (readCommand c) := {
    | exist _ (c1, Err err) _ => (c1, Err err)
    | exist _ (c1, Ok cmd) Hread
        with String.eqb (MsgCommandAMF0.Name cmd) "createStream" := {
        | true with inspect (Write c1 (createStreamResult cmd)) := {
            | exist _ (c2, Some err) _ => (c2, Err err)
            | exist _ (c2, None) Hwrite => commandLoop tcURL connectpath c2 }
        | false =>
            if String.eqb (MsgCommandAMF0.Name cmd) "play" then
              playCommand tcURL connectpath c1 cmd
            else if String.eqb (MsgCommandAMF0.Name cmd) "publish" then
              publishCommand tcURL connectpath c1 cmd
            else commandLoop tcURL connectpath c1 } }.
Proof.
  - apply (f_equal fst) in Hwrite. simpl in Hwrite. rewrite <- Hwrite.
    rewrite Write_incoming. eapply readCommand_shorter. exact Hread.
  - eapply readCommand_shorter. exact Hread.
Qed.

(** InitializeServer performs the initialization of a server-side connection. *)
Definition InitializeServer (c : Conn) : Conn * result (url.URL * bool) :=
  match handshakeError c with
  | Some err => (c, Err err)
  | None =>
      let '(c, r) := readCommand c in
      match r with
      | Err err => (c, Err err)
      | Ok cmd =>
          if negb (String.eqb (MsgCommandAMF0.Name cmd) "connect")
          then (c, Err (ErrorfCommand "unexpected command:" cmd))
          else
            match MsgCommandAMF0.Arguments cmd with
            | flvio.Map ma :: _ =>
                match flvio.GetString ma "app" with
                | None => (c, Err (ErrorfCommand "invalid connect command:" cmd))
                | Some connectpath =>
                    match
                      match flvio.GetString ma "tcUrl" with
                      | Some s => Some s
                      | None => flvio.GetString ma "tcurl"
                      end
                    with
                    | None => (c, Err (ErrorfCommand "invalid connect command:" cmd))
                    | Some tcURL =>
                        let oe := flvio.GetFloat64 ma "objectEncoding" in
                        match
                          writeAll c
                            [ SetWindowAckSize 2500000;
                              SetPeerBandwidth 2500000 2;
                              SetChunkSize 65536;
                              connectResult cmd oe ]
                        with
                        | (c, Some err) => (c, Err err)
                        | (c, None) => commandLoop tcURL connectpath c
                        end
                    end
                end
            | _ => (c, Err (ErrorfCommand "invalid connect command:" cmd))
            end
      end
  end.

Definition Audio_t : Type := format.MPEG4Audio.t AudioConfig.

Definition trackFromH264DecoderConfig (data : bytes) : result format.H264.t :=
  match h264conf_Unmarshal data with
  | Err err => Err (ErrorfError "unable to parse H264 config:" err)
  | Ok (sps, pps) => Ok (format.H264.mk 96 sps pps 1)
  end.

Definition trackFromAACDecoderConfig (data : bytes) : result Audio_t :=
  match mpeg4audio_Unmarshal data with
  | Err err => Err err
  | Ok mpegConf => Ok (format.MPEG4Audio.mk 96 mpegConf 13 3 3)
  end.

(** How track discovery ends: it returns tracks or an error, or it panics on
    [nalu[0]] of an empty unit. *)
Inductive discovery (V : Type) : Type :=
| Finished (r : result (option V * option Audio_t))
| Panics.
Arguments Finished {V} r.
Arguments Panics {V}.

(** The closure that reads [videocodecid]. *)
Definition metadataHasVideo (md : flvio.AMFMap) : result bool :=
  match flvio.GetV md "videocodecid" with
  | None => Ok false
  | Some v =>
      match v with
      | flvio.Float64 vt =>
          if PrimFloat.eqb vt 0%float then Ok false
          else if PrimFloat.eqb vt codecH264 then Ok true
          else Err (ErrorfValue "unsupported video codec" v)
      | flvio.Str vt =>
          if String.eqb vt "avc1" then Ok true
          else Err (ErrorfValue "unsupported video codec" v)
      | _ => Err (ErrorfValue "unsupported video codec" v)
      end
  end.

(** The closure that reads [audiocodecid]. *)
Definition metadataHasAudio (md : flvio.AMFMap) : result bool :=
  match flvio.GetV md "audiocodecid" with
  | None => Ok false
  | Some v =>
      match v with
      | flvio.Float64 vt =>
          if PrimFloat.eqb vt 0%float then Ok false
          else if PrimFloat.eqb vt codecAAC then Ok true
          else Err (ErrorfValue "unsupported audio codec" v)
      | flvio.Str vt =>
          if String.eqb vt "mp4a" then Ok true
          else Err (ErrorfValue "unsupported audio codec" v)
      | _ => Err (ErrorfValue "unsupported audio codec" v)
      end
  end.

(** The [for _, nalu := range nalus] loop over a key frame's units; [None]
    when [nalu[0]] is out of range. *)
Fixpoint sniffH265 (nalus : list bytes) (vps sps pps : option bytes)
    : option (option bytes * option bytes * option bytes) :=
  match nalus with
  | [] => Some (vps, sps, pps)
  | nalu :: rest =>
      match nalu with
      | [] => None
      | b :: _ =>
          let typ := h265.NALUType b in
          if (typ =? h265.NALUType_VPS_NUT)%Z then sniffH265 rest (Some nalu) sps pps
          else if (typ =? h265.NALUType_SPS_NUT)%Z then sniffH265 rest vps (Some nalu) pps
          else if (typ =? h265.NALUType_PPS_NUT)%Z then sniffH265 rest vps sps (Some nalu)
          else sniffH265 rest vps sps pps
      end
  end.

(** One turn of a discovery loop: leave the function, or go on to the test
    at the end of the turn with the tracks found so far. *)
Inductive turn (V : Type) : Type :=
| Leave (d : discovery V)
| GoOn (videoTrack : option V) (audioTrack : option Audio_t).
Arguments Leave {V} d.
Arguments GoOn {V} videoTrack audioTrack.

(** The [switch tmsg := msg.(type)] of [readTracksFromMetadata]. *)
Definition metadataTurn (hasVideo hasAudio : bool)
    (videoTrack : option format.Format) (audioTrack : option Audio_t)
    (msg : Message) : turn format.Format :=
  match msg with
  | Video tmsg =>
      if negb hasVideo then Leave (Finished (Err (Errorf "unexpected video packet")))
      else
        match videoTrack with
        | Some _ => GoOn videoTrack audioTrack
        | None =>
            if (MsgVideo.H264Type tmsg =? flvio.AVC_SEQHDR)%Z then
              match trackFromH264DecoderConfig (MsgVideo.Payload tmsg) with
              | Err err => Leave (Finished (Err err))
              | Ok t => GoOn (Some (format.OfH264 t)) audioTrack
              end
            else if (MsgVideo.H264Type tmsg =? 1)%Z && MsgVideo.IsKeyFrame tmsg then
              match AVCCUnmarshal (MsgVideo.Payload tmsg) with
              | Err err => Leave (Finished (Err err))
              | Ok nalus =>
                  match sniffH265 nalus None None None with
                  | None => Leave Panics
                  | Some (Some h265VPS, Some h265SPS, Some h265PPS) =>
                      GoOn (Some (format.OfH265
                                    (format.mkH265 96 (Some h265VPS) (Some h265SPS)
                                       (Some h265PPS) 0)))
                        audioTrack
                  | Some _ => GoOn videoTrack audioTrack
                  end
              end
            else GoOn videoTrack audioTrack
        end
  | Audio tmsg =>
      if negb hasAudio then Leave (Finished (Err (Errorf "unexpected audio packet")))
      else
        match audioTrack with
        | Some _ => GoOn videoTrack audioTrack
        | None =>
            if (MsgAudio.AACType tmsg =? flvio.AVC_SEQHDR)%Z then
              match trackFromAACDecoderConfig (MsgAudio.Payload tmsg) with
              | Err err => Leave (Finished (Err err))
              | Ok t => GoOn videoTrack (Some t)
              end
            else GoOn videoTrack audioTrack
        end
  | _ => GoOn videoTrack audioTrack
  end.

Definition isSome {A} (o : option A) : bool :=
  match o with Some _ => true | None => false end.

(** The [for] loop of [readTracksFromMetadata]; every turn reads one message.
    The messages not read are returned with the result. *)
Fixpoint metadataLoop (hasVideo hasAudio : bool)
    (videoTrack : option format.Format) (audioTrack : option Audio_t)
    (inbox : list Message) (failure : error)
    : list Message * discovery format.Format :=
  match inbox with
  | [] => ([], Finished (Err failure))
  | msg :: rest =>
      match metadataTurn hasVideo hasAudio videoTrack audioTrack msg with
      | Leave d => (rest, d)
      | GoOn videoTrack audioTrack =>
          if (negb hasVideo || isSome videoTrack) && (negb hasAudio || isSome audioTrack)
          then (rest, Finished (Ok (videoTrack, audioTrack)))
          else metadataLoop hasVideo hasAudio videoTrack audioTrack rest failure
      end
  end.

Definition readTracksFromMetadata (c : Conn) (payload : list flvio.Value)
    : Conn * discovery format.Format :=
  match payload with
  | [flvio.Map md] =>
      match metadataHasVideo md with
      | Err err => (c, Finished (Err err))
      | Ok hasVideo =>
          match metadataHasAudio md with
          | Err err => (c, Finished (Err err))
          | Ok hasAudio =>
              if negb hasVideo && negb hasAudio
              then (c, Finished (Err errEmptyMetadata))
              else
                let '(rest, d) :=
                  metadataLoop hasVideo hasAudio None None (incoming c) (readError c) in
                (withIncoming c rest, d)
          end
      end
  | _ => (c, Finished (Err (Errorf "invalid metadata")))
  end.

(** [1*time.Second], in nanoseconds. *)
Definition Second : Z := 1000000000.

(** [a - b] on [time.Duration]. *)
Definition Duration_sub (a b : Z) : Z := int64 (a - b).

Definition Tracks : Type := (option format.H264.t * option Audio_t)%type.

(** One turn of the loop labelled [outer] in [readTracksFromMessages]. *)
Inductive scan : Type :=
| ScanReturn (r : result Tracks)
| ScanBreak (videoTrack : option format.H264.t) (audioTrack : option Audio_t)
| ScanNext (startTime : option Z)
    (videoTrack : option format.H264.t) (audioTrack : option Audio_t).

(** The test that ends a [case]: [(tmsg.DTS - *startTime) >= 1*time.Second]. *)
Definition windowTest (dts startTime : Z)
    (videoTrack : option format.H264.t) (audioTrack : option Audio_t) : scan :=
  if (Duration_sub dts startTime >=? Second)%Z
  then ScanBreak videoTrack audioTrack
  else ScanNext (Some startTime) videoTrack audioTrack.

Definition messagesTurn (startTime : option Z)
    (videoTrack : option format.H264.t) (audioTrack : option Audio_t)
    (msg : Message) : scan :=
  match msg with
  | Video tmsg =>
      let startTime :=
        match startTime with Some v => v | None => MsgVideo.DTS tmsg end in
      if (MsgVideo.H264Type tmsg =? flvio.AVC_SEQHDR)%Z then
        match videoTrack with
        | None =>
            match trackFromH264DecoderConfig (MsgVideo.Payload tmsg) with
            | Err err => ScanReturn (Err err)
            | Ok t =>
                (* stop the analysis if both tracks are found *)
                if isSome audioTrack then ScanReturn (Ok (Some t, audioTrack))
                else windowTest (MsgVideo.DTS tmsg) startTime (Some t) audioTrack
            end
        | Some _ => windowTest (MsgVideo.DTS tmsg) startTime videoTrack audioTrack
        end
      else windowTest (MsgVideo.DTS tmsg) startTime videoTrack audioTrack
  | Audio tmsg =>
      let startTime :=
        match startTime with Some v => v | None => MsgAudio.DTS tmsg end in
      if (MsgAudio.AACType tmsg =? flvio.AVC_SEQHDR)%Z then
        match audioTrack with
        | None =>
            match trackFromAACDecoderConfig (MsgAudio.Payload tmsg) with
            | Err err => ScanReturn (Err err)
            | Ok t =>
                (* stop the analysis if both tracks are found *)
                if isSome videoTrack then ScanReturn (Ok (videoTrack, Some t))
                else windowTest (MsgAudio.DTS tmsg) startTime videoTrack (Some t)
            end
        | Some _ => windowTest (MsgAudio.DTS tmsg) startTime videoTrack audioTrack
        end
      else windowTest (MsgAudio.DTS tmsg) startTime videoTrack audioTrack
  | _ => ScanNext startTime videoTrack audioTrack
  end.

(** What follows the loop. *)
Definition afterScan (videoTrack : option format.H264.t) (audioTrack : option Audio_t)
    : result Tracks :=
  match videoTrack, audioTrack with
  | None, None => Err (Errorf "no tracks found")
  | _, _ => Ok (videoTrack, audioTrack)
  end.

(** The loop of [readTracksFromMessages]: [msg] is the message in hand and
    [inbox] the messages still to be read.  The messages not read are
    returned with the result. *)
Fixpoint messagesLoop (startTime : option Z)
    (videoTrack : option format.H264.t) (audioTrack : option Audio_t)
    (msg : Message) (inbox : list Message) (failure : error) {struct inbox}
    : list Message * result Tracks :=
  match messagesTurn startTime videoTrack audioTrack msg with
  | ScanReturn r => (inbox, r)
  | ScanBreak videoTrack audioTrack => (inbox, afterScan videoTrack audioTrack)
  | ScanNext startTime videoTrack audioTrack =>
      match inbox with
      | [] => ([], Err failure)
      | next :: rest => messagesLoop startTime videoTrack audioTrack next rest failure
      end
  end.

Definition readTracksFromMessages (c : Conn) (msg : Message) : Conn * result Tracks :=
  let '(rest, r) := messagesLoop None None None msg (incoming c) (readError c) in
  (withIncoming c rest, r).




(** *** Vocabulary of the properties *)






End Engine.

End rtmp.

(** ** Instances of the collaborating packages

    The engine and the processor are stated over any implementation of the
    packages they call.  To run them on concrete inputs, the instances below
    supply small implementations: a decoder and an encoder that handle one
    unit per packet, and a URL parser for request URIs that begin with a
    slash and for URLs of the form [scheme://host/path?query]. *)

Module sample.

Local Open Scope Z_scope.

(** pion/rtp without header extensions: a 12-byte header, 4 bytes for each
    contributing source, the payload and the padding. *)
Definition MarshalSize (p : rtp.Packet) : Z :=
  12 + 4 * Z.of_nat (List.length (rtp.CSRC (rtp.Hdr p)))
  + Z.of_nat (List.length (rtp.Payload p)) + rtp.PaddingSize p.

(** A decoder that keeps the payloads of a group until the packet that
    carries the marker.  Type 49 is a fragmentation unit, whose third byte has
    bit 7 set on the fragment that starts a unit. *)
Definition DecodeUntilMarker (st : list bytes) (pkt : rtp.Packet)
    : list bytes * result (list bytes * Z) :=
  match rtp.Payload pkt with
  | first :: _ :: rest =>
      let continuation :=
        (h265.NALUType first =? 49)
        && match rest with
           | fu :: _ => negb (Z.testbit (byteZ fu) 7)
           | [] => true
           end in
      if continuation && match st with [] => true | _ => false end
      then (st, Err ErrNonStartingPacketAndNoPrevious)
      else if rtp.Marker (rtp.Hdr pkt)
      then ([], Ok (st ++ [rtp.Payload pkt], rtp.Timestamp (rtp.Hdr pkt)))
      else (st ++ [rtp.Payload pkt], Err ErrMorePacketsNeeded)
  | _ => (st, Err (ErrExternal "rtph265" "payload is too short"))
  end.

(** An encoder that sends every unit in a packet of its own and counts the
    sequence numbers it has used. *)
Definition Encode (e : rtph265.Encoder Z) (nalus : list bytes) (pts : Z)
    : Z * result (option (list rtp.Packet)) :=
  let ssrc := match rtph265.SSRC e with Some v => v | None => 0 end in
  let n := Z.of_nat (List.length nalus) in
  match nalus with
  | [] => (rtph265.internal e, Err (ErrExternal "rtph265" "no units to encode"))
  | _ =>
      (rtph265.internal e + n,
       Ok (Some
             (map (fun nalu =>
                     rtp.mkPacket
                       (rtp.mkHeader false true (rtph265.PayloadType e)
                          (rtph265.internal e) pts ssrc [])
                       nalu 0)
                nalus)))
  end.

#[export] Instance rtph265Library : rtph265.Library := {|
  rtph265.maxPacketSize := 1472;
  rtph265.MarshalSize := MarshalSize;
  rtph265.DecoderState := list bytes;
  rtph265.EncoderState := Z;
  rtph265.CreateDecoder := fun _ => [];
  rtph265.CreateEncoder := fun f =>
    rtph265.mkEncoder (format.PayloadTyp f) None None None (format.MaxDONDiff f) 0;
  rtph265.DecodeUntilMarker := DecodeUntilMarker;
  rtph265.Init := fun e =>
    match rtph265.InitialSequenceNumber e with Some v => v | None => 0 end;
  rtph265.Encode := Encode
|}.

Local Open Scope string_scope.

Definition isCTL (c : ascii) : bool :=
  (nat_of_ascii c <? 32)%nat || (nat_of_ascii c =? 127)%nat.

Fixpoint stringContainsCTLByte (s : string) : bool :=
  match s with
  | EmptyString => false
  | String c s' => isCTL c || stringContainsCTLByte s'
  end.

Definition between (lo c hi : ascii) : bool :=
  (nat_of_ascii lo <=? nat_of_ascii c)%nat && (nat_of_ascii c <=? nat_of_ascii hi)%nat.

Definition isAlnum (c : ascii) : bool :=
  between "a" c "z" || between "A" c "Z" || between "0" c "9".

Definition unhex (c : ascii) : option nat :=
  if between "0" c "9" then Some (nat_of_ascii c - 48)%nat
  else if between "a" c "f" then Some (nat_of_ascii c - 87)%nat
  else if between "A" c "F" then Some (nat_of_ascii c - 55)%nat
  else None.

(** [unescape(s, encodePath)]: [None] on a percent sign that is not followed
    by two hexadecimal digits. *)
Fixpoint unescape (s : string) : option string :=
  match s with
  | EmptyString => Some EmptyString
  | String "%" (String h (String l s')) =>
      match unhex h, unhex l, unescape s' with
      | Some a, Some b, Some r => Some (String (ascii_of_nat (16 * a + b)) r)
      | _, _, _ => None
      end
  | String "%" _ => None
  | String c s' =>
      match unescape s' with
      | Some r => Some (String c r)
      | None => None
      end
  end.

(** [shouldEscape(c, encodePath)] *)
Definition shouldEscape (c : ascii) : bool :=
  if isAlnum c then false
  else if existsb (Ascii.eqb c) ["-"; "_"; "."; "~"]%char then false
  else if existsb (Ascii.eqb c) ["$"; "&"; "+"; ","; "/"; ":"; ";"; "="; "@"]%char then false
  else true.

Definition upperhex (n : nat) : ascii :=
  if (n <? 10)%nat then ascii_of_nat (48 + n) else ascii_of_nat (55 + n).

(** [escape(s, encodePath)] *)
Fixpoint escape (s : string) : string :=
  match s with
  | EmptyString => EmptyString
  | String c s' =>
      if shouldEscape c
      then String "%" (String (upperhex (nat_of_ascii c / 16))
                         (String (upperhex (nat_of_ascii c mod 16)) (escape s')))
      else String c (escape s')
  end.

(** [strings.Cut(s, sep)] for a separator of one byte. *)
Fixpoint Cut (s : string) (sep : ascii) : string * string * bool :=
  match s with
  | EmptyString => (EmptyString, EmptyString, false)
  | String c s' =>
      if Ascii.eqb c sep then (EmptyString, s', true)
      else let '(before, after, found) := Cut s' sep in (String c before, after, found)
  end.

(** [u.setPath(p)] on a URL that has only its scheme, host and query yet. *)
Definition setPath (scheme host : string) (forceQuery : bool) (rawQuery p : string)
    : result url.URL :=
  match unescape p with
  | None => Err (ErrExternal "net/url" "invalid URL escape")
  | Some path =>
      Ok (url.mkURL scheme "" host path
            (if String.eqb (escape path) p then "" else p) forceQuery rawQuery "")
  end.

(** The query of [rest]: a lone question mark at the end forces an empty
    query, otherwise the query is what follows the first question mark. *)
Definition splitQuery (rest : string) : string * bool * string :=
  let '(before, after, found) := Cut rest "?" in
  if found && String.eqb after "" then (before, true, "")
  else (before, false, after).

(** [url.ParseRequestURI] on strings that begin with a slash, as every
    argument of [createURL]'s call does. *)
Definition ParseRequestURI (rawURL : string) : result url.URL :=
  if stringContainsCTLByte rawURL
  then Err (ErrExternal "net/url" "invalid control character in URL")
  else
    match rawURL with
    | String "/" _ =>
        let '(rest, forceQuery, rawQuery) := splitQuery rawURL in
        setPath "" "" forceQuery rawQuery rest
    | _ => Err (ErrExternal "net/url" "invalid URI for request")
    end.

Definition isSchemeChar (c : ascii) : bool :=
  isAlnum c || existsb (Ascii.eqb c) ["+"; "-"; "."]%char.

Definition toLower (c : ascii) : ascii :=
  if between "A" c "Z" then ascii_of_nat (nat_of_ascii c + 32) else c.

Fixpoint ToLower (s : string) : string :=
  match s with
  | EmptyString => EmptyString
  | String c s' => String (toLower c) (ToLower s')
  end.

Fixpoint allChars (p : ascii -> bool) (s : string) : bool :=
  match s with
  | EmptyString => true
  | String c s' => p c && allChars p s'
  end.

(** [url.Parse] on [scheme://host/path?query] and on rooted paths without a
    scheme; user information, bracketed hosts and fragments are left out. *)
Definition Parse (rawURL : string) : result url.URL :=
  if stringContainsCTLByte rawURL
  then Err (ErrExternal "net/url" "invalid control character in URL")
  else
    match rawURL with
    | String "/" (String "/" _) => Err (ErrExternal "net/url" "form left out")
    | String "/" _ =>
        let '(rest, forceQuery, rawQuery) := splitQuery rawURL in
        setPath "" "" forceQuery rawQuery rest
    | _ =>
        let '(scheme, rest, found) := Cut rawURL ":" in
        if negb found || String.eqb scheme "" then
          Err (ErrExternal "net/url" "missing protocol scheme")
        else if negb (allChars isSchemeChar scheme) then
          Err (ErrExternal "net/url" "form left out")
        else
          match rest with
          | String "/" (String "/" authorityAndPath) =>
              let '(rest, forceQuery, rawQuery) := splitQuery authorityAndPath in
              let '(host, path, rooted) := Cut rest "/" in
              if allChars (fun c => isAlnum c || existsb (Ascii.eqb c) ["."; "-"; ":"]%char) host
              then setPath (ToLower scheme) host forceQuery rawQuery
                     (if rooted then String "/" path else "")
              else Err (ErrExternal "net/url" "form left out")
          | _ => Err (ErrExternal "net/url" "form left out")
          end
    end.

(** [u.EscapedPath()] *)
Definition EscapedPath (u : url.URL) : string :=
  if negb (String.eqb (url.RawPath u) "")
     && match unescape (url.RawPath u) with
        | Some p => String.eqb p (url.Path u)
        | None => false
        end
  then url.RawPath u
  else if String.eqb (url.Path u) "*" then "*"
  else escape (url.Path u).

#[export] Instance urlLibrary : url.Library := {|
  url.Parse := Parse;
  url.ParseRequestURI := ParseRequestURI;
  url.EscapedPath := EscapedPath
|}.

(** A configuration record is a length byte, that many bytes of SPS, and the
    PPS; an audio configuration is any two bytes or more; an AVCC payload is
    taken as one unit. *)
Definition h264conf_Unmarshal (data : bytes) : result (bytes * bytes) :=
  match data with
  | n :: rest =>
      if (Z.to_nat (byteZ n) <=? List.length rest)%nat
      then Ok (firstn (Z.to_nat (byteZ n)) rest, skipn (Z.to_nat (byteZ n)) rest)
      else Err (ErrExternal "h264conf" "invalid size")
  | [] => Err (ErrExternal "h264conf" "invalid size")
  end.

#[export] Instance rtmpLibrary : rtmp.Library := {|
  rtmp.AudioConfig := bytes;
  rtmp.h264conf_Unmarshal := h264conf_Unmarshal;
  rtmp.mpeg4audio_Unmarshal := fun data =>
    match data with
    | _ :: _ :: _ => Ok data
    | _ => Err (ErrExternal "mpeg4audio" "not enough bits")
    end;
  rtmp.AVCCUnmarshal := fun data =>
    match data with
    | [] => Err (ErrExternal "h264" "invalid length")
    | _ => Ok [data]
    end
|}.

(** *** Inputs of the runs *)

(** An aggregation packet (type 48) that packs a VPS [40 01], an SPS [42 01]
    and a PPS [44 01], each behind its 2-byte length. *)
Definition aggregationOfVPSSPSPPS : rtp.Packet :=
  rtp.mkPacket (rtp.mkHeader false true 96 7 90000 1 [])
    [x60; x01; x00; x02; x40; x01; x00; x02; x42; x01; x00; x02; x44; x01] 0.

Definition track : format.H265 := format.mkH265 96 None None None 0.

(** A packet of 1512 bytes: a 12-byte header and 1500 bytes of payload. *)
Definition oversized : rtp.Packet :=
  rtp.mkPacket (rtp.mkHeader false true 96 4660 90000 3735928559 [])
    (repeat x02 1500) 0.

(** The first packet of a group: no marker. *)
Definition unfinished : rtp.Packet :=
  rtp.mkPacket (rtp.mkHeader false false 96 17 3000 1 []) [x02; x01; xaa] 0.

(** [rtmp://localhost:1935/live/cam?token=a] *)
Definition camURL : url.URL :=
  url.mkURL "rtmp" "" "localhost:1935" "/live/cam" "" false "token=a" "".

Definition closed : error := ErrExternal "transport" "EOF".

(** A [play] of the stream "cam", after an acknowledgement. *)
Definition playCam : message.MsgCommandAMF0.t :=
  message.MsgCommandAMF0.mk 8 1 "play" 4 [flvio.Nil; flvio.Str "cam"].

Definition beforePlay : rtmp.Conn :=
  rtmp.mkConn None [message.Acknowledge 0; message.CommandAMF0 playCam] closed [] 6 closed.

(** Metadata that declares audio only, followed by a video message. *)
Definition audioOnly : flvio.AMFMap :=
  [ ("videocodecid", flvio.Float64 0%float); ("audiocodecid", flvio.Float64 10%float) ].

Definition keyFrame : message.Message :=
  message.Video (message.MsgVideo.mk 6 0 16777216 true 1 [x00; x00; x00; x01; x40]).

Definition rawAudio (dts : Z) : message.Message :=
  message.Audio (message.MsgAudio.mk 4 dts 16777216 1 [x21; x10]).

Definition audioConfig (dts : Z) : message.Message :=
  message.Audio (message.MsgAudio.mk 4 dts 16777216 0 [x12; x10]).

Definition rawVideo (dts : Z) : message.Message :=
  message.Video (message.MsgVideo.mk 6 dts 16777216 false 1 [x00; x00; x00; x01; x02]).

Definition afterMetadata : rtmp.Conn :=
  rtmp.mkConn None [rawAudio 0; keyFrame; audioConfig 40000000] closed [] 0 closed.

Definition audioOnlyTraffic : rtmp.Conn :=
  rtmp.mkConn None [rawAudio 500000000; rawAudio 1000000000; rawAudio 1500000000]
    closed [] 0 closed.

End sample.

(** ** Package rtmp: the client side and the reading of tracks *)

Module rtmp_more.

Import message rtmp.

(** [u.String()] of net/url. *)
Class Printer : Type := {
  String : url.URL -> string
}.

(** The [for] loop of [readCommandResult]; every turn reads one message. *)
Fixpoint readCommandResultFrom (inbox : list Message) (failure : error)
    (commandID : Z) (commandName : string) (isValid : MsgCommandAMF0.t -> bool)
    : list Message * option error :=
  match inbox with
  | [] => ([], Some failure)
  | CommandAMF0 cmd :: rest =>
      if (MsgCommandAMF0.CommandID cmd =? commandID)%Z
         && String.eqb (MsgCommandAMF0.Name cmd) commandName
      then
        if negb (isValid cmd)
        then (rest, Some (Errorf "server refused connect request"))
        else (rest, None)
      else readCommandResultFrom rest failure commandID commandName isValid
  | _ :: rest => readCommandResultFrom rest failure commandID commandName isValid
  end.

Definition readCommandResult (commandID : Z) (commandName : string)
    (isValid : MsgCommandAMF0.t -> bool) (c : Conn) : Conn * option error :=
  let '(rest, err) :=
    readCommandResultFrom (incoming c) (readError c) commandID commandName isValid in
  (withIncoming c rest, err).

(** [err = step; if err != nil { return err }] followed by the rest. *)
Definition andThen (first next : Conn -> Conn * option error) (c : Conn)
    : Conn * option error :=
  match first c with
  | (c', Some err) => (c', Some err)
  | (c', None) => next c'
  end.

Definition write (msg : Message) (c : Conn) : Conn * option error := Write c msg.

(** How [InitializeClient] ends: it returns its error or nil, or it panics
    in [getTcURL]. *)
Inductive clientOutcome : Type :=
| ClientReturned (c : Conn) (err : option error)
| ClientPanicked.

(** A value of the interface [format.Format] as [ReadTracks] returns it: the
    nil interface, or a pointer to an H264 format (a pointer that may itself
    be nil), or a pointer to an H265 format. *)
Inductive FormatValue : Type :=
| NilFormat
| H264Pointer (p : option format.H264.t)
| H265Pointer (f : format.H265).

Section Client.

Context {U : url.Library} {P : Printer} {X : Library}.

Local Open Scope string_scope.

(** [getTcURL]; [None] when [url.Parse] fails, for then [nu] is nil and the
    assignment to [nu.RawQuery] panics. *)
Definition getTcURL (u : url.URL) : option string :=
  let '(app, _) := splitPath u in
  match url.Parse (String u) with
  | Err _ => None
  | Ok nu =>
      let nu :=
        url.mkURL (url.Scheme nu) (url.Opaque nu) (url.Host nu) (url.Path nu)
          (url.RawPath nu) (url.ForceQuery nu) "" (url.Fragment nu) in
      let nu :=
        url.mkURL (url.Scheme nu) (url.Opaque nu) (url.Host nu) "/"
          (url.RawPath nu) (url.ForceQuery nu) (url.RawQuery nu) (url.Fragment nu) in
      Some (String nu ++ app)
  end.

(** The [connect] command of the client. *)
Definition connectCommand (connectpath tcURL : string) : Message :=
  CommandAMF0
    (MsgCommandAMF0.mk 3 0 "connect" 1
       [ flvio.Map [ ("app", flvio.Str connectpath);
                     ("flashVer", flvio.Str "LNX 9,0,124,2");
                     ("tcUrl", flvio.Str tcURL);
                     ("fpad", flvio.Bool false);
                     ("capabilities", flvio.Int 15);
                     ("audioCodecs", flvio.Int 4071);
                     ("videoCodecs", flvio.Int 252);
                     ("videoFunction", flvio.Int 1) ] ]).

(** InitializeClient performs the initialization of a client-side connection. *)
Definition InitializeClient (c : Conn) (u : url.URL) (isPublishing : bool)
    : clientOutcome :=
  let '(connectpath, actionpath) := splitPath u in
  match handshakeError c with
  | Some err => ClientReturned c (Some err)
  | None =>
      match
        andThen (write (SetWindowAckSize 2500000))
          (andThen (write (SetPeerBandwidth 2500000 2))
             (write (SetChunkSize 65536))) c
      with
      | (c, Some err) => ClientReturned c (Some err)
      | (c, None) =>
          match getTcURL u with
          | None => ClientPanicked
          | Some tcURL =>
              let '(c, err) :=
                andThen (write (connectCommand connectpath tcURL))
                  (andThen (readCommandResult 1 "_result" resultIsOK1)
                     (if negb isPublishing then
                        andThen
                          (write (CommandAMF0
                                    (MsgCommandAMF0.mk 3 0 "createStream" 2 [flvio.Nil])))
                          (andThen (readCommandResult 2 "_result" resultIsOK2)
                             (andThen (write (UserControlSetBufferLength 100))
                                (andThen
                                   (write (CommandAMF0
                                             (MsgCommandAMF0.mk 4 16777216 "play" 3
                                                [flvio.Nil; flvio.Str actionpath])))
                                   (readCommandResult 3 "onStatus" resultIsOK1))))
                      else
                        andThen
                          (write (CommandAMF0
                                    (MsgCommandAMF0.mk 3 0 "releaseStream" 2
                                       [flvio.Nil; flvio.Str actionpath])))
                          (andThen
                             (write (CommandAMF0
                                       (MsgCommandAMF0.mk 3 0 "FCPublish" 3
                                          [flvio.Nil; flvio.Str actionpath])))
                             (andThen
                                (write (CommandAMF0
                                          (MsgCommandAMF0.mk 3 0 "createStream" 4
                                             [flvio.Nil])))
                                (andThen (readCommandResult 4 "_result" resultIsOK2)
                                   (andThen
                                      (write (CommandAMF0
                                                (MsgCommandAMF0.mk 4 16777216 "publish" 5
                                                   [flvio.Nil; flvio.Str actionpath;
                                                    flvio.Str connectpath])))
                                      (readCommandResult 5 "onStatus" resultIsOK1)))))))
                  c in
              ClientReturned c err
          end
      end
  end.

(** How [ReadTracks] ends. *)
Inductive tracksRead : Type :=
| TracksRead (r : result (FormatValue * option Audio_t))
| ReadPanics.

(** A message that the first loop of [ReadTracks] skips: an [onStatus]
    command, or a data message that begins with "|RtmpSampleAccess". *)
Definition skippedByReadTracks (msg : Message) : bool :=
  match msg with
  | CommandAMF0 cmd => String.eqb (MsgCommandAMF0.Name cmd) "onStatus"
  | DataAMF0 data =>
      match MsgDataAMF0.Payload data with
      | flvio.Str s :: _ => String.eqb s "|RtmpSampleAccess"
      | _ => false
      end
  | _ => false
  end.

(** The closure at the head of [ReadTracks]. *)
Fixpoint firstTrackMessage (inbox : list Message) (failure : error)
    : list Message * result Message :=
  match inbox with
  | [] => ([], Err failure)
  | msg :: rest =>
      if skippedByReadTracks msg then firstTrackMessage rest failure
      else (rest, Ok msg)
  end.

(** The results of [readTracksFromMessages] as [ReadTracks] returns them: the
    pointer to the H264 format becomes an interface value, nil or not. *)
Definition fromMessages (r : Conn * result Tracks) : Conn * tracksRead :=
  match r with
  | (c, Ok (videoTrack, audioTrack)) =>
      (c, TracksRead (Ok (H264Pointer videoTrack, audioTrack)))
  | (c, Err err) => (c, TracksRead (Err err))
  end.

(** The results of [readTracksFromMetadata] when its error is nil. *)
Definition interfaceOf (videoTrack : option format.Format) : FormatValue :=
  match videoTrack with
  | None => NilFormat
  | Some (format.OfH264 f) => H264Pointer (Some f)
  | Some (format.OfH265 f) => H265Pointer f
  end.

(** The payload after an optional leading "@setDataFrame". *)
Definition afterSetDataFrame (payload : list flvio.Value) : list flvio.Value :=
  match payload with
  | flvio.Str s :: rest => if String.eqb s "@setDataFrame" then rest else payload
  | _ => payload
  end.

(** ReadTracks reads track informations. *)
Definition ReadTracks (c : Conn) : Conn * tracksRead :=
  let '(rest, r) := firstTrackMessage (incoming c) (readError c) in
  let c := withIncoming c rest in
  match r with
  | Err err => (c, TracksRead (Err err))
  | Ok msg =>
      let heuristic := fromMessages (readTracksFromMessages c msg) in
      match msg with
      | DataAMF0 data =>
          match MsgDataAMF0.Payload data with
          | [] => heuristic
          | _ :: _ =>
              match afterSetDataFrame (MsgDataAMF0.Payload data) with
              | flvio.Str s :: metadata =>
                  if String.eqb s "onMetaData" then
                    match readTracksFromMetadata c metadata with
                    | (c, Panics _) => (c, ReadPanics)
                    | (c, Finished (Ok (videoTrack, audioTrack))) =>
                        (c, TracksRead (Ok (interfaceOf videoTrack, audioTrack)))
                    | (c, Finished (Err err)) =>
                        if error_eqb err errEmptyMetadata then
                          match ReadMessage c with
                          | (c, Err err) => (c, TracksRead (Err err))
                          | (c, Ok msg) => fromMessages (readTracksFromMessages c msg)
                          end
                        else (c, TracksRead (Err err))
                    end
                  else heuristic
              | _ => heuristic
              end
          end
      | _ => heuristic
      end
  end.

End Client.

(** *** Vocabulary of the statements *)

(** The connection [c'] continues [c]: the same transport, messages read
    from the front of the incoming ones, messages [output] written behind the
    written ones, one accepted write for each. *)
Definition continues (c c' : Conn) (output : list Message) : Prop :=
  handshakeError c' = handshakeError c /\
  readError c' = readError c /\
  writeError c' = writeError c /\
  (exists consumed, incoming c = (consumed ++ incoming c')%list) /\
  written c' = (written c ++ output)%list /\
  writable c = (writable c' + List.length output)%nat.

(** The message is a command with this identifier and this name. *)
Definition answers (commandID : Z) (commandName : string) (msg : Message) : bool :=
  match msg with
  | CommandAMF0 cmd =>
      (MsgCommandAMF0.CommandID cmd =? commandID)%Z
      && String.eqb (MsgCommandAMF0.Name cmd) commandName
  | _ => false
  end.

Definition passedOver (commandID : Z) (commandName : string) (msgs : list Message)
    : bool :=
  forallb (fun msg => negb (answers commandID commandName msg)) msgs.

(** A command message. *)
Definition isCommand (msg : Message) : bool :=
  match msg with CommandAMF0 _ => true | _ => false end.

(** A command that ends the loop of the server: [play] or [publish]. *)
Definition endsLoop (msg : Message) : bool :=
  match msg with
  | CommandAMF0 cmd =>
      String.eqb (MsgCommandAMF0.Name cmd) "play"
      || String.eqb (MsgCommandAMF0.Name cmd) "publish"
  | _ => false
  end.

(** The answers to the [createStream] commands among the messages, in their
    order. *)
Fixpoint createStreamResults (msgs : list Message) : list Message :=
  match msgs with
  | [] => []
  | CommandAMF0 cmd :: rest =>
      if String.eqb (MsgCommandAMF0.Name cmd) "createStream"
      then createStreamResult cmd :: createStreamResults rest
      else createStreamResults rest
  | _ :: rest => createStreamResults rest
  end.

(** The messages that answer [play] and [publish]. *)
Definition notifications (isPublishing : bool) (cmd : MsgCommandAMF0.t) : list Message :=
  if isPublishing
  then [ onStatus cmd "NetStream.Publish.Start" "publish start" ]
  else [ UserControlStreamIsRecorded 1;
         UserControlStreamBegin 1;
         onStatus cmd "NetStream.Play.Reset" "play reset";
         onStatus cmd "NetStream.Play.Start" "play start";
         onStatus cmd "NetStream.Data.Start" "data start";
         onStatus cmd "NetStream.Play.PublishNotify" "publish notify" ].



(** Whether a video format is there: neither the nil interface nor a nil
    pointer. *)
Definition present (v : FormatValue) : bool :=
  match v with
  | NilFormat => false
  | H264Pointer p => isSome p
  | H265Pointer _ => true
  end.

(** The payload of a data message announces metadata and carries this
    list of values after the announcement. *)
Definition announces (data : MsgDataAMF0.t) (metadata : list flvio.Value) : Prop :=
  afterSetDataFrame (MsgDataAMF0.Payload data) = flvio.Str "onMetaData" :: metadata.

Section DiscoveryVocabulary.

Context {X : Library}.

(** The tracks in hand agree with the declaration: a track is there only
    when its medium is declared. *)
Definition declared (hasVideo hasAudio : bool)
    (videoTrack : option format.Format) (audioTrack : option Audio_t) : Prop :=
  (isSome videoTrack = true -> hasVideo = true) /\
  (isSome audioTrack = true -> hasAudio = true).

(** The H264 track of the first video configuration among the messages. *)
Fixpoint videoTrackOf (msgs : list Message) : option format.H264.t :=
  match msgs with
  | [] => None
  | Video m :: rest =>
      if (MsgVideo.H264Type m =? flvio.AVC_SEQHDR)%Z then
        match trackFromH264DecoderConfig (MsgVideo.Payload m) with
        | Ok t => Some t
        | Err _ => None
        end
      else videoTrackOf rest
  | _ :: rest => videoTrackOf rest
  end.

(** The audio track of the first audio configuration among the messages. *)
Fixpoint audioTrackOf (msgs : list Message) : option Audio_t :=
  match msgs with
  | [] => None
  | Audio m :: rest =>
      if (MsgAudio.AACType m =? flvio.AVC_SEQHDR)%Z then
        match trackFromAACDecoderConfig (MsgAudio.Payload m) with
        | Ok t => Some t
        | Err _ => None
        end
      else audioTrackOf rest
  | _ :: rest => audioTrackOf rest
  end.

(** The track in hand, or else the track found. *)
Definition orElse {A} (inHand found : option A) : option A :=
  match inHand with
  | Some t => Some t
  | None => found
  end.

(** What a turn of the heuristic scan leaves in hand. *)
Definition handed (s : scan) : option (option format.H264.t * option Audio_t) :=
  match s with
  | ScanReturn (Ok (v, a)) => Some (v, a)
  | ScanReturn (Err _) => None
  | ScanBreak v a => Some (v, a)
  | ScanNext _ v a => Some (v, a)
  end.

End DiscoveryVocabulary.

End rtmp_more.

(** ** Package core: vocabulary of the further statements *)

Module core_more.

Import core.

Section Vocabulary.

Context {L : rtph265.Library}.

(** The encoder [e] with its private state replaced. *)
Definition withInternal (e : rtph265.Encoder rtph265.EncoderState)
    (st : rtph265.EncoderState) : rtph265.Encoder rtph265.EncoderState :=
  rtph265.mkEncoder (rtph265.PayloadType e) (rtph265.SSRC e)
    (rtph265.InitialSequenceNumber e) (rtph265.InitialTimestamp e)
    (rtph265.MaxDONDiff e) st.

(** Whether the call decodes: there are other readers, or the processor has
    an encoder, or the first packet, its padding removed, exceeds the maximum
    size. *)
Definition decodes (t : formatProcessorH265) (pkt : rtp.Packet)
    (hasNonRTSPReaders : bool) : bool :=
  hasNonRTSPReaders || isSome (encoder t)
  || (rtph265.MarshalSize (removePadding pkt) >? rtph265.maxPacketSize)%Z.

End Vocabulary.

End core_more.

(** ** More instances and inputs *)

Module sample_more.

Local Open Scope string_scope.

(** [u.String()] for URLs without user information. *)
Definition String (u : url.URL) : string :=
  (if String.eqb (url.Scheme u) "" then "" else url.Scheme u ++ ":")
  ++ (if String.eqb (url.Opaque u) ""
      then (if String.eqb (url.Host u) "" then "" else "//" ++ url.Host u)
           ++ sample.EscapedPath u
      else url.Opaque u)
  ++ (if url.ForceQuery u || negb (String.eqb (url.RawQuery u) "")
      then "?" ++ url.RawQuery u else "")
  ++ (if String.eqb (url.Fragment u) "" then "" else "#" ++ url.Fragment u).

#[export] Instance printer : rtmp_more.Printer := {|
  rtmp_more.String := String
|}.

(** A packet whose padding of 4 bytes is announced in the header. *)
Definition padded : rtp.Packet :=
  rtp.mkPacket (rtp.mkHeader true true 96 21 6000 1 []) [x02; x01; xbb] 4.

(** The last packet of a group: a whole unit with the marker. *)
Definition finished : rtp.Packet :=
  rtp.mkPacket (rtp.mkHeader false true 96 22 6000 1 []) [x02; x01; xcc] 0.

(** [rtmp://localhost:1935/live/cam] *)
Definition liveCam : url.URL :=
  url.mkURL "rtmp" "" "localhost:1935" "/live/cam" "" false "" "".

Definition videoConfig (dts : Z) : message.Message :=
  message.Video
    (message.MsgVideo.mk 6 dts 16777216 true 0 [x02; x67; x42; x68; xce]).

Definition onStatusCommand : message.Message :=
  message.CommandAMF0 (message.MsgCommandAMF0.mk 5 16777216 "onStatus" 3 [flvio.Nil]).

Definition sampleAccess : message.Message :=
  message.DataAMF0
    (message.MsgDataAMF0.mk 4 16777216
       [flvio.Str "|RtmpSampleAccess"; flvio.Bool true; flvio.Bool true]).

(** A [publish] of the stream "cam" of the application "live". *)
Definition publishCam : message.MsgCommandAMF0.t :=
  message.MsgCommandAMF0.mk 8 1 "publish" 5
    [flvio.Nil; flvio.Str "cam"; flvio.Str "live"].

(** A [play] that names no stream. *)
Definition playNothing : message.MsgCommandAMF0.t :=
  message.MsgCommandAMF0.mk 8 1 "play" 4 [flvio.Nil].

Definition createStream : message.MsgCommandAMF0.t :=
  message.MsgCommandAMF0.mk 3 0 "createStream" 2 [flvio.Nil].

Definition connectArguments : flvio.AMFMap :=
  [ ("app", flvio.Str "live"); ("tcUrl", flvio.Str "rtmp://localhost:1935/live") ].

Definition connect : message.MsgCommandAMF0.t :=
  message.MsgCommandAMF0.mk 3 0 "connect" 1 [flvio.Map connectArguments].

(** A connection after the handshake: these incoming messages, nothing
    written, room for [n] writes. *)
Definition receiving (inbox : list message.Message) (n : nat) : rtmp.Conn :=
  rtmp.mkConn None inbox sample.closed [] n sample.closed.

(** What a server sends to a client: the settings and the answer to
    [connect], the answer to [createStream], and the notifications. *)
Definition connectAnswer : message.MsgCommandAMF0.t :=
  message.MsgCommandAMF0.mk 3 0 "_result" 1
    [ flvio.Map [ ("fmsVer", flvio.Str "LNX 9,0,124,2");
                  ("capabilities", flvio.Float64 31%float) ];
      flvio.Map [ ("level", flvio.Str "status");
                  ("code", flvio.Str "NetConnection.Connect.Success");
                  ("description", flvio.Str "Connection succeeded.");
                  ("objectEncoding", flvio.Float64 0%float) ] ].

Definition settings : list message.Message :=
  [ message.SetWindowAckSize 2500000; message.SetPeerBandwidth 2500000 2;
    message.SetChunkSize 65536 ].

Definition createStreamAnswer (commandID : Z) : message.MsgCommandAMF0.t :=
  message.MsgCommandAMF0.mk 3 0 "_result" commandID [flvio.Nil; flvio.Float64 1%float].

Definition status (code description : string) (commandID : Z)
    : message.MsgCommandAMF0.t :=
  message.MsgCommandAMF0.mk 5 16777216 "onStatus" commandID
    [ flvio.Nil;
      flvio.Map [ ("level", flvio.Str "status");
                  ("code", flvio.Str code);
                  ("description", flvio.Str description) ] ].

Definition afterPlayReset : list message.Message :=
  [ message.CommandAMF0 (status "NetStream.Play.Start" "play start" 3);
    message.CommandAMF0 (status "NetStream.Data.Start" "data start" 3);
    message.CommandAMF0 (status "NetStream.Play.PublishNotify" "publish notify" 3) ].

(** [h264.AVCCUnmarshal]: units behind a length of four bytes each. *)
Fixpoint avccUnits (fuel : nat) (buf : bytes) : result (list bytes) :=
  match fuel with
  | O => Err (ErrExternal "h264" "invalid length")
  | S fuel =>
      match buf with
      | b0 :: b1 :: b2 :: b3 :: rest =>
          let le :=
            Z.to_nat (byteZ b0 * 16777216 + byteZ b1 * 65536 + byteZ b2 * 256 + byteZ b3) in
          if (List.length rest <? le)%nat
          then Err (ErrExternal "h264" "invalid length")
          else
            match skipn le rest with
            | [] => Ok [firstn le rest]
            | more =>
                match avccUnits fuel more with
                | Ok units => Ok (firstn le rest :: units)
                | Err err => Err err
                end
            end
      | _ => Err (ErrExternal "h264" "invalid length")
      end
  end.

(** The parsers of [sample.rtmpLibrary], with units behind their lengths. *)
Definition avccLibrary : rtmp.Library := {|
  rtmp.AudioConfig := bytes;
  rtmp.h264conf_Unmarshal := sample.h264conf_Unmarshal;
  rtmp.mpeg4audio_Unmarshal := fun data =>
    match data with
    | _ :: _ :: _ => Ok data
    | _ => Err (ErrExternal "mpeg4audio" "not enough bits")
    end;
  rtmp.AVCCUnmarshal := fun data => avccUnits (List.length data) data
|}.

(** A key frame whose only unit has the length zero. *)
Definition emptyKeyFrame : message.MsgVideo.t :=
  message.MsgVideo.mk 6 0 16777216 true 1 [x00; x00; x00; x00].

Definition videoOnly : flvio.AMFMap :=
  [ ("videocodecid", flvio.Float64 7%float); ("audiocodecid", flvio.Float64 0%float) ].

(** The data message that carries metadata. *)
Definition metadata (md : flvio.AMFMap) : message.MsgDataAMF0.t :=
  message.MsgDataAMF0.mk 4 16777216
    [flvio.Str "@setDataFrame"; flvio.Str "onMetaData"; flvio.Map md].

(** The tracks of [sample.audioConfig] and of [videoConfig]. *)
Definition audioTrack : format.MPEG4Audio.t bytes :=
  format.MPEG4Audio.mk 96 [x12; x10] 13 3 3.

Definition videoTrack : format.H264.t :=
  format.H264.mk 96 [x67; x42] [x68; xce] 1.

End sample_more.

(** * Properties *)

(** ** Bytes *)

Lemma byte_eqb_refl (x : byte) : Byte.eqb x x = true.
Proof. destruct x; reflexivity. Qed.

Lemma byte_eqb_eq (x y : byte) : Byte.eqb x y = true <-> x = y.
Proof.
  split.
  - intros H. apply Byte.byte_dec_bl. exact H.
  - intros ->. apply byte_eqb_refl.
Qed.

Lemma bytes_Equal_eq (a b : bytes) : bytes_Equal a b = true <-> a = b.
Proof.
  revert b. induction a as [|x a IH]; intros [|y b]; simpl; split;
    try discriminate; try reflexivity.
  - intros H. apply andb_true_iff in H. destruct H as [Hx Ha].
    apply byte_eqb_eq in Hx. apply IH in Ha. congruence.
  - intros H. injection H as -> ->. rewrite byte_eqb_refl. apply IH. reflexivity.
Qed.

Lemma bytes_Equal_refl (a : bytes) : bytes_Equal a a = true.
Proof. apply bytes_Equal_eq. reflexivity. Qed.

Lemma slice_Equal_refl (a : option bytes) : slice_Equal a a = true.
Proof. unfold slice_Equal. apply bytes_Equal_refl. Qed.

Lemma error_eqb_eq (e s : error) :
  s = ErrNonStartingPacketAndNoPrevious \/ s = ErrMorePacketsNeeded ->
  (error_eqb e s = true <-> e = s).
Proof.
  intros [-> | ->]; destruct e; simpl; split; congruence.
Qed.

(** ** The H265 format processor *)

Module core_facts.

Import core.

(** *** Parameter-set extraction *)

(** While the type read for every sub-unit is not one of VPS, SPS and PPS,
    the loop stores nothing: it returns what it was started with, or nothing
    at all after a length that overruns the payload. *)
Lemma aggregationLoop_stores_nothing first payload vps sps pps :
  h265.NALUType first <> h265.NALUType_VPS_NUT ->
  h265.NALUType first <> h265.NALUType_SPS_NUT ->
  h265.NALUType first <> h265.NALUType_PPS_NUT ->
  aggregationLoop first payload vps sps pps = (vps, sps, pps) \/
  aggregationLoop first payload vps sps pps = noParamSets.
Proof.
  intros Hv Hs Hp.
  funelim (aggregationLoop first payload vps sps pps); simp aggregationLoop.
  - left; reflexivity.
  - left; reflexivity.
  - cbv zeta.
    destruct (unitSize b0 b1 =? 0)%Z; [left; reflexivity|].
    destruct (unitSize b0 b1 >? Z.of_nat (List.length rest))%Z; [right; reflexivity|].
    apply Z.eqb_neq in Hv, Hs, Hp. rewrite Hv, Hs, Hp.
    apply Z.eqb_neq in Hv, Hs, Hp. auto.
Qed.

(** The loop reads [pkt.Payload[0]] for every sub-unit, and in an aggregation
    packet that byte carries type 48: no aggregation packet yields a
    parameter set. *)
Lemma aggregation_packet_yields_nothing (pkt : rtp.Packet) first second rest :
  rtp.Payload pkt = first :: second :: rest ->
  h265.NALUType first = h265.NALUType_AggregationUnit ->
  rtpH265ExtractVPSSPSPPS pkt = noParamSets.
Proof.
  intros Hp Ht. unfold rtpH265ExtractVPSSPSPPS. rewrite Hp. cbv zeta.
  rewrite Ht. cbn [Z.eqb h265.NALUType_AggregationUnit h265.NALUType_VPS_NUT
                     h265.NALUType_SPS_NUT h265.NALUType_PPS_NUT].
  change (48 =? 32)%Z with false. change (48 =? 33)%Z with false.
  change (48 =? 34)%Z with false. change (48 =? 48)%Z with true. cbv iota.
  destruct (aggregationLoop_stores_nothing first rest None None None) as [E | E];
    try (rewrite Ht; discriminate); exact E.
Qed.

(** A declared length that exceeds the bytes that remain makes the loop
    return nothing, whatever it had collected. *)
Lemma aggregationLoop_truncated first b0 b1 rest vps sps pps :
  (unitSize b0 b1 > Z.of_nat (List.length rest))%Z ->
  aggregationLoop first (b0 :: b1 :: rest) vps sps pps = noParamSets.
Proof.
  intros H. simp aggregationLoop. cbv zeta.
  assert ((unitSize b0 b1 =? 0)%Z = false) as -> by (apply Z.eqb_neq; lia).
  assert ((unitSize b0 b1 >? Z.of_nat (List.length rest))%Z = true) as ->
    by (apply Z.gtb_lt; lia).
  reflexivity.
Qed.

(** C1 (code differs): on an aggregation packet that packs a VPS, an SPS and
    a PPS within bounds, the extraction returns no parameter set at all,
    because the loop classifies every sub-unit by the first byte of the
    packet instead of the first byte of the sub-unit; classified by its own
    first byte, as the specification says and as the key-frame scan of the
    RTMP code does, the three would be returned. *)
Theorem rtpH265ExtractVPSSPSPPS_aggregation_returns_nothing :
  rtpH265ExtractVPSSPSPPS sample.aggregationOfVPSSPSPPS = (None, None, None) /\
  rtpH265ExtractVPSSPSPPS_spec sample.aggregationOfVPSSPSPPS
  = (Some [x40; x01], Some [x42; x01], Some [x44; x01]).
Proof. split; vm_compute; reflexivity. Qed.

(** *** The update policy *)

(** A slice the extraction returns is never empty. *)
Lemma extracted_nonempty pkt vps sps pps :
  rtpH265ExtractVPSSPSPPS pkt = (vps, sps, pps) ->
  vps <> Some [] /\ sps <> Some [] /\ pps <> Some [].
Proof.
  unfold rtpH265ExtractVPSSPSPPS.
  destruct (rtp.Payload pkt) as [|first [|second rest]] eqn:Hp;
    try (intros H; injection H as <- <- <-; repeat split; discriminate).
  cbv zeta.
  destruct (h265.NALUType first =? h265.NALUType_VPS_NUT)%Z eqn:Ev;
    [intros H; injection H as <- <- <-; repeat split; discriminate|].
  destruct (h265.NALUType first =? h265.NALUType_SPS_NUT)%Z eqn:Es;
    [intros H; injection H as <- <- <-; repeat split; discriminate|].
  destruct (h265.NALUType first =? h265.NALUType_PPS_NUT)%Z eqn:Ep;
    [intros H; injection H as <- <- <-; repeat split; discriminate|].
  destruct (h265.NALUType first =? h265.NALUType_AggregationUnit)%Z;
    [|intros H; injection H as <- <- <-; repeat split; discriminate].
  apply Z.eqb_neq in Ev, Es, Ep.
  destruct (aggregationLoop_stores_nothing first rest None None None Ev Es Ep) as [E | E];
    rewrite E; intros H; injection H as <- <- <-; repeat split; discriminate.
Qed.

(** The track after one update, field by field, and the calls made. *)
Lemma updateTrackParameters_effect f pkt vps sps pps :
  rtpH265ExtractVPSSPSPPS pkt = (vps, sps, pps) ->
  updateTrackParametersFromRTPPacket f pkt
  = (format.mkH265 (format.PayloadTyp f)
       (if differs vps (format.VPS f) then vps else format.VPS f)
       (if differs sps (format.SPS f) then sps else format.SPS f)
       (if differs pps (format.PPS f) then pps else format.PPS f)
       (format.MaxDONDiff f),
     callsIf (differs vps (format.VPS f)) vps CallSafeSetVPS
     ++ callsIf (differs sps (format.SPS f)) sps CallSafeSetSPS
     ++ callsIf (differs pps (format.PPS f)) pps CallSafeSetPPS).
Proof.
  intros E. unfold updateTrackParametersFromRTPPacket. rewrite E.
  destruct f as [pt fv fs fp dd].
  unfold differs, callsIf, format.SafeVPS, format.SafeSPS, format.SafePPS,
    format.SafeSetVPS, format.SafeSetSPS, format.SafeSetPPS.
  destruct (slice_Equal vps fv) eqn:Ev, (slice_Equal sps fs) eqn:Es,
    (slice_Equal pps fp) eqn:Ep;
    destruct vps as [v|], sps as [s|], pps as [p|]; cbn -[slice_Equal];
    rewrite ?Ev; cbn -[slice_Equal]; rewrite ?Es; cbn -[slice_Equal];
    rewrite ?Ep; reflexivity.
Qed.

Lemma differs_after_store extracted stored :
  differs extracted (if differs extracted stored then extracted else stored) = false.
Proof.
  unfold differs. destruct extracted as [v|]; [|reflexivity].
  destruct (slice_Equal (Some v) stored) eqn:E; cbn [negb].
  - rewrite E. reflexivity.
  - rewrite slice_Equal_refl. reflexivity.
Qed.

Lemma callsIf_false extracted call : callsIf false extracted call = [].
Proof. destruct extracted; reflexivity. Qed.

(** C7: for each of VPS, SPS and PPS on its own, an update replaces the
    stored value exactly when the extracted bytes are there (and then they are
    not empty) and differ byte for byte from the stored ones, and it calls the
    setter once in that case and not at all otherwise; a second update from
    the same packet calls no setter and leaves the track as the first update
    left it, so that the two updates together store a parameter set once when
    it is new and never when it is not. *)
Theorem updateTrackParameters_stores_only_changes (f : format.H265) (pkt : rtp.Packet) :
  let '(vps, sps, pps) := rtpH265ExtractVPSSPSPPS pkt in
  let '(f1, calls1) := updateTrackParametersFromRTPPacket f pkt in
  let '(f2, calls2) := updateTrackParametersFromRTPPacket f1 pkt in
  (vps <> Some [] /\ sps <> Some [] /\ pps <> Some [])
  /\ format.VPS f1 = (if differs vps (format.VPS f) then vps else format.VPS f)
  /\ format.SPS f1 = (if differs sps (format.SPS f) then sps else format.SPS f)
  /\ format.PPS f1 = (if differs pps (format.PPS f) then pps else format.PPS f)
  /\ calls1 = callsIf (differs vps (format.VPS f)) vps CallSafeSetVPS
              ++ callsIf (differs sps (format.SPS f)) sps CallSafeSetSPS
              ++ callsIf (differs pps (format.PPS f)) pps CallSafeSetPPS
  /\ calls2 = [] /\ f2 = f1
  /\ List.length (filter isVPSCall (calls1 ++ calls2))
     = (if differs vps (format.VPS f) then 1 else 0)%nat
  /\ List.length (filter isSPSCall (calls1 ++ calls2))
     = (if differs sps (format.SPS f) then 1 else 0)%nat
  /\ List.length (filter isPPSCall (calls1 ++ calls2))
     = (if differs pps (format.PPS f) then 1 else 0)%nat.
Proof.
  destruct (rtpH265ExtractVPSSPSPPS pkt) as [[vps sps] pps] eqn:E.
  rewrite (updateTrackParameters_effect f pkt E).
  match goal with |- context [updateTrackParametersFromRTPPacket ?g pkt] =>
    rewrite (updateTrackParameters_effect g pkt E) end.
  cbn [format.VPS format.SPS format.PPS format.PayloadTyp format.MaxDONDiff].
  rewrite !differs_after_store, !callsIf_false. cbn [app].
  split; [exact (extracted_nonempty pkt E)|].
  repeat (split; [reflexivity|]).
  rewrite !app_nil_r.
  split; [|split].
  all: unfold differs, callsIf; destruct vps, sps, pps;
    repeat match goal with
           | |- context [negb (slice_Equal ?a ?b)] => destruct (slice_Equal a b)
           end; reflexivity.
Qed.

(** *** Processing a batch *)

Section ProcessorFacts.

Context {L : rtph265.Library}.

(** The inspection of the first packet leaves the decoder alone, and changes
    the encoder only from absent to the seeded one. *)
Lemma inspectFirstPacket_encoder t pkt :
  encoder (fst (inspectFirstPacket t pkt))
  = match encoder t with
    | Some e => Some e
    | None =>
        if (rtph265.MarshalSize (removePadding pkt) >? rtph265.maxPacketSize)%Z
        then Some (seededEncoder
                     (fst (updateTrackParametersFromRTPPacket (format t) pkt))
                     (removePadding pkt))
        else None
    end.
Proof.
  unfold inspectFirstPacket. cbn [encoder format decoder].
  destruct (encoder t) as [e|]; [reflexivity|].
  destruct (rtph265.MarshalSize (removePadding pkt) >? rtph265.maxPacketSize)%Z;
    reflexivity.
Qed.

Lemma inspectFirstPacket_packet t pkt :
  snd (inspectFirstPacket t pkt)
  = match encoder t with Some _ => pkt | None => removePadding pkt end.
Proof.
  unfold inspectFirstPacket. cbn [encoder format decoder].
  destruct (encoder t) as [e|]; [reflexivity|].
  destruct (rtph265.MarshalSize (removePadding pkt) >? rtph265.maxPacketSize)%Z;
    reflexivity.
Qed.

(** An update of the parameter sets keeps the tolerance of the format. *)
Lemma updateTrackParameters_MaxDONDiff f pkt :
  format.MaxDONDiff (fst (updateTrackParametersFromRTPPacket f pkt)) = format.MaxDONDiff f.
Proof.
  destruct (rtpH265ExtractVPSSPSPPS pkt) as [[vps sps] pps] eqn:E.
  rewrite (updateTrackParameters_effect f pkt E). reflexivity.
Qed.

(** [encodeUnits] keeps the exported fields of the encoder it is given. *)
Lemma encodeUnits_encoder t tdata e :
  encoder t = Some e ->
  exists t' d' err st,
    encodeUnits t tdata = Returned t' d' err /\
    format t' = format t /\
    encoder t' = Some (rtph265.mkEncoder (rtph265.PayloadType e) (rtph265.SSRC e)
                         (rtph265.InitialSequenceNumber e) (rtph265.InitialTimestamp e)
                         (rtph265.MaxDONDiff e) st).
Proof.
  intros He. unfold encodeUnits. rewrite He.
  destruct (rtph265.Encode e (nalus tdata) (pts tdata)) as [st [pkts | err]];
    do 4 eexists; repeat split; reflexivity.
Qed.

(** A packet without padding is left as it is, so its size is measured as it
    came. *)
Lemma removePadding_unpadded (pkt : rtp.Packet) :
  rtp.Padding (rtp.Hdr pkt) = false ->
  rtp.PaddingSize pkt = 0%Z ->
  removePadding pkt = pkt.
Proof.
  destruct pkt as [[pad mark pt seq ts ssrc csrc] payload padsize]. cbn.
  intros -> ->. reflexivity.
Qed.

(** C2: when the processor has no encoder and the batch has raw packets,
    [process] returns, and it returns with an encoder exactly when the
    marshaled size of the first packet, taken as the code takes it after the
    padding is removed, exceeds the maximum packet size; that encoder has the
    payload type, the synchronization source, the sequence number and the
    timestamp of the packet, each seeded as present, and the tolerance of the
    format. *)
Theorem process_seeds_encoder_from_oversized_packet
    (t : formatProcessorH265) (tdata : dataH265) (pkt : rtp.Packet)
    (others : list rtp.Packet) (hasNonRTSPReaders : bool) :
  encoder t = None ->
  rtpPackets tdata = Some (pkt :: others) ->
  exists t' d' err,
    process t tdata hasNonRTSPReaders = Returned t' d' err /\
    if (rtph265.MarshalSize (removePadding pkt) >? rtph265.maxPacketSize)%Z
    then exists st,
        encoder t'
        = Some (rtph265.mkEncoder
                  (rtp.PayloadType (rtp.Hdr pkt))
                  (Some (rtp.SSRC (rtp.Hdr pkt)))
                  (Some (rtp.SequenceNumber (rtp.Hdr pkt)))
                  (Some (rtp.Timestamp (rtp.Hdr pkt)))
                  (format.MaxDONDiff (format t)) st)
    else encoder t' = None.
Proof.
  intros He Hp. unfold process. rewrite Hp.
  pose proof (inspectFirstPacket_encoder t pkt) as Henc.
  rewrite He in Henc.
  destruct (inspectFirstPacket t pkt) as [t1 pkt1] eqn:Hi. cbn [fst] in Henc.
  destruct (rtph265.MarshalSize (removePadding pkt) >? rtph265.maxPacketSize)%Z.
  - (* an encoder has been seeded *)
    rewrite Henc. cbn [isSome orb]. rewrite orb_true_r.
    destruct (rtph265.DecodeUntilMarker (currentDecoder t1) pkt1) as [dec [[ns p] | err]].
    + unfold routeOrEncode. cbn [encoder].
      match goal with |- context [encodeUnits ?t0 ?d0] =>
        destruct (@encodeUnits_encoder t0 d0 _ eq_refl) as (t' & d' & err & st & E & _ & Ee)
      end.
      exists t', d', err. split; [exact E|].
      exists st. rewrite Ee. unfold seededEncoder. cbn.
      rewrite updateTrackParameters_MaxDONDiff. reflexivity.
    + destruct (error_eqb err ErrNonStartingPacketAndNoPrevious
                || error_eqb err ErrMorePacketsNeeded);
        do 3 eexists; (split; [reflexivity|]); cbn [encoder];
        eexists; unfold seededEncoder; cbn;
        rewrite updateTrackParameters_MaxDONDiff; reflexivity.
  - (* the packet is routed as it is *)
    rewrite Henc. cbn [isSome]. rewrite orb_false_r.
    destruct hasNonRTSPReaders.
    + destruct (rtph265.DecodeUntilMarker (currentDecoder t1) pkt1) as [dec [[ns p] | err]].
      * unfold routeOrEncode. cbn [encoder].
        do 3 eexists. split; reflexivity.
      * destruct (error_eqb err ErrNonStartingPacketAndNoPrevious
                  || error_eqb err ErrMorePacketsNeeded);
          do 3 eexists; split; reflexivity.
    + unfold routeOrEncode. rewrite Henc. do 3 eexists. split; [reflexivity|exact Henc].
Qed.

(** C6: while decoding is active, a [DecodeUntilMarker] that fails with
    "more packets needed" or with "non-starting packet without a preceding
    starting packet" makes [process] return nil, and one that fails with any
    other error makes it return that error; in both cases the units and the
    timestamp of the batch are as they were. *)
Theorem process_absorbs_partial_data
    (t : formatProcessorH265) (tdata : dataH265) (pkt : rtp.Packet)
    (others : list rtp.Packet) (hasNonRTSPReaders : bool)
    (t1 : formatProcessorH265) (pkt1 : rtp.Packet)
    (dec : rtph265.DecoderState) (err : error) :
  rtpPackets tdata = Some (pkt :: others) ->
  inspectFirstPacket t pkt = (t1, pkt1) ->
  hasNonRTSPReaders || isSome (encoder t1) = true ->
  rtph265.DecodeUntilMarker (currentDecoder t1) pkt1 = (dec, Err err) ->
  exists t' d',
    (err = ErrMorePacketsNeeded \/ err = ErrNonStartingPacketAndNoPrevious ->
     process t tdata hasNonRTSPReaders = Returned t' d' None) /\
    (err <> ErrMorePacketsNeeded -> err <> ErrNonStartingPacketAndNoPrevious ->
     process t tdata hasNonRTSPReaders = Returned t' d' (Some err)) /\
    nalus d' = nalus tdata /\ pts d' = pts tdata.
Proof.
  intros Hp Hi Hactive Hdec. unfold process. rewrite Hp, Hi, Hactive, Hdec.
  exists (mkProcessor (format t1) (encoder t1) (Some dec)).
  exists (if isSome (encoder t1)
          then mkData None (ntp tdata) (pts tdata) (nalus tdata)
          else mkData (Some (pkt1 :: others)) (ntp tdata) (pts tdata) (nalus tdata)).
  split; [|split; [|split; destruct (isSome (encoder t1)); reflexivity]].
  - intros [-> | ->]; reflexivity.
  - intros H1 H2.
    assert (error_eqb err ErrNonStartingPacketAndNoPrevious = false) as ->.
    { destruct (error_eqb err ErrNonStartingPacketAndNoPrevious) eqn:E; [|reflexivity].
      apply error_eqb_eq in E; [contradiction | left; reflexivity]. }
    assert (error_eqb err ErrMorePacketsNeeded = false) as ->.
    { destruct (error_eqb err ErrMorePacketsNeeded) eqn:E; [|reflexivity].
      apply error_eqb_eq in E; [contradiction | right; reflexivity]. }
    reflexivity.
Qed.

(** Without raw packets and without an encoder, [process] reaches
    [t.encoder.Encode] with a nil encoder. *)
Lemma process_units_need_encoder (t : formatProcessorH265) (tdata : dataH265)
    (hasNonRTSPReaders : bool) :
  encoder t = None ->
  rtpPackets tdata = None ->
  process t tdata hasNonRTSPReaders = Panicked NilDereference.
Proof.
  intros He Hp. unfold process, encodeUnits. rewrite Hp. cbn [encoder]. rewrite He.
  reflexivity.
Qed.

(** C9 (amended): for a batch that carries units and no raw packets, on a
    processor whose encoder is allocated, [process] leaves the parameter sets
    and the units as they are, encodes the units with the timestamp of the
    batch, and returns: with the packets of the encoder stored on the batch
    and nil, or with the error of the encoder and the batch as it was. *)
Theorem process_encodes_units
    (t : formatProcessorH265) (tdata : dataH265) (hasNonRTSPReaders : bool)
    (e : rtph265.Encoder rtph265.EncoderState) :
  encoder t = Some e ->
  rtpPackets tdata = None ->
  exists t' d' err st,
    process t tdata hasNonRTSPReaders = Returned t' d' err /\
    format t' = format t /\ decoder t' = decoder t /\
    encoder t' = Some (rtph265.mkEncoder (rtph265.PayloadType e) (rtph265.SSRC e)
                         (rtph265.InitialSequenceNumber e) (rtph265.InitialTimestamp e)
                         (rtph265.MaxDONDiff e) st) /\
    nalus d' = nalus tdata /\ pts d' = pts tdata /\ ntp d' = ntp tdata /\
    ((exists pkts, rtph265.Encode e (nalus tdata) (pts tdata) = (st, Ok pkts) /\
                   rtpPackets d' = pkts /\ err = None) \/
     (exists x, rtph265.Encode e (nalus tdata) (pts tdata) = (st, Err x) /\
                rtpPackets d' = None /\ err = Some x)).
Proof.
  intros He Hp. unfold process, encodeUnits, updateTrackParametersFromNALUs, remuxNALUs.
  rewrite Hp. cbn [encoder nalus pts]. rewrite He.
  destruct (rtph265.Encode e (nalus tdata) (pts tdata)) as [st [pkts | x]].
  - do 4 eexists. repeat (split; [reflexivity|]).
    left. exists pkts. repeat split; reflexivity.
  - do 4 eexists. repeat (split; [reflexivity|]).
    right. exists x. repeat split; reflexivity.
Qed.

End ProcessorFacts.

(** *** Runs of the processor with the sample encoder and decoder *)

#[local] Existing Instance sample.rtph265Library.

(** A VPS packet fed twice to a track that has no VPS: one call of the
    setter, then none. *)
Example update_twice_stores_once :
  let vpsPacket :=
    rtp.mkPacket (rtp.mkHeader false true 96 1 0 1 []) [x40; x01; x0c] 0 in
  let '(f1, calls1) := updateTrackParametersFromRTPPacket sample.track vpsPacket in
  let '(f2, calls2) := updateTrackParametersFromRTPPacket f1 vpsPacket in
  calls1 = [CallSafeSetVPS [x40; x01; x0c]] /\ calls2 = [] /\
  format.VPS f2 = Some [x40; x01; x0c].
Proof. vm_compute. repeat split. Qed.

(** The three kinds of decode failure on a processor that decodes for its
    readers: a first packet without marker and a continuation without a start
    return nil, a payload that is too short returns its error. *)
Example process_decode_failures :
  let t := mkProcessor sample.track None None in
  let batch pkt := mkData (Some [pkt]) 0 0 [] in
  let continuation :=
    rtp.mkPacket (rtp.mkHeader false false 96 18 3000 1 []) [x62; x01; x02; xaa] 0 in
  let short := rtp.mkPacket (rtp.mkHeader false true 96 19 3000 1 []) [x02] 0 in
  process t (batch sample.unfinished) true
  = Returned (mkProcessor sample.track None (Some [[x02; x01; xaa]]))
      (batch sample.unfinished) None /\
  process t (batch continuation) true
  = Returned (mkProcessor sample.track None (Some [])) (batch continuation) None /\
  process t (batch short) true
  = Returned (mkProcessor sample.track None (Some [])) (batch short)
      (Some (ErrExternal "rtph265" "payload is too short")).
Proof. vm_compute. repeat split. Qed.

Lemma process_seeds_encoder_from_oversized_packet_witness :
  exists t' d' err,
    process (mkProcessor sample.track None None) (mkData (Some [sample.oversized]) 0 0 []) false
    = Returned t' d' err /\
    exists st,
      encoder t'
      = Some (rtph265.mkEncoder 96 (Some 3735928559%Z) (Some 4660%Z) (Some 90000%Z) 0%Z st).
Proof.
  exact (@process_seeds_encoder_from_oversized_packet sample.rtph265Library
           (mkProcessor sample.track None None) (mkData (Some [sample.oversized]) 0 0 [])
           sample.oversized [] false eq_refl eq_refl).
Defined.

Lemma process_absorbs_partial_data_witness :
  exists t' d',
    (ErrMorePacketsNeeded = ErrMorePacketsNeeded \/
     ErrMorePacketsNeeded = ErrNonStartingPacketAndNoPrevious ->
     process (mkProcessor sample.track None None) (mkData (Some [sample.unfinished]) 0 0 []) true
     = Returned t' d' None) /\
    (ErrMorePacketsNeeded <> ErrMorePacketsNeeded ->
     ErrMorePacketsNeeded <> ErrNonStartingPacketAndNoPrevious ->
     process (mkProcessor sample.track None None) (mkData (Some [sample.unfinished]) 0 0 []) true
     = Returned t' d' (Some ErrMorePacketsNeeded)) /\
    nalus d' = [] /\ pts d' = 0%Z.
Proof.
  exact (@process_absorbs_partial_data sample.rtph265Library
           (mkProcessor sample.track None None) (mkData (Some [sample.unfinished]) 0 0 [])
           sample.unfinished [] true (mkProcessor sample.track None None) sample.unfinished
           [[x02; x01; xaa]] ErrMorePacketsNeeded eq_refl eq_refl eq_refl eq_refl).
Defined.

(** C9 as stated fails: a batch of units on a processor without an encoder
    does not complete; the call of [Encode] on the nil encoder panics. *)
Lemma process_units_without_encoder_panics :
  process (mkProcessor sample.track None None) (mkData None 0 0 [[x40; x01]]) false
  = Panicked NilDereference /\
  ~ (exists t' d' err,
       process (mkProcessor sample.track None None) (mkData None 0 0 [[x40; x01]]) false
       = Returned t' d' err).
Proof.
  split; [reflexivity|].
  intros (t' & d' & err & H). discriminate H.
Qed.

Lemma process_encodes_units_witness :
  exists t' d' err st,
    process (mkProcessor sample.track (Some (rtph265.CreateEncoder sample.track)) None)
      (mkData None 0 9000 [[x40; x01]]) false
    = Returned t' d' err /\
    format t' = sample.track /\ decoder t' = None /\
    encoder t' = Some (rtph265.mkEncoder 96 None None None 0%Z st) /\
    nalus d' = [[x40; x01]] /\ pts d' = 9000%Z /\ ntp d' = 0%Z /\
    ((exists pkts, rtph265.Encode (rtph265.CreateEncoder sample.track) [[x40; x01]] 9000
                   = (st, Ok pkts) /\
                   rtpPackets d' = pkts /\ err = None) \/
     (exists x, rtph265.Encode (rtph265.CreateEncoder sample.track) [[x40; x01]] 9000
                = (st, Err x) /\
                rtpPackets d' = None /\ err = Some x)).
Proof.
  exact (@process_encodes_units sample.rtph265Library
           (mkProcessor sample.track (Some (rtph265.CreateEncoder sample.track)) None)
           (mkData None 0 9000 [[x40; x01]]) false
           (rtph265.CreateEncoder sample.track) eq_refl eq_refl).
Defined.

End core_facts.

(** ** The RTMP connection engine *)

Module rtmp_facts.

Import message rtmp.

Local Open Scope string_scope.

(** *** Splitting and joining *)

Lemma append_assoc (a b c : string) : (a ++ b) ++ c = a ++ (b ++ c).
Proof. induction a as [|x a IH]; simpl; [reflexivity | rewrite IH; reflexivity]. Qed.

Lemma Split_cons s sep : exists seg segs, strings.Split s sep = seg :: segs.
Proof.
  destruct s as [|c s]; simpl; [eauto|].
  destruct (Ascii.eqb c sep); [eauto|].
  destruct (strings.Split s sep); eauto.
Qed.

(** Joining the segments of a string with the separator gives the string
    back. *)
Lemma Join_Split s sep :
  strings.Join (strings.Split s sep) (String sep EmptyString) = s.
Proof.
  induction s as [|c s IH]; [reflexivity|].
  simpl. destruct (Ascii.eqb c sep) eqn:E.
  - apply Ascii.eqb_eq in E. subst c.
    destruct (Split_cons s sep) as (seg & segs & Hs). rewrite Hs in *.
    change (strings.Join (EmptyString :: seg :: segs) (String sep EmptyString))
      with (EmptyString ++ String sep EmptyString
            ++ strings.Join (seg :: segs) (String sep EmptyString)).
    rewrite IH. reflexivity.
  - destruct (Split_cons s sep) as (seg & segs & Hs). rewrite Hs in *.
    destruct segs as [|seg' segs].
    + simpl in IH. simpl. rewrite IH. reflexivity.
    + change (strings.Join (String c seg :: seg' :: segs) (String sep EmptyString))
        with (String c seg ++ String sep EmptyString
              ++ strings.Join (seg' :: segs) (String sep EmptyString)).
      change (strings.Join (seg :: seg' :: segs) (String sep EmptyString))
        with (seg ++ String sep EmptyString
              ++ strings.Join (seg' :: segs) (String sep EmptyString)) in IH.
      cbn [String.append] in *. f_equal. exact IH.
Qed.

Section EngineFacts.

Context {U : url.Library} {X : Library}.

(** For a URL without opaque part and without query whose path needs no
    escaping and is not empty, the request URI that [splitPath] splits is the
    path. *)
Lemma RequestURI_of_plain_path (u : url.URL) :
  url.Opaque u = "" ->
  url.RawQuery u = "" ->
  url.EscapedPath (url.withForceQuery u false) = url.Path u ->
  url.Path u <> "" ->
  url.RequestURI (url.withForceQuery u false) = url.Path u.
Proof.
  intros Ho Hq He Hp. unfold url.RequestURI.
  cbn [url.withForceQuery url.Opaque url.ForceQuery url.RawQuery url.Scheme].
  rewrite Ho, Hq, He. cbn [String.eqb negb orb].
  apply String.eqb_neq in Hp. rewrite Hp. reflexivity.
Qed.

(** C4 (amended): [splitPath] splits the request URI of the URL, that is
    the escaped path followed by the query when there is one, taken with
    [ForceQuery] cleared.  With 2 segments the application is segment 1 and
    the stream is empty; with 3 the application is segment 1 and the stream
    segment 2; with more the application is segments 1 and 2 joined by a
    slash and the stream the remaining segments joined by slashes; with 1
    both are empty.  When the request URI begins with a slash, a slash, the
    application, a slash and the stream give the request URI back for 3
    segments or more, and a slash and the application give it back for 2. *)
Theorem splitPath_splits_request_uri (u : url.URL) :
  let uri := url.RequestURI (url.withForceQuery u false) in
  let segs := strings.Split uri "/" in
  let app := fst (splitPath u) in
  let stream := snd (splitPath u) in
  (List.length segs = 1%nat -> app = "" /\ stream = "") /\
  (List.length segs = 2%nat -> app = nth 1 segs "" /\ stream = "") /\
  (List.length segs = 3%nat -> app = nth 1 segs "" /\ stream = nth 2 segs "") /\
  (3 < List.length segs ->
   app = strings.Join [nth 1 segs ""; nth 2 segs ""] "/" /\
   stream = strings.Join (skipn 3 segs) "/")%nat /\
  (nth 0 segs "" = "" -> List.length segs = 2%nat -> "/" ++ app = uri) /\
  (nth 0 segs "" = "" -> 3 <= List.length segs -> "/" ++ app ++ "/" ++ stream = uri)%nat.
Proof.
  cbv zeta.
  pose proof (Join_Split (url.RequestURI (url.withForceQuery u false)) "/") as HJ.
  unfold splitPath.
  destruct (strings.Split (url.RequestURI (url.withForceQuery u false)) "/")
    as [|s0 [|s1 [|s2 [|s3 segs]]]] eqn:Hs.
  - destruct (Split_cons (url.RequestURI (url.withForceQuery u false)) "/")
      as (? & ? & E). congruence.
  - cbn. repeat split; intros; try discriminate; try lia; auto.
  - cbn. repeat split; intros; try discriminate; try lia; auto.
    cbn in *. subst s0. exact HJ.
  - cbn. repeat split; intros; try discriminate; try lia; auto.
    cbn in *. subst s0. exact HJ.
  - cbn [List.length Nat.eqb Nat.ltb Nat.leb fst snd nth skipn firstn].
    repeat split; intros; try discriminate; try lia; auto.
    cbn [nth] in *. subst s0. rewrite <- HJ.
    change (strings.Join ("" :: s1 :: s2 :: s3 :: segs) "/")
      with ("" ++ "/" ++ s1 ++ "/" ++ s2 ++ "/" ++ strings.Join (s3 :: segs) "/").
    change (strings.Join [s1; s2] "/") with (s1 ++ "/" ++ s2).
    cbn [String.append]. f_equal.
    apply (append_assoc s1 (String "/" s2)).
Qed.

(** C5 (amended): [createURL] fails exactly when the request URI
    [/application/stream] does not parse, or the base URL does not parse, or
    the host or the scheme of the parsed base URL is empty; when it succeeds,
    the host and the scheme of the result are those of the base URL, and its
    path, raw path and query are those the parser gave for
    [/application/stream]. *)
Theorem createURL_fails_or_resolves (tcurl app play : string) :
  ((exists err, createURL tcurl app play = Err err) <->
   (exists err, url.ParseRequestURI ("/" ++ app ++ "/" ++ play) = Err err) \/
   (exists err, url.Parse tcurl = Err err) \/
   (exists tu, url.Parse tcurl = Ok tu /\ (url.Host tu = "" \/ url.Scheme tu = ""))) /\
  (forall u, createURL tcurl app play = Ok u ->
   exists pu tu,
     url.ParseRequestURI ("/" ++ app ++ "/" ++ play) = Ok pu /\
     url.Parse tcurl = Ok tu /\
     url.Host tu <> "" /\ url.Scheme tu <> "" /\
     url.Host u = url.Host tu /\ url.Scheme u = url.Scheme tu /\
     url.Path u = url.Path pu /\ url.RawPath u = url.RawPath pu /\
     url.RawQuery u = url.RawQuery pu /\ url.ForceQuery u = url.ForceQuery pu /\
     url.Opaque u = url.Opaque pu /\ url.Fragment u = url.Fragment pu).
Proof.
  unfold createURL.
  destruct (url.ParseRequestURI ("/" ++ app ++ "/" ++ play)) as [pu | e1].
  2:{ split; [|discriminate]. split; eauto. }
  destruct (url.Parse tcurl) as [tu | e2].
  2:{ split; [|discriminate]. split; eauto. }
  destruct (String.eqb (url.Host tu) "") eqn:Eh.
  { apply String.eqb_eq in Eh. split; [|discriminate].
    split; [intros _; right; right; exists tu; auto | eauto]. }
  destruct (String.eqb (url.Scheme tu) "") eqn:Es.
  { apply String.eqb_eq in Es. split; [|discriminate].
    split; [intros _; right; right; exists tu; auto | eauto]. }
  apply String.eqb_neq in Eh, Es. split.
  - split; [intros [err H]; discriminate|].
    intros [[err H] | [[err H] | (tu' & H & Hempty)]]; try discriminate.
    injection H as <-. destruct Hempty; contradiction.
  - intros u H. injection H as <-. exists pu, tu.
    repeat split; auto.
Qed.

(** *** The command loop of the server *)

(** One turn of the command loop, by what [readCommand] returns. *)
Lemma commandLoop_unfold tcURL connectpath c c1 r :
  readCommand c = (c1, r) ->
  commandLoop tcURL connectpath c
  = match r with
    | Err err => (c1, Err err)
    | Ok cmd =>
        if String.eqb (MsgCommandAMF0.Name cmd) "createStream" then
          match Write c1 (createStreamResult cmd) with
          | (c2, Some err) => (c2, Err err)
          | (c2, None) => commandLoop tcURL connectpath c2
          end
        else if String.eqb (MsgCommandAMF0.Name cmd) "play" then
          playCommand tcURL connectpath c1 cmd
        else if String.eqb (MsgCommandAMF0.Name cmd) "publish" then
          publishCommand tcURL connectpath c1 cmd
        else commandLoop tcURL connectpath c1
    end.
Proof.
  intros Hr. simp commandLoop.
  destruct (inspect (readCommand c)) as [[c1' r'] Heq].
  assert ((c1', r') = (c1, r)) as E by congruence. injection E as -> ->.
  destruct r as [cmd | err]; simp commandLoop; [|reflexivity].
  destruct (String.eqb (MsgCommandAMF0.Name cmd) "createStream"); simp commandLoop;
    [|reflexivity].
  destruct (inspect (Write c1 (createStreamResult cmd))) as [[c2 o] Hw].
  destruct o as [err|]; simp commandLoop; rewrite Hw; simp commandLoop; reflexivity.
Qed.

Lemma Write_ok c msg n :
  writable c = S n ->
  Write c msg
  = (mkConn (handshakeError c) (incoming c) (readError c) (written c ++ [msg])%list n
       (writeError c), None).
Proof. intros H. unfold Write. rewrite H. reflexivity. Qed.

(** While the transport accepts them, the messages of a run of writes are
    appended in order and nothing else changes. *)
Lemma writeAll_ok msgs : forall c,
  (List.length msgs <= writable c)%nat ->
  writeAll c msgs
  = (mkConn (handshakeError c) (incoming c) (readError c) (written c ++ msgs)%list
       (writable c - List.length msgs) (writeError c), None).
Proof.
  induction msgs as [|m msgs IH]; intros c Hw.
  - simpl. rewrite app_nil_r, Nat.sub_0_r. destruct c; reflexivity.
  - simpl in Hw. destruct (writable c) as [|n] eqn:En; [lia|].
    cbn [writeAll]. rewrite (Write_ok c m En).
    rewrite IH by (simpl; lia). cbn [handshakeError incoming readError written
      writable writeError]. rewrite <- app_assoc. reflexivity.
Qed.

(** C8: when the command read by the loop of the server is [play] with a
    string as its second argument, the target resolves and the transport
    accepts six more writes, the engine writes stream-is-recorded for stream
    1, stream-begin for stream 1, and four [onStatus] commands with the codes
    NetStream.Play.Reset, NetStream.Play.Start, NetStream.Data.Start and
    NetStream.Play.PublishNotify, in this order and nothing else, and returns
    the target with the publishing flag false. *)
Theorem commandLoop_play_notifications
    (tcURL connectpath : string) (c c1 : Conn) (cmd : MsgCommandAMF0.t)
    (first : flvio.Value) (actionpath : string) (more : list flvio.Value)
    (u : url.URL) :
  readCommand c = (c1, Ok cmd) ->
  MsgCommandAMF0.Name cmd = "play" ->
  MsgCommandAMF0.Arguments cmd = first :: flvio.Str actionpath :: more ->
  createURL tcURL connectpath actionpath = Ok u ->
  (6 <= writable c1)%nat ->
  exists c2,
    commandLoop tcURL connectpath c = (c2, Ok (u, false)) /\
    incoming c2 = incoming c1 /\
    written c2
    = (written c1
       ++ [ UserControlStreamIsRecorded 1;
            UserControlStreamBegin 1;
            CommandAMF0
              (MsgCommandAMF0.mk 5 16777216 "onStatus" (MsgCommandAMF0.CommandID cmd)
                 [ flvio.Nil;
                   flvio.Map [ ("level", flvio.Str "status");
                               ("code", flvio.Str "NetStream.Play.Reset");
                               ("description", flvio.Str "play reset") ] ]);
            CommandAMF0
              (MsgCommandAMF0.mk 5 16777216 "onStatus" (MsgCommandAMF0.CommandID cmd)
                 [ flvio.Nil;
                   flvio.Map [ ("level", flvio.Str "status");
                               ("code", flvio.Str "NetStream.Play.Start");
                               ("description", flvio.Str "play start") ] ]);
            CommandAMF0
              (MsgCommandAMF0.mk 5 16777216 "onStatus" (MsgCommandAMF0.CommandID cmd)
                 [ flvio.Nil;
                   flvio.Map [ ("level", flvio.Str "status");
                               ("code", flvio.Str "NetStream.Data.Start");
                               ("description", flvio.Str "data start") ] ]);
            CommandAMF0
              (MsgCommandAMF0.mk 5 16777216 "onStatus" (MsgCommandAMF0.CommandID cmd)
                 [ flvio.Nil;
                   flvio.Map [ ("level", flvio.Str "status");
                               ("code", flvio.Str "NetStream.Play.PublishNotify");
                               ("description", flvio.Str "publish notify") ] ]) ])%list.
Proof.
  intros Hr Hn Ha Hu Hw.
  rewrite (commandLoop_unfold tcURL connectpath c Hr). rewrite Hn. cbn [String.eqb].
  change ("play" =? "createStream") with false. change ("play" =? "play") with true.
  cbv iota. unfold playCommand. rewrite Ha, Hu.
  rewrite writeAll_ok by (simpl; lia).
  eexists. split; [reflexivity|]. split; reflexivity.
Qed.

(** *** Discovery from metadata *)

(** A video message met when no video track is expected ends the turn with
    the error, whatever has been found so far; so does an audio message when
    no audio track is expected. *)
Lemma metadataTurn_unexpected hasVideo hasAudio videoTrack audioTrack msg :
  (forall m, msg = Video m -> hasVideo = false ->
   metadataTurn hasVideo hasAudio videoTrack audioTrack msg
   = Leave (Finished (Err (Errorf "unexpected video packet")))) /\
  (forall m, msg = Audio m -> hasAudio = false ->
   metadataTurn hasVideo hasAudio videoTrack audioTrack msg
   = Leave (Finished (Err (Errorf "unexpected audio packet")))).
Proof.
  split; intros m -> ->; reflexivity.
Qed.

(** The loop returns the messages it has not read, and among those it has
    read an unexpected video or audio message can only be the one that ended
    it with the error. *)
Lemma metadataLoop_unexpected hasVideo hasAudio failure inbox :
  forall videoTrack audioTrack rest d,
  metadataLoop hasVideo hasAudio videoTrack audioTrack inbox failure = (rest, d) ->
  exists consumed,
    inbox = (consumed ++ rest)%list /\
    (hasVideo = false -> forall m, In (Video m) consumed ->
     d = Finished (Err (Errorf "unexpected video packet"))) /\
    (hasAudio = false -> forall m, In (Audio m) consumed ->
     d = Finished (Err (Errorf "unexpected audio packet"))).
Proof.
  induction inbox as [|msg inbox IH]; intros videoTrack audioTrack rest d H.
  - simpl in H. injection H as <- <-. exists []. repeat split; intros; contradiction.
  - cbn [metadataLoop] in H.
    destruct (metadataTurn_unexpected hasVideo hasAudio videoTrack audioTrack msg)
      as [Hv Ha].
    destruct (metadataTurn hasVideo hasAudio videoTrack audioTrack msg)
      as [d0 | v' a'] eqn:Ht.
    + injection H as <- <-. exists [msg]. split; [reflexivity|].
      split; intros Hno m [-> | []].
      * specialize (Hv m eq_refl Hno). congruence.
      * specialize (Ha m eq_refl Hno). congruence.
    + destruct ((negb hasVideo || isSome v') && (negb hasAudio || isSome a')).
      * injection H as <- <-. exists [msg]. split; [reflexivity|].
        split; intros Hno m [-> | []].
        -- specialize (Hv m eq_refl Hno). congruence.
        -- specialize (Ha m eq_refl Hno). congruence.
      * apply IH in H. destruct H as (consumed & -> & Hcv & Hca).
        exists (msg :: consumed). split; [reflexivity|].
        split; intros Hno m [-> | Hin].
        -- specialize (Hv m eq_refl Hno). congruence.
        -- eapply Hcv; eauto.
        -- specialize (Ha m eq_refl Hno). congruence.
        -- eapply Hca; eauto.
Qed.

(** C10: in discovery from metadata, the messages read are a prefix of the
    incoming ones, and whenever one of them is a video message while the
    metadata declared no video track, or an audio message while it declared
    no audio track, discovery ends with the error "unexpected video packet",
    respectively "unexpected audio packet". *)
Theorem readTracksFromMetadata_rejects_undeclared_media
    (c : Conn) (md : flvio.AMFMap) :
  let '(c', d) := readTracksFromMetadata c [flvio.Map md] in
  exists consumed,
    incoming c = (consumed ++ incoming c')%list /\
    (metadataHasVideo md = Ok false -> forall m, In (Video m) consumed ->
     d = Finished (Err (Errorf "unexpected video packet"))) /\
    (metadataHasAudio md = Ok false -> forall m, In (Audio m) consumed ->
     d = Finished (Err (Errorf "unexpected audio packet"))).
Proof.
  unfold readTracksFromMetadata.
  destruct (metadataHasVideo md) as [hasVideo | e1];
    [|exists []; repeat split; intros; contradiction].
  destruct (metadataHasAudio md) as [hasAudio | e2];
    [|exists []; repeat split; intros; contradiction].
  destruct (negb hasVideo && negb hasAudio);
    [exists []; repeat split; intros; contradiction|].
  destruct (metadataLoop hasVideo hasAudio None None (incoming c) (readError c))
    as [rest d] eqn:E.
  apply metadataLoop_unexpected in E. destruct E as (consumed & E & Hv & Ha).
  exists consumed. cbn [incoming withIncoming]. split; [exact E|].
  split; intros Hno; injection Hno as ->; eauto.
Qed.

(** *** Heuristic discovery *)




(** What a turn of the scan leaves in hand. *)
Lemma windowTest_handed dts start v a :
  rtmp_more.handed (windowTest dts start v a) = Some (v, a).
Proof. unfold windowTest. destruct (Duration_sub dts start >=? Second)%Z; reflexivity. Qed.

Lemma messagesTurn_tracks startTime v a msg v1 a1 :
  rtmp_more.handed (messagesTurn startTime v a msg) = Some (v1, a1) ->
  forall later,
    rtmp_more.orElse v1 (rtmp_more.videoTrackOf later)
    = rtmp_more.orElse v (rtmp_more.videoTrackOf (msg :: later)) /\
    rtmp_more.orElse a1 (rtmp_more.audioTrackOf later)
    = rtmp_more.orElse a (rtmp_more.audioTrackOf (msg :: later)).
Proof.
  intros H later. unfold messagesTurn in H.
  destruct msg; cbn [rtmp_more.handed] in H;
    try (injection H as <- <-; split; reflexivity).
  - (* audio *)
    cbv zeta in H. cbn [rtmp_more.videoTrackOf rtmp_more.audioTrackOf].
    destruct (MsgAudio.AACType m =? flvio.AVC_SEQHDR)%Z.
    + destruct a as [t|].
      * rewrite windowTest_handed in H. injection H as <- <-. split; reflexivity.
      * destruct (trackFromAACDecoderConfig (MsgAudio.Payload m)) as [t | e];
          [|discriminate].
        destruct (isSome v);
          [cbn [rtmp_more.handed] in H | rewrite windowTest_handed in H];
          injection H as <- <-; split; reflexivity.
    + rewrite windowTest_handed in H. injection H as <- <-. split; reflexivity.
  - (* video *)
    cbv zeta in H. cbn [rtmp_more.videoTrackOf rtmp_more.audioTrackOf].
    destruct (MsgVideo.H264Type m =? flvio.AVC_SEQHDR)%Z.
    + destruct v as [t|].
      * rewrite windowTest_handed in H. injection H as <- <-. split; reflexivity.
      * destruct (trackFromH264DecoderConfig (MsgVideo.Payload m)) as [t | e];
          [|discriminate].
        destruct (isSome a);
          [cbn [rtmp_more.handed] in H | rewrite windowTest_handed in H];
          injection H as <- <-; split; reflexivity.
    + rewrite windowTest_handed in H. injection H as <- <-. split; reflexivity.
Qed.






End EngineFacts.

(** *** Runs of the engine with the sample parsers *)

#[local] Existing Instance sample.urlLibrary.
#[local] Existing Instance sample.rtmpLibrary.

(** C4 as stated fails: the path of this URL has the 3 segments "", "live"
    and "cam", yet the stream returned is not segment 2 of the path: it
    carries the query. *)
Lemma splitPath_keeps_query :
  strings.Split (url.Path sample.camURL) "/" = [""; "live"; "cam"] /\
  splitPath sample.camURL = ("live", "cam?token=a") /\
  splitPath sample.camURL <> ("live", "cam").
Proof.
  repeat split; try (vm_compute; reflexivity).
  vm_compute. discriminate.
Qed.

Lemma splitPath_splits_request_uri_witness :
  let uri := "/live/cam?token=a" in
  let segs := [""; "live"; "cam?token=a"] in
  let app := "live" in
  let stream := "cam?token=a" in
  (List.length segs = 1%nat -> app = "" /\ stream = "") /\
  (List.length segs = 2%nat -> app = nth 1 segs "" /\ stream = "") /\
  (List.length segs = 3%nat -> app = nth 1 segs "" /\ stream = nth 2 segs "") /\
  (3 < List.length segs ->
   app = strings.Join [nth 1 segs ""; nth 2 segs ""] "/" /\
   stream = strings.Join (skipn 3 segs) "/")%nat /\
  (nth 0 segs "" = "" -> List.length segs = 2%nat -> "/" ++ app = uri) /\
  (nth 0 segs "" = "" -> 3 <= List.length segs -> "/" ++ app ++ "/" ++ stream = uri)%nat.
Proof.
  exact (@splitPath_splits_request_uri sample.urlLibrary sample.camURL).
Defined.

(** C5 as stated fails.  With a base URL whose host and scheme are there,
    [createURL] fails on an application that holds a bad percent escape; and
    on a stream that holds a query it succeeds with a path that stops at the
    question mark. *)
Lemma createURL_fails_with_host_and_scheme :
  createURL "rtmp://localhost:1935/live" "%zz" "cam"
  = Err (ErrExternal "net/url" "invalid URL escape") /\
  (exists tu, url.Parse "rtmp://localhost:1935/live" = Ok tu /\
              url.Host tu = "localhost:1935" /\ url.Scheme tu = "rtmp") /\
  (exists u, createURL "rtmp://localhost:1935/live" "live" "cam?token=a" = Ok u /\
             url.Path u = "/live/cam" /\ url.RawQuery u = "token=a" /\
             url.Path u <> "/live/cam?token=a").
Proof.
  split; [vm_compute; reflexivity|]. split.
  - eexists. split; [vm_compute; reflexivity|]. split; reflexivity.
  - eexists. split; [vm_compute; reflexivity|].
    split; [reflexivity|]. split; [reflexivity|]. cbn. discriminate.
Qed.

Lemma createURL_fails_or_resolves_witness :
  ((exists err, createURL "rtmp://localhost:1935/live" "live" "cam" = Err err) <->
   (exists err, url.ParseRequestURI ("/" ++ "live" ++ "/" ++ "cam") = Err err) \/
   (exists err, url.Parse "rtmp://localhost:1935/live" = Err err) \/
   (exists tu, url.Parse "rtmp://localhost:1935/live" = Ok tu /\
               (url.Host tu = "" \/ url.Scheme tu = ""))) /\
  (forall u, createURL "rtmp://localhost:1935/live" "live" "cam" = Ok u ->
   exists pu tu,
     url.ParseRequestURI ("/" ++ "live" ++ "/" ++ "cam") = Ok pu /\
     url.Parse "rtmp://localhost:1935/live" = Ok tu /\
     url.Host tu <> "" /\ url.Scheme tu <> "" /\
     url.Host u = url.Host tu /\ url.Scheme u = url.Scheme tu /\
     url.Path u = url.Path pu /\ url.RawPath u = url.RawPath pu /\
     url.RawQuery u = url.RawQuery pu /\ url.ForceQuery u = url.ForceQuery pu /\
     url.Opaque u = url.Opaque pu /\ url.Fragment u = url.Fragment pu).
Proof.
  exact (@createURL_fails_or_resolves sample.urlLibrary
           "rtmp://localhost:1935/live" "live" "cam").
Defined.

Lemma commandLoop_play_notifications_witness :
  exists c2,
    commandLoop "rtmp://localhost:1935/live" "live" sample.beforePlay
    = (c2, Ok (url.mkURL "rtmp" "" "localhost:1935" "/live/cam" "" false "" "", false)) /\
    incoming c2 = [] /\
    written c2
    = [ UserControlStreamIsRecorded 1;
        UserControlStreamBegin 1;
        CommandAMF0
          (MsgCommandAMF0.mk 5 16777216 "onStatus" 4
             [ flvio.Nil;
               flvio.Map [ ("level", flvio.Str "status");
                           ("code", flvio.Str "NetStream.Play.Reset");
                           ("description", flvio.Str "play reset") ] ]);
        CommandAMF0
          (MsgCommandAMF0.mk 5 16777216 "onStatus" 4
             [ flvio.Nil;
               flvio.Map [ ("level", flvio.Str "status");
                           ("code", flvio.Str "NetStream.Play.Start");
                           ("description", flvio.Str "play start") ] ]);
        CommandAMF0
          (MsgCommandAMF0.mk 5 16777216 "onStatus" 4
             [ flvio.Nil;
               flvio.Map [ ("level", flvio.Str "status");
                           ("code", flvio.Str "NetStream.Data.Start");
                           ("description", flvio.Str "data start") ] ]);
        CommandAMF0
          (MsgCommandAMF0.mk 5 16777216 "onStatus" 4
             [ flvio.Nil;
               flvio.Map [ ("level", flvio.Str "status");
                           ("code", flvio.Str "NetStream.Play.PublishNotify");
                           ("description", flvio.Str "publish notify") ] ]) ].
Proof.
  exact (@commandLoop_play_notifications sample.urlLibrary
           "rtmp://localhost:1935/live" "live" sample.beforePlay
           (mkConn None [] sample.closed [] 6 sample.closed) sample.playCam flvio.Nil "cam" []
           (url.mkURL "rtmp" "" "localhost:1935" "/live/cam" "" false "" "")
           eq_refl eq_refl eq_refl eq_refl (le_n 6)).
Defined.

(** A whole server-side initialization: [connect], [createStream], [play]. *)
Example InitializeServer_connect_createStream_play :
  let connect :=
    MsgCommandAMF0.mk 3 0 "connect" 1
      [ flvio.Map [ ("app", flvio.Str "live");
                    ("tcUrl", flvio.Str "rtmp://localhost:1935/live") ] ] in
  let createStream := MsgCommandAMF0.mk 3 0 "createStream" 2 [flvio.Nil] in
  let c :=
    mkConn None [ CommandAMF0 connect; CommandAMF0 createStream; CommandAMF0 sample.playCam ]
      sample.closed [] 20 sample.closed in
  snd (InitializeServer c)
  = Ok (url.mkURL "rtmp" "" "localhost:1935" "/live/cam" "" false "" "", false) /\
  map (fun m => match m with
                | CommandAMF0 cmd => MsgCommandAMF0.Name cmd
                | SetWindowAckSize _ => "window"
                | SetPeerBandwidth _ _ => "bandwidth"
                | SetChunkSize _ => "chunk"
                | UserControlStreamIsRecorded _ => "recorded"
                | UserControlStreamBegin _ => "begin"
                | _ => "other"
                end)
    (written (fst (InitializeServer c)))
  = [ "window"; "bandwidth"; "chunk"; "_result"; "_result"; "recorded"; "begin";
      "onStatus"; "onStatus"; "onStatus"; "onStatus" ].
Proof. split; vm_compute; reflexivity. Qed.

Example readTracksFromMetadata_unexpected_video :
  readTracksFromMetadata sample.afterMetadata [flvio.Map sample.audioOnly]
  = (mkConn None [sample.audioConfig 40000000] sample.closed [] 0 sample.closed,
     Finished (Err (Errorf "unexpected video packet"))).
Proof. vm_compute. reflexivity. Qed.

Lemma readTracksFromMetadata_rejects_undeclared_media_witness :
  let '(c', d) := readTracksFromMetadata sample.afterMetadata [flvio.Map sample.audioOnly] in
  exists consumed,
    incoming sample.afterMetadata = (consumed ++ incoming c')%list /\
    (metadataHasVideo sample.audioOnly = Ok false -> forall m, In (Video m) consumed ->
     d = Finished (Err (Errorf "unexpected video packet"))) /\
    (metadataHasAudio sample.audioOnly = Ok false -> forall m, In (Audio m) consumed ->
     d = Finished (Err (Errorf "unexpected audio packet"))).
Proof.
  exact (@readTracksFromMetadata_rejects_undeclared_media sample.rtmpLibrary
           sample.afterMetadata sample.audioOnly).
Defined.



Example readTracksFromMessages_audio_only :
  readTracksFromMessages sample.audioOnlyTraffic (sample.rawAudio 0)
  = (mkConn None [sample.rawAudio 1500000000] sample.closed [] 0 sample.closed,
     Err (Errorf "no tracks found")).
Proof. vm_compute. reflexivity. Qed.


End rtmp_facts.

(** * Further properties of the code *)

(** ** The H265 format processor *)

Module core_more_facts.

Import core core_more.

(** X1: the extraction yields a parameter set only for a payload of two
    bytes or more whose first byte carries the type of a VPS, an SPS or a
    PPS, and it is then the whole payload, in the place of its type; every
    other packet, aggregation units included, yields nothing. *)
Theorem rtpH265ExtractVPSSPSPPS_closed_form (pkt : rtp.Packet) :
  rtpH265ExtractVPSSPSPPS pkt
  = match rtp.Payload pkt with
    | first :: _ :: _ =>
        if (h265.NALUType first =? 32)%Z then (Some (rtp.Payload pkt), None, None)
        else if (h265.NALUType first =? 33)%Z then (None, Some (rtp.Payload pkt), None)
        else if (h265.NALUType first =? 34)%Z then (None, None, Some (rtp.Payload pkt))
        else (None, None, None)
    | _ => (None, None, None)
    end.
Proof.
  unfold rtpH265ExtractVPSSPSPPS.
  destruct (rtp.Payload pkt) as [|first [|second rest]]; try reflexivity.
  cbv zeta.
  change h265.NALUType_VPS_NUT with 32%Z. change h265.NALUType_SPS_NUT with 33%Z.
  change h265.NALUType_PPS_NUT with 34%Z.
  destruct (h265.NALUType first =? 32)%Z eqn:Ev; [reflexivity|].
  destruct (h265.NALUType first =? 33)%Z eqn:Es; [reflexivity|].
  destruct (h265.NALUType first =? 34)%Z eqn:Ep; [reflexivity|].
  destruct (h265.NALUType first =? h265.NALUType_AggregationUnit)%Z; [|reflexivity].
  apply Z.eqb_neq in Ev, Es, Ep.
  destruct (core_facts.aggregationLoop_stores_nothing first rest None None None Ev Es Ep)
    as [E | E]; exact E.
Qed.

(** X2: an update from one packet makes at most one call of a setter; it
    never changes the payload type or the tolerance of the format; and when it
    makes no call the format is as it was. *)
Theorem updateTrackParameters_at_most_one_call (f : format.H265) (pkt : rtp.Packet) :
  let '(f1, calls) := updateTrackParametersFromRTPPacket f pkt in
  (List.length calls <= 1)%nat /\
  format.PayloadTyp f1 = format.PayloadTyp f /\
  format.MaxDONDiff f1 = format.MaxDONDiff f /\
  (calls = [] -> f1 = f).
Proof.
  destruct (rtpH265ExtractVPSSPSPPS pkt) as [[vps sps] pps] eqn:E.
  rewrite (core_facts.updateTrackParameters_effect f pkt E).
  rewrite rtpH265ExtractVPSSPSPPS_closed_form in E.
  cbn [format.PayloadTyp format.MaxDONDiff].
  assert ((vps = None /\ sps = None) \/ (vps = None /\ pps = None)
          \/ (sps = None /\ pps = None)) as Hone.
  { destruct (rtp.Payload pkt) as [|first [|second rest]];
      try (injection E as <- <- <-; auto).
    destruct (h265.NALUType first =? 32)%Z; [injection E as <- <- <-; auto|].
    destruct (h265.NALUType first =? 33)%Z; [injection E as <- <- <-; auto|].
    destruct (h265.NALUType first =? 34)%Z; injection E as <- <- <-; auto. }
  destruct f as [pt fv fs fp dd]. cbn [format.VPS format.SPS format.PPS].
  destruct Hone as [[-> ->] | [[-> ->] | [-> ->]]]; cbn [differs callsIf app];
    repeat split; try reflexivity;
    match goal with
    | |- context [differs ?x ?y] => destruct (differs x y) eqn:D
    end; cbn; try lia; try discriminate; try reflexivity;
    match goal with
    | |- context [callsIf _ ?x _] => destruct x
    end; cbn; try lia; try discriminate; reflexivity.
Qed.

Section ProcessorMoreFacts.

Context {L : rtph265.Library}.

Lemma encodeUnits_returned t d e :
  encoder t = Some e ->
  exists st r,
    rtph265.Encode e (nalus d) (pts d) = (st, r) /\
    encodeUnits t d
    = Returned (mkProcessor (format t) (Some (withInternal e st)) (decoder t))
        (match r with
         | Ok pkts => mkData pkts (ntp d) (pts d) (nalus d)
         | Err _ => d
         end)
        (match r with Ok _ => None | Err x => Some x end).
Proof.
  intros He. unfold encodeUnits. rewrite He.
  destruct (rtph265.Encode e (nalus d) (pts d)) as [st [pkts | x]];
    exists st; eexists; split; reflexivity.
Qed.

Lemma inspectFirstPacket_fields t pkt :
  format (fst (inspectFirstPacket t pkt))
  = fst (updateTrackParametersFromRTPPacket (format t) pkt) /\
  decoder (fst (inspectFirstPacket t pkt)) = decoder t.
Proof.
  unfold inspectFirstPacket. cbn [encoder format decoder].
  destruct (encoder t); [split; reflexivity|].
  destruct (rtph265.MarshalSize (removePadding pkt) >? rtph265.maxPacketSize)%Z;
    split; reflexivity.
Qed.

(** What [process] does with a batch of raw packets, by the outcome of the
    inspection of the first one. *)
Lemma process_raw t tdata pkt others hasNonRTSPReaders t1 pkt1 :
  rtpPackets tdata = Some (pkt :: others) ->
  inspectFirstPacket t pkt = (t1, pkt1) ->
  process t tdata hasNonRTSPReaders
  = if hasNonRTSPReaders || isSome (encoder t1) then
      let d1 :=
        mkData (if isSome (encoder t1) then None else Some (pkt1 :: others))
          (ntp tdata) (pts tdata) (nalus tdata) in
      match rtph265.DecodeUntilMarker (currentDecoder t1) pkt1 with
      | (dec, Err err) =>
          Returned (mkProcessor (format t1) (encoder t1) (Some dec)) d1
            (if error_eqb err ErrNonStartingPacketAndNoPrevious
                || error_eqb err ErrMorePacketsNeeded
             then None else Some err)
      | (dec, Ok (ns, p)) =>
          routeOrEncode (mkProcessor (format t1) (encoder t1) (Some dec))
            (mkData (rtpPackets d1) (ntp tdata) p ns)
      end
    else
      Returned t1
        (mkData (Some (pkt1 :: others)) (ntp tdata) (pts tdata) (nalus tdata)) None.
Proof.
  intros Hp Hi. unfold process. rewrite Hp, Hi.
  destruct (hasNonRTSPReaders || isSome (encoder t1)) eqn:Ha.
  - cbv zeta.
    destruct (rtph265.DecodeUntilMarker (currentDecoder t1) pkt1) as [dec [[ns p] | err]].
    + destruct (isSome (encoder t1)); reflexivity.
    + destruct (isSome (encoder t1));
        destruct (error_eqb err ErrNonStartingPacketAndNoPrevious
                  || error_eqb err ErrMorePacketsNeeded); reflexivity.
  - apply orb_false_iff in Ha. destruct Ha as [_ Ha].
    unfold routeOrEncode. destruct (encoder t1); [discriminate | reflexivity].
Qed.

(** X3: [process] panics exactly on a batch whose list of raw packets is
    there but empty, and on a batch without raw packets when the processor
    has no encoder; on every other batch it returns. *)
Theorem process_panics_exactly_when
    (t : formatProcessorH265) (tdata : dataH265) (hasNonRTSPReaders : bool) :
  (exists why, process t tdata hasNonRTSPReaders = Panicked why) <->
  rtpPackets tdata = Some [] \/ (rtpPackets tdata = None /\ encoder t = None).
Proof.
  destruct (rtpPackets tdata) as [[|pkt others]|] eqn:Hp.
  - split; [auto|]. intros _. exists IndexOutOfRange. unfold process. rewrite Hp.
    reflexivity.
  - split; [|intros [H | [H _]]; discriminate].
    intros [why H]. exfalso.
    destruct (inspectFirstPacket t pkt) as [t1 pkt1] eqn:Hi.
    rewrite (process_raw t tdata hasNonRTSPReaders Hp Hi) in H.
    destruct (hasNonRTSPReaders || isSome (encoder t1)); [|discriminate].
    cbv zeta in H.
    destruct (rtph265.DecodeUntilMarker (currentDecoder t1) pkt1) as [dec [[ns p] | err]];
      [|discriminate].
    unfold routeOrEncode in H. cbn [encoder] in H.
    destruct (encoder t1) as [e|] eqn:He; [|discriminate].
    match type of H with encodeUnits ?t0 ?d0 = _ =>
      destruct (@encodeUnits_returned t0 d0 e eq_refl) as (st & r & _ & E)
    end.
    rewrite E in H. discriminate.
  - destruct (encoder t) as [e|] eqn:He.
    + split; [|intros [H | [_ H]]; discriminate].
      intros [why H]. exfalso. unfold process in H. rewrite Hp in H.
      match type of H with encodeUnits ?t0 ?d0 = _ =>
        destruct (@encodeUnits_returned t0 d0 e He) as (st & r & _ & E)
      end.
      rewrite E in H. discriminate.
    + split; [auto|]. intros _. exists NilDereference.
      unfold process, encodeUnits. rewrite Hp. cbn [encoder]. rewrite He. reflexivity.
Qed.

(** X4: a batch of raw packets whose first packet, the padding removed, fits
    the maximum size goes through a processor without encoder and without
    other readers as it is, except that the first packet has lost its padding
    and the parameter sets of the track are updated from it: nothing is
    decoded and nil is returned. *)
Theorem process_routes_packets_as_they_are
    (t : formatProcessorH265) (tdata : dataH265) (pkt : rtp.Packet)
    (others : list rtp.Packet) :
  encoder t = None ->
  rtpPackets tdata = Some (pkt :: others) ->
  (rtph265.MarshalSize (removePadding pkt) <= rtph265.maxPacketSize)%Z ->
  process t tdata false
  = Returned
      (mkProcessor (fst (updateTrackParametersFromRTPPacket (format t) pkt)) None
         (decoder t))
      (mkData (Some (removePadding pkt :: others)) (ntp tdata) (pts tdata) (nalus tdata))
      None.
Proof.
  intros He Hp Hsize.
  assert (inspectFirstPacket t pkt
          = (mkProcessor (fst (updateTrackParametersFromRTPPacket (format t) pkt)) None
               (decoder t), removePadding pkt)) as Hi.
  { unfold inspectFirstPacket. cbn [encoder format decoder]. rewrite He.
    assert ((rtph265.MarshalSize (removePadding pkt) >? rtph265.maxPacketSize)%Z = false)
      as -> by (rewrite Z.gtb_ltb; apply Z.ltb_ge; exact Hsize).
    reflexivity. }
  rewrite (process_raw t tdata false Hp Hi). reflexivity.
Qed.

(** X5: whenever [process] returns, the payload type and the tolerance of
    the format and the arrival time of the batch are as they were, and an
    encoder that the processor had is still there with the same exported
    fields: an encoder is never seeded anew. *)
Theorem process_keeps_settings
    (t : formatProcessorH265) (tdata : dataH265) (hasNonRTSPReaders : bool)
    (t' : formatProcessorH265) (d' : dataH265) (err : option error) :
  process t tdata hasNonRTSPReaders = Returned t' d' err ->
  format.PayloadTyp (format t') = format.PayloadTyp (format t) /\
  format.MaxDONDiff (format t') = format.MaxDONDiff (format t) /\
  ntp d' = ntp tdata /\
  forall e, encoder t = Some e -> exists st, encoder t' = Some (withInternal e st).
Proof.
  intros H.
  assert (forall e : rtph265.Encoder rtph265.EncoderState,
            e = withInternal e (rtph265.internal e)) as Hsame
    by (intros e; destruct e; reflexivity).
  destruct (rtpPackets tdata) as [[|pkt others]|] eqn:Hp.
  - unfold process in H. rewrite Hp in H. discriminate.
  - destruct (inspectFirstPacket t pkt) as [t1 pkt1] eqn:Hi.
    pose proof (inspectFirstPacket_fields t pkt) as [Hf _].
    pose proof (core_facts.inspectFirstPacket_encoder t pkt) as Henc.
    rewrite Hi in Hf, Henc. cbn [fst] in Hf, Henc.
    pose proof (updateTrackParameters_at_most_one_call (format t) pkt) as Hu.
    destruct (updateTrackParametersFromRTPPacket (format t) pkt) as [f1 calls].
    cbn [fst] in Hf. destruct Hu as (_ & Hpt & Hdd & _). rewrite <- Hf in Hpt, Hdd.
    assert (forall e, encoder t = Some e -> encoder t1 = Some e) as Hkeep
      by (intros e He; rewrite He in Henc; exact Henc).
    rewrite (process_raw t tdata hasNonRTSPReaders Hp Hi) in H.
    destruct (hasNonRTSPReaders || isSome (encoder t1)).
    + cbv zeta in H.
      destruct (rtph265.DecodeUntilMarker (currentDecoder t1) pkt1)
        as [dec [[ns p] | x]].
      * unfold routeOrEncode in H. cbn [encoder] in H.
        destruct (encoder t1) as [e1|] eqn:He1.
        -- match type of H with encodeUnits ?t0 ?d0 = _ =>
             destruct (@encodeUnits_returned t0 d0 e1 eq_refl) as (st & r & _ & E)
           end.
           rewrite E in H. injection H as <- <- _. cbn [format encoder].
           split; [exact Hpt|]. split; [exact Hdd|].
           split; [destruct r; reflexivity|].
           intros e He. apply Hkeep in He. injection He as ->. exists st. reflexivity.
        -- injection H as <- <- _. cbn [format encoder ntp].
           split; [exact Hpt|]. split; [exact Hdd|]. split; [reflexivity|].
           intros e He. apply Hkeep in He. discriminate.
      * injection H as <- <- _. cbn [format encoder ntp].
        split; [exact Hpt|]. split; [exact Hdd|]. split; [reflexivity|].
        intros e He. apply Hkeep in He. rewrite He.
        exists (rtph265.internal e). f_equal. apply Hsame.
    + injection H as <- <- _. cbn [ntp].
      split; [exact Hpt|]. split; [exact Hdd|]. split; [reflexivity|].
      intros e He. apply Hkeep in He. rewrite He.
      exists (rtph265.internal e). f_equal. apply Hsame.
  - unfold process in H. rewrite Hp in H.
    destruct (encoder t) as [e|] eqn:He.
    + match type of H with encodeUnits ?t0 ?d0 = _ =>
        destruct (@encodeUnits_returned t0 d0 e eq_refl) as (st & r & _ & E)
      end.
      rewrite E in H. injection H as <- <- _. cbn [format encoder].
      unfold updateTrackParametersFromNALUs.
      split; [reflexivity|]. split; [reflexivity|].
      split; [destruct r; reflexivity|].
      intros e0 He0. injection He0 as <-. exists st. reflexivity.
    + unfold encodeUnits in H. cbn [encoder] in H. discriminate.
Qed.

Lemma decodes_inspected t pkt hasNonRTSPReaders :
  hasNonRTSPReaders || isSome (encoder (fst (inspectFirstPacket t pkt)))
  = decodes t pkt hasNonRTSPReaders.
Proof.
  rewrite core_facts.inspectFirstPacket_encoder. unfold decodes.
  destruct (encoder t); cbn [isSome].
  - rewrite !orb_true_r. reflexivity.
  - rewrite orb_false_r.
    destruct (rtph265.MarshalSize (removePadding pkt) >? rtph265.maxPacketSize)%Z;
      reflexivity.
Qed.

(** X6: the decoder is made when it is first needed and kept.  On a batch of
    raw packets, a call that returns leaves the decoder as it was, and the
    units and the timestamp of the batch too, when it does not decode; when it
    decodes, the processor has a decoder afterwards. *)
Theorem process_creates_decoder_on_demand
    (t : formatProcessorH265) (tdata : dataH265) (pkt : rtp.Packet)
    (others : list rtp.Packet) (hasNonRTSPReaders : bool)
    (t' : formatProcessorH265) (d' : dataH265) (err : option error) :
  rtpPackets tdata = Some (pkt :: others) ->
  process t tdata hasNonRTSPReaders = Returned t' d' err ->
  if decodes t pkt hasNonRTSPReaders
  then exists dec, decoder t' = Some dec
  else decoder t' = decoder t /\ nalus d' = nalus tdata /\ pts d' = pts tdata
       /\ err = None.
Proof.
  intros Hp H.
  destruct (inspectFirstPacket t pkt) as [t1 pkt1] eqn:Hi.
  pose proof (decodes_inspected t pkt hasNonRTSPReaders) as Hd.
  pose proof (inspectFirstPacket_fields t pkt) as [_ Hdec].
  rewrite Hi in Hd, Hdec. cbn [fst] in Hd, Hdec.
  rewrite (process_raw t tdata hasNonRTSPReaders Hp Hi) in H. rewrite Hd in H.
  destruct (decodes t pkt hasNonRTSPReaders).
  - cbv zeta in H.
    destruct (rtph265.DecodeUntilMarker (currentDecoder t1) pkt1) as [dec [[ns p] | x]].
    + unfold routeOrEncode in H. cbn [encoder] in H.
      destruct (encoder t1) as [e1|] eqn:He1.
      * match type of H with encodeUnits ?t0 ?d0 = _ =>
          destruct (@encodeUnits_returned t0 d0 e1 eq_refl) as (st & r & _ & E)
        end.
        rewrite E in H. injection H as <- _ _. cbn [decoder]. eauto.
      * injection H as <- _ _. cbn [decoder]. eauto.
    + injection H as <- _ _. cbn [decoder]. eauto.
  - injection H as <- <- <-. auto.
Qed.

(** X7: when the decoder returns the units of a group, a processor without
    encoder keeps the raw packets of the batch and adds the units and their
    timestamp; a processor with an encoder drops the raw packets, encodes the
    units with that timestamp and stores the packets of the encoder, or, when
    the encoder fails, returns its error with a batch that has units and no
    packets. *)
Theorem process_stores_decoded_units
    (t : formatProcessorH265) (tdata : dataH265) (pkt : rtp.Packet)
    (others : list rtp.Packet) (hasNonRTSPReaders : bool)
    (t1 : formatProcessorH265) (pkt1 : rtp.Packet)
    (dec : rtph265.DecoderState) (ns : list bytes) (p : Z) :
  rtpPackets tdata = Some (pkt :: others) ->
  inspectFirstPacket t pkt = (t1, pkt1) ->
  decodes t pkt hasNonRTSPReaders = true ->
  rtph265.DecodeUntilMarker (currentDecoder t1) pkt1 = (dec, Ok (ns, p)) ->
  match encoder t1 with
  | None =>
      process t tdata hasNonRTSPReaders
      = Returned (mkProcessor (format t1) None (Some dec))
          (mkData (Some (pkt1 :: others)) (ntp tdata) p ns) None
  | Some e =>
      exists st r,
        rtph265.Encode e ns p = (st, r) /\
        process t tdata hasNonRTSPReaders
        = Returned (mkProcessor (format t1) (Some (withInternal e st)) (Some dec))
            (mkData (match r with Ok pkts => pkts | Err _ => None end) (ntp tdata) p ns)
            (match r with Ok _ => None | Err x => Some x end)
  end.
Proof.
  intros Hp Hi Hd Hdec.
  pose proof (decodes_inspected t pkt hasNonRTSPReaders) as Ha.
  rewrite Hi, Hd in Ha. cbn [fst] in Ha.
  rewrite (process_raw t tdata hasNonRTSPReaders Hp Hi). rewrite Ha, Hdec.
  cbv zeta. unfold routeOrEncode, remuxNALUs. cbn [encoder rtpPackets].
  destruct (encoder t1) as [e|] eqn:He; cbn [isSome]; [|reflexivity].
  match goal with |- context [encodeUnits ?t0 ?d0] =>
    destruct (@encodeUnits_returned t0 d0 e eq_refl) as (st & r & E1 & E2)
  end.
  cbn [nalus pts ntp format decoder] in E1, E2.
  exists st, r. split; [exact E1|]. rewrite E2. destruct r; reflexivity.
Qed.

(** X8: a processor made with [allocateEncoder] takes batches of units: the
    call returns.  A processor made without it panics on them. *)
Theorem newFormatProcessorH265_unit_batches
    (forma : format.H265) (tdata : dataH265) (hasNonRTSPReaders : bool) :
  rtpPackets tdata = None ->
  (exists t t' d' err,
     newFormatProcessorH265 forma true = Ok t /\
     process t tdata hasNonRTSPReaders = Returned t' d' err) /\
  (exists t,
     newFormatProcessorH265 forma false = Ok t /\
     process t tdata hasNonRTSPReaders = Panicked NilDereference).
Proof.
  intros Hp. split.
  - eexists. unfold newFormatProcessorH265.
    match goal with |- context [Ok ?t0 = Ok _] =>
      destruct (@encodeUnits_returned
                  (mkProcessor (updateTrackParametersFromNALUs (format t0) (nalus tdata))
                     (encoder t0) (decoder t0))
                  (mkData (rtpPackets tdata) (ntp tdata) (pts tdata)
                     (remuxNALUs (nalus tdata)))
                  (rtph265.CreateEncoder forma) eq_refl) as (st & r & _ & E)
    end.
    do 3 eexists. split; [reflexivity|].
    unfold process. rewrite Hp. rewrite Hp in E. exact E.
  - eexists. split; [reflexivity|].
    unfold process, encodeUnits. rewrite Hp. reflexivity.
Qed.

End ProcessorMoreFacts.

(** *** Runs *)

#[local] Existing Instance sample.rtph265Library.

Lemma process_routes_packets_as_they_are_witness :
  process (mkProcessor sample.track None None)
    (mkData (Some [sample_more.padded]) 0 0 []) false
  = Returned (mkProcessor sample.track None None)
      (mkData
         (Some [rtp.mkPacket (rtp.mkHeader false true 96 21 6000 1 []) [x02; x01; xbb] 0])
         0 0 [])
      None.
Proof.
  refine (@process_routes_packets_as_they_are sample.rtph265Library
            (mkProcessor sample.track None None)
            (mkData (Some [sample_more.padded]) 0 0 [])
            sample_more.padded [] eq_refl eq_refl _).
  vm_compute. discriminate.
Defined.

Lemma process_keeps_settings_witness :
  format.PayloadTyp sample.track = 96%Z /\
  format.MaxDONDiff sample.track = 0%Z /\
  0%Z = 0%Z /\
  forall e,
    Some (rtph265.CreateEncoder sample.track) = Some e ->
    exists st, Some (rtph265.mkEncoder 96 None None None 0 1%Z) = Some (withInternal e st).
Proof.
  exact (@process_keeps_settings sample.rtph265Library
           (mkProcessor sample.track (Some (rtph265.CreateEncoder sample.track)) None)
           (mkData None 0 9000 [[x40; x01]]) false
           (mkProcessor sample.track
              (Some (rtph265.mkEncoder 96 None None None 0 1%Z)) None)
           (mkData
              (Some [rtp.mkPacket (rtp.mkHeader false true 96 0 9000 0 []) [x40; x01] 0])
              0 9000 [[x40; x01]])
           None eq_refl).
Defined.

Lemma process_creates_decoder_on_demand_witness :
  (exists dec : list bytes, Some [[x02; x01; xaa]] = Some dec) /\
  (@None (list bytes) = None /\ @nil bytes = [] /\ 0%Z = 0%Z /\ @None error = None).
Proof.
  split.
  - exact (@process_creates_decoder_on_demand sample.rtph265Library
             (mkProcessor sample.track None None)
             (mkData (Some [sample.unfinished]) 0 0 []) sample.unfinished [] true
             (mkProcessor sample.track None (Some [[x02; x01; xaa]]))
             (mkData (Some [sample.unfinished]) 0 0 []) None eq_refl eq_refl).
  - exact (@process_creates_decoder_on_demand sample.rtph265Library
             (mkProcessor sample.track None None)
             (mkData (Some [sample_more.padded]) 0 0 []) sample_more.padded [] false
             (mkProcessor sample.track None None)
             (mkData
                (Some [rtp.mkPacket (rtp.mkHeader false true 96 21 6000 1 [])
                         [x02; x01; xbb] 0])
                0 0 [])
             None eq_refl eq_refl).
Defined.

Lemma process_stores_decoded_units_witness :
  process (mkProcessor sample.track None None)
    (mkData (Some [sample_more.finished]) 0 0 []) true
  = Returned (mkProcessor sample.track None (Some []))
      (mkData (Some [sample_more.finished]) 0 6000 [[x02; x01; xcc]]) None.
Proof.
  exact (@process_stores_decoded_units sample.rtph265Library
           (mkProcessor sample.track None None)
           (mkData (Some [sample_more.finished]) 0 0 []) sample_more.finished [] true
           (mkProcessor sample.track None None) sample_more.finished
           [] [[x02; x01; xcc]] 6000%Z eq_refl eq_refl eq_refl eq_refl).
Defined.

Lemma newFormatProcessorH265_unit_batches_witness :
  (exists t t' d' err,
     newFormatProcessorH265 sample.track true = Ok t /\
     process t (mkData None 0 9000 [[x40; x01]]) false = Returned t' d' err) /\
  (exists t,
     newFormatProcessorH265 sample.track false = Ok t /\
     process t (mkData None 0 9000 [[x40; x01]]) false = Panicked NilDereference).
Proof.
  exact (@newFormatProcessorH265_unit_batches sample.rtph265Library
           sample.track (mkData None 0 9000 [[x40; x01]]) false eq_refl).
Defined.

End core_more_facts.

(** ** The RTMP connection engine *)

Module rtmp_more_facts.

Import message rtmp rtmp_more.

Local Open Scope string_scope.

Lemma continues_refl c : continues c c [].
Proof.
  unfold continues. repeat apply conj; try reflexivity.
  - exists []. reflexivity.
  - rewrite app_nil_r. reflexivity.
  - simpl. lia.
Qed.

Lemma continues_trans c1 c2 c3 o1 o2 :
  continues c1 c2 o1 -> continues c2 c3 o2 -> continues c1 c3 (o1 ++ o2)%list.
Proof.
  intros (Hh1 & Hr1 & Hw1 & (k1 & Hi1) & Ho1 & Hn1)
         (Hh2 & Hr2 & Hw2 & (k2 & Hi2) & Ho2 & Hn2).
  unfold continues. repeat apply conj; try congruence.
  - exists (k1 ++ k2)%list. rewrite Hi1, Hi2, app_assoc. reflexivity.
  - rewrite Ho2, Ho1, app_assoc. reflexivity.
  - rewrite length_app. lia.
Qed.

(** Reading: messages leave the front of the incoming ones, nothing else
    changes. *)
Lemma continues_read c inbox consumed :
  incoming c = (consumed ++ inbox)%list -> continues c (withIncoming c inbox) [].
Proof.
  intros H. unfold continues. cbn. repeat apply conj; try reflexivity.
  - exists consumed. exact H.
  - rewrite app_nil_r. reflexivity.
  - lia.
Qed.

Section ServerMoreFacts.

Context {U : url.Library} {X : Library}.

(** X9: when the command read by the loop of the server is [publish] with a
    string as its second argument, the target resolves and the transport
    accepts one more write, the engine writes one [onStatus] command with the
    code NetStream.Publish.Start and nothing else, and returns the target with
    the publishing flag true. *)
Theorem commandLoop_publish_notification
    (tcURL connectpath : string) (c c1 : Conn) (cmd : MsgCommandAMF0.t)
    (first : flvio.Value) (actionpath : string) (more : list flvio.Value)
    (u : url.URL) :
  readCommand c = (c1, Ok cmd) ->
  MsgCommandAMF0.Name cmd = "publish" ->
  MsgCommandAMF0.Arguments cmd = first :: flvio.Str actionpath :: more ->
  createURL tcURL connectpath actionpath = Ok u ->
  (1 <= writable c1)%nat ->
  exists c2,
    commandLoop tcURL connectpath c = (c2, Ok (u, true)) /\
    incoming c2 = incoming c1 /\
    written c2
    = (written c1
       ++ [ CommandAMF0
              (MsgCommandAMF0.mk 5 16777216 "onStatus" (MsgCommandAMF0.CommandID cmd)
                 [ flvio.Nil;
                   flvio.Map [ ("level", flvio.Str "status");
                               ("code", flvio.Str "NetStream.Publish.Start");
                               ("description", flvio.Str "publish start") ] ]) ])%list.
Proof.
  intros Hr Hn Ha Hu Hw.
  rewrite (rtmp_facts.commandLoop_unfold tcURL connectpath c Hr). rewrite Hn.
  change ("publish" =? "createStream") with false.
  change ("publish" =? "play") with false.
  change ("publish" =? "publish") with true.
  cbv iota. unfold publishCommand. rewrite Ha, Hu.
  rewrite rtmp_facts.writeAll_ok by (simpl; lia).
  eexists. split; [reflexivity|]. split; reflexivity.
Qed.

(** X10: a [play] or a [publish] without a string as its second argument is
    answered with the error "invalid play command arguments", respectively
    "invalid publish command arguments", and one whose target does not
    resolve with the error of [createURL]; in both cases nothing is written. *)
Theorem commandLoop_rejects_play_and_publish
    (tcURL connectpath : string) (c c1 : Conn) (cmd : MsgCommandAMF0.t) :
  readCommand c = (c1, Ok cmd) ->
  ((forall first actionpath more,
      MsgCommandAMF0.Arguments cmd <> first :: flvio.Str actionpath :: more) ->
   (MsgCommandAMF0.Name cmd = "play" ->
    commandLoop tcURL connectpath c
    = (c1, Err (Errorf "invalid play command arguments"))) /\
   (MsgCommandAMF0.Name cmd = "publish" ->
    commandLoop tcURL connectpath c
    = (c1, Err (Errorf "invalid publish command arguments")))) /\
  (forall first actionpath more err,
     MsgCommandAMF0.Arguments cmd = first :: flvio.Str actionpath :: more ->
     createURL tcURL connectpath actionpath = Err err ->
     MsgCommandAMF0.Name cmd = "play" \/ MsgCommandAMF0.Name cmd = "publish" ->
     commandLoop tcURL connectpath c = (c1, Err err)).
Proof.
  intros Hr. rewrite (rtmp_facts.commandLoop_unfold tcURL connectpath c Hr). split.
  - intros Hargs.
    assert (forall A (k : string -> A) (d : A),
              match MsgCommandAMF0.Arguments cmd with
              | _ :: flvio.Str actionpath :: _ => k actionpath
              | _ => d
              end = d) as Hmatch.
    { intros A k d.
      destruct (MsgCommandAMF0.Arguments cmd) as [|a0 [|a1 more]] eqn:Ea; try reflexivity.
      destruct a1; try reflexivity. exfalso. eapply Hargs. reflexivity. }
    split; intros Hn; rewrite Hn.
    + change ("play" =? "createStream") with false. change ("play" =? "play") with true.
      cbv iota. unfold playCommand. apply Hmatch.
    + change ("publish" =? "createStream") with false.
      change ("publish" =? "play") with false.
      change ("publish" =? "publish") with true.
      cbv iota. unfold publishCommand. apply Hmatch.
  - intros first actionpath more err Ha Hu [Hn | Hn]; rewrite Hn.
    + change ("play" =? "createStream") with false. change ("play" =? "play") with true.
      cbv iota. unfold playCommand. rewrite Ha, Hu. reflexivity.
    + change ("publish" =? "createStream") with false.
      change ("publish" =? "play") with false.
      change ("publish" =? "publish") with true.
      cbv iota. unfold publishCommand. rewrite Ha, Hu. reflexivity.
Qed.

(** X11: [createStream] is answered with a [_result] that carries the chunk
    stream and the command identifier of the command, nil and the stream
    identifier 1, and the loop goes on; a command of any name other than
    [createStream], [play] and [publish] is passed over without an answer. *)
Theorem commandLoop_answers_createStream
    (tcURL connectpath : string) (c c1 : Conn) (cmd : MsgCommandAMF0.t) :
  readCommand c = (c1, Ok cmd) ->
  (MsgCommandAMF0.Name cmd = "createStream" ->
   forall n, writable c1 = S n ->
   commandLoop tcURL connectpath c
   = commandLoop tcURL connectpath
       (mkConn (handshakeError c1) (incoming c1) (readError c1)
          (written c1
           ++ [ CommandAMF0
                  (MsgCommandAMF0.mk (MsgCommandAMF0.ChunkStreamID cmd) 0 "_result"
                     (MsgCommandAMF0.CommandID cmd)
                     [flvio.Nil; flvio.Float64 1%float]) ])%list
          n (writeError c1))) /\
  (MsgCommandAMF0.Name cmd <> "createStream" ->
   MsgCommandAMF0.Name cmd <> "play" ->
   MsgCommandAMF0.Name cmd <> "publish" ->
   commandLoop tcURL connectpath c = commandLoop tcURL connectpath c1).
Proof.
  intros Hr. rewrite (rtmp_facts.commandLoop_unfold tcURL connectpath c Hr). split.
  - intros Hn n Hw. rewrite Hn. change ("createStream" =? "createStream") with true.
    cbv iota. rewrite (rtmp_facts.Write_ok c1 _ Hw). reflexivity.
  - intros H1 H2 H3. apply String.eqb_neq in H1, H2, H3. rewrite H1, H2, H3.
    reflexivity.
Qed.

(** X12: after the handshake, a first command [connect] whose first argument
    is a map with the application under "app" and the base URL under "tcUrl",
    or under "tcurl" when "tcUrl" is not there, is answered, when the
    transport accepts four writes, with the window acknowledgement size
    2500000, the peer bandwidth 2500000 of type 2, the chunk size 65536 and a
    [_result] that echoes the object encoding of the peer (zero when absent);
    the command loop then runs with that base URL and application. *)
Theorem InitializeServer_answers_connect
    (c c1 : Conn) (cmd : MsgCommandAMF0.t) (ma : flvio.AMFMap)
    (more : list flvio.Value) (connectpath tcURL : string) :
  handshakeError c = None ->
  readCommand c = (c1, Ok cmd) ->
  MsgCommandAMF0.Name cmd = "connect" ->
  MsgCommandAMF0.Arguments cmd = flvio.Map ma :: more ->
  flvio.GetString ma "app" = Some connectpath ->
  flvio.GetString ma "tcUrl" = Some tcURL \/
  (flvio.GetString ma "tcUrl" = None /\ flvio.GetString ma "tcurl" = Some tcURL) ->
  (4 <= writable c1)%nat ->
  InitializeServer c
  = commandLoop tcURL connectpath
      (mkConn (handshakeError c1) (incoming c1) (readError c1)
         (written c1
          ++ [ SetWindowAckSize 2500000;
               SetPeerBandwidth 2500000 2;
               SetChunkSize 65536;
               CommandAMF0
                 (MsgCommandAMF0.mk (MsgCommandAMF0.ChunkStreamID cmd) 0 "_result"
                    (MsgCommandAMF0.CommandID cmd)
                    [ flvio.Map [ ("fmsVer", flvio.Str "LNX 9,0,124,2");
                                  ("capabilities", flvio.Float64 31%float) ];
                      flvio.Map [ ("level", flvio.Str "status");
                                  ("code", flvio.Str "NetConnection.Connect.Success");
                                  ("description", flvio.Str "Connection succeeded.");
                                  ("objectEncoding",
                                   flvio.Float64 (flvio.GetFloat64 ma "objectEncoding"))
                                ] ]) ])%list
         (writable c1 - 4) (writeError c1)).
Proof.
  intros Hh Hr Hn Ha Happ Htc Hw.
  unfold InitializeServer. rewrite Hh, Hr, Hn.
  change (negb ("connect" =? "connect")) with false. cbv iota.
  rewrite Ha, Happ.
  assert (match flvio.GetString ma "tcUrl" with
          | Some s => Some s
          | None => flvio.GetString ma "tcurl"
          end = Some tcURL) as ->.
  { destruct Htc as [-> | [-> ->]]; reflexivity. }
  rewrite rtmp_facts.writeAll_ok by (simpl; lia). reflexivity.
Qed.

Lemma readCommandFrom_found inbox failure : forall rest cmd,
  readCommandFrom inbox failure = (rest, Ok cmd) ->
  exists skipped,
    inbox = (skipped ++ CommandAMF0 cmd :: rest)%list /\
    forallb (fun m => negb (isCommand m)) skipped = true.
Proof.
  induction inbox as [|m inbox IH]; intros rest cmd H; cbn [readCommandFrom] in H.
  - discriminate.
  - destruct m;
      try (destruct (IH _ _ H) as (k & -> & Hk);
           match goal with
           | |- exists skipped, (?x :: _ = _) /\ _ => exists (x :: k)
           end; split; [reflexivity | exact Hk]).
    injection H as <- <-. exists []. auto.
Qed.

Lemma readCommand_found c c1 cmd :
  readCommand c = (c1, Ok cmd) ->
  exists skipped,
    incoming c = (skipped ++ CommandAMF0 cmd :: incoming c1)%list /\
    forallb (fun m => negb (isCommand m)) skipped = true /\
    c1 = withIncoming c (incoming c1).
Proof.
  unfold readCommand. intros H.
  destruct (readCommandFrom (incoming c) (readError c)) as [rest r] eqn:E.
  injection H as <- ->. apply readCommandFrom_found in E.
  destruct E as (k & E & Hk). exists k. auto.
Qed.

Lemma writeAll_done msgs : forall c c',
  writeAll c msgs = (c', None) ->
  written c' = (written c ++ msgs)%list /\ incoming c' = incoming c.
Proof.
  induction msgs as [|m msgs IH]; intros c c' H; cbn [writeAll] in H.
  - injection H as <-. rewrite app_nil_r. auto.
  - unfold Write in H. destruct (writable c) as [|n]; [discriminate|].
    apply IH in H. cbn [written incoming] in H. destruct H as [Hw Hi].
    rewrite Hw, <- app_assoc. auto.
Qed.

Lemma skipped_unanswered skipped :
  forallb (fun m => negb (isCommand m)) skipped = true ->
  createStreamResults skipped = [] /\
  forallb (fun m => negb (endsLoop m)) skipped = true.
Proof.
  induction skipped as [|m k IH]; intros H; [auto|].
  cbn [forallb] in H. apply andb_true_iff in H. destruct H as [Hm Hk].
  destruct (IH Hk) as [E1 E2].
  destruct m; try discriminate; cbn [createStreamResults forallb endsLoop negb andb]; auto.
Qed.

Lemma createStreamResults_app a b :
  createStreamResults (a ++ b) = (createStreamResults a ++ createStreamResults b)%list.
Proof.
  induction a as [|m a IH]; [reflexivity|].
  destruct m; cbn [app createStreamResults]; try exact IH.
  destruct (MsgCommandAMF0.Name m =? "createStream"); [|exact IH].
  cbn [app]. f_equal. exact IH.
Qed.

Lemma commandLoop_success tcURL connectpath (n : nat) : forall c c' u isPublishing,
  (List.length (incoming c) <= n)%nat ->
  commandLoop tcURL connectpath c = (c', Ok (u, isPublishing)) ->
  exists between cmd first actionpath more,
    incoming c = (between ++ CommandAMF0 cmd :: incoming c')%list /\
    forallb (fun m => negb (endsLoop m)) between = true /\
    MsgCommandAMF0.Name cmd = (if isPublishing then "publish" else "play") /\
    MsgCommandAMF0.Arguments cmd = first :: flvio.Str actionpath :: more /\
    createURL tcURL connectpath actionpath = Ok u /\
    written c'
    = (written c ++ createStreamResults between ++ notifications isPublishing cmd)%list.
Proof.
  induction n as [|n IH]; intros c c' u isPublishing Hn H;
    destruct (readCommand c) as [c1 r] eqn:Hr;
    rewrite (rtmp_facts.commandLoop_unfold tcURL connectpath c Hr) in H;
    (destruct r as [cmd | err]; [|discriminate]);
    pose proof (readCommand_shorter _ Hr) as Hshort; [lia|].
  destruct (readCommand_found _ Hr) as (skipped & Ei & Hsk & Ec1).
  destruct (skipped_unanswered _ Hsk) as [Hnone Hnoend].
  destruct (MsgCommandAMF0.Name cmd =? "createStream") eqn:Ecs.
  - (* createStream *)
    apply String.eqb_eq in Ecs.
    unfold Write in H. destruct (writable c1) as [|w] eqn:Ew; [discriminate|].
    apply IH in H; [|cbn [incoming]; lia].
    destruct H as (between & cmd' & first & actionpath & more & Hi & Hb & Hname & Ha & Hu & Hw).
    cbn [incoming written] in Hi, Hw.
    exists (skipped ++ CommandAMF0 cmd :: between)%list, cmd', first, actionpath, more.
    repeat apply conj; auto.
    + rewrite Ei, Hi, <- app_assoc. reflexivity.
    + rewrite forallb_app, Hnoend. cbn [forallb endsLoop]. rewrite Ecs, Hb. reflexivity.
    + rewrite Hw, createStreamResults_app, Hnone. cbn [app createStreamResults].
      rewrite Ecs. cbn [String.eqb]. change ("createStream" =? "createStream") with true.
      cbv iota. rewrite Ec1 at 1. cbn [written withIncoming].
      rewrite <- !app_assoc. reflexivity.
  - destruct (MsgCommandAMF0.Name cmd =? "play") eqn:Epl.
    + (* play *)
      apply String.eqb_eq in Epl. unfold playCommand in H.
      destruct (MsgCommandAMF0.Arguments cmd) as [|first [|second more]] eqn:Ea;
        try discriminate.
      destruct second; try discriminate.
      destruct (createURL tcURL connectpath s) as [u0 | e] eqn:Eu; [|discriminate].
      match type of H with context [writeAll c1 ?msgs] =>
        destruct (writeAll c1 msgs) as [c2 [e|]] eqn:Ew
      end; [discriminate|].
      injection H as <- <- <-. apply writeAll_done in Ew. destruct Ew as [Hw Hi].
      exists skipped, cmd, first, s, more.
      repeat apply conj; auto.
      * rewrite Ei, Hi. reflexivity.
      * rewrite Hw, Hnone. rewrite Ec1 at 1. reflexivity.
    + destruct (MsgCommandAMF0.Name cmd =? "publish") eqn:Epu.
      * (* publish *)
        apply String.eqb_eq in Epu. unfold publishCommand in H.
        destruct (MsgCommandAMF0.Arguments cmd) as [|first [|second more]] eqn:Ea;
          try discriminate.
        destruct second; try discriminate.
        destruct (createURL tcURL connectpath s) as [u0 | e] eqn:Eu; [|discriminate].
        match type of H with context [writeAll c1 ?msgs] =>
          destruct (writeAll c1 msgs) as [c2 [e|]] eqn:Ew
        end; [discriminate|].
        injection H as <- <- <-. apply writeAll_done in Ew. destruct Ew as [Hw Hi].
        exists skipped, cmd, first, s, more.
        repeat apply conj; auto.
        -- rewrite Ei, Hi. reflexivity.
        -- rewrite Hw, Hnone. rewrite Ec1 at 1. reflexivity.
      * (* another command *)
        apply IH in H; [|lia].
        destruct H as (between & cmd' & first & actionpath & more & Hi & Hb & Hname & Ha & Hu & Hw).
        exists (skipped ++ CommandAMF0 cmd :: between)%list, cmd', first, actionpath, more.
        repeat apply conj; auto.
        -- rewrite Ei, Hi, <- app_assoc. reflexivity.
        -- rewrite forallb_app, Hnoend. cbn [forallb endsLoop]. rewrite Epl, Epu, Hb.
           reflexivity.
        -- rewrite Hw, createStreamResults_app, Hnone. cbn [app createStreamResults].
           rewrite Ecs. rewrite Ec1 at 1. reflexivity.
Qed.


(** X13: when [InitializeServer] returns a URL, it has read, in this order,
    messages that are not commands, the command [connect] with its map, some
    messages among which there is neither [play] nor [publish], and the
    [play] or [publish] command of the mode it returns; its URL is the one
    [createURL] makes from the base URL and the application of [connect] and
    the stream of that command; and it has written exactly the three
    settings and the [_result] of [connect], one [_result] for every
    [createStream] it has read, in their order, and the notifications of the
    mode: six messages for [play], one for [publish]. *)
Theorem InitializeServer_writes_on_success
    (c c' : Conn) (u : url.URL) (isPublishing : bool) :
  InitializeServer c = (c', Ok (u, isPublishing)) ->
  exists early connect ma others between cmd first actionpath more connectpath tcURL,
    incoming c
    = (early ++ CommandAMF0 connect :: between ++ CommandAMF0 cmd :: incoming c')%list /\
    forallb (fun m => negb (isCommand m)) early = true /\
    MsgCommandAMF0.Name connect = "connect" /\
    MsgCommandAMF0.Arguments connect = flvio.Map ma :: others /\
    flvio.GetString ma "app" = Some connectpath /\
    match flvio.GetString ma "tcUrl" with
    | Some s => Some s
    | None => flvio.GetString ma "tcurl"
    end = Some tcURL /\
    forallb (fun m => negb (endsLoop m)) between = true /\
    MsgCommandAMF0.Name cmd = (if isPublishing then "publish" else "play") /\
    MsgCommandAMF0.Arguments cmd = first :: flvio.Str actionpath :: more /\
    createURL tcURL connectpath actionpath = Ok u /\
    written c'
    = (written c
       ++ [ SetWindowAckSize 2500000;
            SetPeerBandwidth 2500000 2;
            SetChunkSize 65536;
            connectResult connect (flvio.GetFloat64 ma "objectEncoding") ]
       ++ createStreamResults between
       ++ notifications isPublishing cmd)%list.
Proof.
  unfold InitializeServer. intros H.
  destruct (handshakeError c); [discriminate|].
  destruct (readCommand c) as [c1 r] eqn:Hr.
  destruct r as [connect | err]; [|discriminate].
  destruct (readCommand_found _ Hr) as (early & Ei & Hearly & Ec1).
  destruct (MsgCommandAMF0.Name connect =? "connect") eqn:En; [|discriminate].
  apply String.eqb_eq in En. cbn [negb] in H.
  destruct (MsgCommandAMF0.Arguments connect) as [|a0 others] eqn:Ea; [discriminate|].
  destruct a0 as [ | | | | | ma]; try discriminate.
  destruct (flvio.GetString ma "app") as [connectpath|] eqn:Eapp; [|discriminate].
  destruct (match flvio.GetString ma "tcUrl" with
            | Some s0 => Some s0
            | None => flvio.GetString ma "tcurl"
            end) as [tcURL|] eqn:Etc; [|discriminate].
  cbv zeta in H.
  match type of H with context [writeAll c1 ?msgs] =>
    destruct (writeAll c1 msgs) as [c2 [e|]] eqn:Ew
  end; [discriminate|].
  apply writeAll_done in Ew. destruct Ew as [Hw Hi].
  apply (@commandLoop_success tcURL connectpath (List.length (incoming c2)) c2 c' u
           isPublishing (le_n _)) in H.
  destruct H as (between & cmd & first & actionpath & more & Hi2 & Hb & Hname & Hargs & Hu & Hw2).
  exists early, connect, ma, others, between, cmd, first, actionpath, more, connectpath, tcURL.
  repeat apply conj; auto.
  - rewrite Ei, <- Hi, Hi2. reflexivity.
  - rewrite Hw2, Hw. rewrite Ec1 at 1. cbn [written withIncoming].
    rewrite <- !app_assoc. reflexivity.
Qed.

End ServerMoreFacts.

(** *** The client side *)

Lemma readCommandResultFrom_answer failure commandID commandName isValid skipped :
  forall cmd rest,
  passedOver commandID commandName skipped = true ->
  answers commandID commandName (CommandAMF0 cmd) = true ->
  readCommandResultFrom (skipped ++ CommandAMF0 cmd :: rest) failure
    commandID commandName isValid
  = (rest, if isValid cmd then None else Some (Errorf "server refused connect request")).
Proof.
  induction skipped as [|m skipped IH]; intros cmd rest Hs Ha.
  - cbn [app readCommandResultFrom]. cbn [answers] in Ha. rewrite Ha.
    destruct (isValid cmd); reflexivity.
  - cbn [passedOver forallb] in Hs. apply andb_true_iff in Hs. destruct Hs as [Hm Hs].
    apply negb_true_iff in Hm.
    change ((m :: skipped) ++ CommandAMF0 cmd :: rest)%list
      with (m :: (skipped ++ CommandAMF0 cmd :: rest))%list.
    destruct m; cbn [readCommandResultFrom]; try (apply IH; assumption).
    cbn [answers] in Hm. rewrite Hm. apply IH; assumption.
Qed.

Lemma readCommandResultFrom_no_answer failure commandID commandName isValid inbox :
  passedOver commandID commandName inbox = true ->
  readCommandResultFrom inbox failure commandID commandName isValid = ([], Some failure).
Proof.
  induction inbox as [|m inbox IH]; intros Hs; [reflexivity|].
  cbn [passedOver forallb] in Hs. apply andb_true_iff in Hs. destruct Hs as [Hm Hs].
  apply negb_true_iff in Hm.
  destruct m; cbn [readCommandResultFrom]; try (apply IH; assumption).
  cbn [answers] in Hm. rewrite Hm. apply IH; assumption.
Qed.

(** X14: [readCommandResult] passes over every message that is not a command
    with the awaited identifier and name, whatever it is, and decides on the
    first command that has both: nil when the command is valid, "server
    refused connect request" when it is not; the messages behind that command
    are left unread.  When no such command comes, it reads everything and
    returns the error of the transport. *)
Theorem readCommandResult_awaits_its_answer
    (commandID : Z) (commandName : string) (isValid : MsgCommandAMF0.t -> bool)
    (c : Conn) :
  (forall skipped cmd rest,
     incoming c = (skipped ++ CommandAMF0 cmd :: rest)%list ->
     passedOver commandID commandName skipped = true ->
     answers commandID commandName (CommandAMF0 cmd) = true ->
     readCommandResult commandID commandName isValid c
     = (withIncoming c rest,
        if isValid cmd then None else Some (Errorf "server refused connect request"))) /\
  (passedOver commandID commandName (incoming c) = true ->
   readCommandResult commandID commandName isValid c
   = (withIncoming c [], Some (readError c))).
Proof.
  split.
  - intros skipped cmd rest Hi Hs Ha. unfold readCommandResult. rewrite Hi.
    rewrite (@readCommandResultFrom_answer (readError c) commandID commandName isValid
               skipped cmd rest Hs Ha).
    reflexivity.
  - intros Hs. unfold readCommandResult.
    rewrite (@readCommandResultFrom_no_answer (readError c) commandID commandName isValid
               (incoming c) Hs).
    reflexivity.
Qed.

Section ClientMoreFacts.

Context {U : url.Library} {P : Printer} {X : Library}.

Lemma andThen_write msg next c n :
  writable c = S n ->
  andThen (write msg) next c
  = next (mkConn (handshakeError c) (incoming c) (readError c)
            (written c ++ [msg])%list n (writeError c)).
Proof.
  intros H. unfold andThen, write. rewrite (rtmp_facts.Write_ok c msg H). reflexivity.
Qed.

Lemma andThen_answer commandID commandName isValid next c skipped cmd rest :
  incoming c = (skipped ++ CommandAMF0 cmd :: rest)%list ->
  passedOver commandID commandName skipped = true ->
  answers commandID commandName (CommandAMF0 cmd) = true ->
  isValid cmd = true ->
  andThen (readCommandResult commandID commandName isValid) next c
  = next (withIncoming c rest).
Proof.
  intros Hi Hs Ha Hv. unfold andThen, readCommandResult. rewrite Hi.
  rewrite (@readCommandResultFrom_answer (readError c) commandID commandName isValid
             skipped cmd rest Hs Ha).
  rewrite Hv. reflexivity.
Qed.

Ltac fields :=
  cbn [withIncoming handshakeError incoming readError written writable writeError negb].

Ltac writes := erewrite andThen_write by reflexivity; fields.

(** X15: a client that plays.  After the handshake, when the base URL can be
    built, the transport accepts seven writes and the peer answers each
    awaited command with a valid result ([_result] 1, [_result] 2 with the
    number 1, [onStatus] 3 with the level "status"), whatever else it sends
    in between, [InitializeClient] returns nil having written exactly: the
    window acknowledgement size 2500000, the peer bandwidth 2500000 of type
    2, the chunk size 65536, [connect], [createStream], the buffer length 100
    and [play] of the stream; what follows the last answer is left unread. *)
Theorem InitializeClient_play_sequence
    (c : Conn) (u : url.URL) (tcURL : string)
    (s1 s2 s3 rest : list Message) (r1 r2 r3 : MsgCommandAMF0.t) :
  handshakeError c = None ->
  getTcURL u = Some tcURL ->
  (7 <= writable c)%nat ->
  incoming c
  = (s1 ++ CommandAMF0 r1 :: s2 ++ CommandAMF0 r2 :: s3 ++ CommandAMF0 r3 :: rest)%list ->
  passedOver 1 "_result" s1 = true ->
  answers 1 "_result" (CommandAMF0 r1) = true -> resultIsOK1 r1 = true ->
  passedOver 2 "_result" s2 = true ->
  answers 2 "_result" (CommandAMF0 r2) = true -> resultIsOK2 r2 = true ->
  passedOver 3 "onStatus" s3 = true ->
  answers 3 "onStatus" (CommandAMF0 r3) = true -> resultIsOK1 r3 = true ->
  InitializeClient c u false
  = ClientReturned
      (mkConn None rest (readError c)
         (written c
          ++ [ SetWindowAckSize 2500000;
               SetPeerBandwidth 2500000 2;
               SetChunkSize 65536;
               connectCommand (fst (splitPath u)) tcURL;
               CommandAMF0 (MsgCommandAMF0.mk 3 0 "createStream" 2 [flvio.Nil]);
               UserControlSetBufferLength 100;
               CommandAMF0
                 (MsgCommandAMF0.mk 4 16777216 "play" 3
                    [flvio.Nil; flvio.Str (snd (splitPath u))]) ])%list
         (writable c - 7) (writeError c))
      None.
Proof.
  intros Hh Htc Hw Hi H1 A1 V1 H2 A2 V2 H3 A3 V3.
  unfold InitializeClient. destruct (splitPath u) as [connectpath actionpath].
  cbn [fst snd]. rewrite Hh, Htc.
  destruct (writable c) as [|[|[|[|[|[|[|n]]]]]]] eqn:En; try lia.
  erewrite andThen_write by exact En.
  erewrite andThen_write by reflexivity.
  unfold write at 1. erewrite rtmp_facts.Write_ok by reflexivity.
  cbn [handshakeError incoming readError written writable writeError negb].
  erewrite andThen_write by reflexivity.
  cbn [handshakeError incoming readError written writable writeError].
  erewrite andThen_answer; [| cbn [incoming]; exact Hi | exact H1 | exact A1 | exact V1].
  cbn [withIncoming handshakeError incoming readError written writable writeError].
  erewrite andThen_write by reflexivity.
  cbn [handshakeError incoming readError written writable writeError].
  erewrite andThen_answer; [| cbn [incoming]; reflexivity | exact H2 | exact A2 | exact V2].
  cbn [withIncoming handshakeError incoming readError written writable writeError].
  erewrite andThen_write by reflexivity.
  erewrite andThen_write by reflexivity.
  cbn [handshakeError incoming readError written writable writeError].
  unfold readCommandResult.
  cbn [withIncoming handshakeError incoming readError written writable writeError].
  rewrite (@readCommandResultFrom_answer (readError c) 3 "onStatus" resultIsOK1
             s3 r3 rest H3 A3).
  rewrite V3. unfold withIncoming.
  cbn [handshakeError incoming readError written writable writeError].
  rewrite <- !app_assoc. cbn [app]. rewrite Hh.
  replace (S (S (S (S (S (S (S n)))))) - 7)%nat with n by lia.
  reflexivity.
Qed.


(** X16: a client that publishes.  Under the same conditions, with eight
    writes and the answers [_result] 1, [_result] 4 and [onStatus] 5,
    [InitializeClient] returns nil having written exactly: the three settings,
    [connect], [releaseStream] 2, [FCPublish] 3, [createStream] 4 and
    [publish] 5 of the stream and the application; [releaseStream] and
    [FCPublish] are not waited for. *)
Theorem InitializeClient_publish_sequence
    (c : Conn) (u : url.URL) (tcURL : string)
    (s1 s2 s3 rest : list Message) (r1 r2 r3 : MsgCommandAMF0.t) :
  handshakeError c = None ->
  getTcURL u = Some tcURL ->
  (8 <= writable c)%nat ->
  incoming c
  = (s1 ++ CommandAMF0 r1 :: s2 ++ CommandAMF0 r2 :: s3 ++ CommandAMF0 r3 :: rest)%list ->
  passedOver 1 "_result" s1 = true ->
  answers 1 "_result" (CommandAMF0 r1) = true -> resultIsOK1 r1 = true ->
  passedOver 4 "_result" s2 = true ->
  answers 4 "_result" (CommandAMF0 r2) = true -> resultIsOK2 r2 = true ->
  passedOver 5 "onStatus" s3 = true ->
  answers 5 "onStatus" (CommandAMF0 r3) = true -> resultIsOK1 r3 = true ->
  InitializeClient c u true
  = ClientReturned
      (mkConn None rest (readError c)
         (written c
          ++ [ SetWindowAckSize 2500000;
               SetPeerBandwidth 2500000 2;
               SetChunkSize 65536;
               connectCommand (fst (splitPath u)) tcURL;
               CommandAMF0
                 (MsgCommandAMF0.mk 3 0 "releaseStream" 2
                    [flvio.Nil; flvio.Str (snd (splitPath u))]);
               CommandAMF0
                 (MsgCommandAMF0.mk 3 0 "FCPublish" 3
                    [flvio.Nil; flvio.Str (snd (splitPath u))]);
               CommandAMF0 (MsgCommandAMF0.mk 3 0 "createStream" 4 [flvio.Nil]);
               CommandAMF0
                 (MsgCommandAMF0.mk 4 16777216 "publish" 5
                    [flvio.Nil; flvio.Str (snd (splitPath u));
                     flvio.Str (fst (splitPath u))]) ])%list
         (writable c - 8) (writeError c))
      None.
Proof.
  intros Hh Htc Hw Hi H1 A1 V1 H2 A2 V2 H3 A3 V3.
  unfold InitializeClient. destruct (splitPath u) as [connectpath actionpath].
  cbn [fst snd]. rewrite Hh, Htc.
  destruct (writable c) as [|[|[|[|[|[|[|[|n]]]]]]]] eqn:En; try lia.
  erewrite andThen_write by exact En. writes.
  unfold write at 1. erewrite rtmp_facts.Write_ok by reflexivity. fields.
  writes.
  erewrite andThen_answer; [| cbn [incoming]; exact Hi | exact H1 | exact A1 | exact V1].
  fields. writes. writes. writes.
  erewrite andThen_answer; [| cbn [incoming]; reflexivity | exact H2 | exact A2 | exact V2].
  fields. writes.
  unfold readCommandResult. fields.
  rewrite (@readCommandResultFrom_answer (readError c) 5 "onStatus" resultIsOK1
             s3 r3 rest H3 A3).
  rewrite V3. fields.
  rewrite <- !app_assoc. cbn [app]. rewrite Hh.
  replace (S (S (S (S (S (S (S (S n))))))) - 8)%nat with n by lia.
  reflexivity.
Qed.

(** X17: [InitializeClient] panics exactly when the handshake succeeds, the
    three settings are written and [url.Parse] rejects the printed URL: the nil
    URL is then dereferenced in [getTcURL]. *)
Theorem InitializeClient_panics_exactly_when (c : Conn) (u : url.URL) (isPublishing : bool) :
  InitializeClient c u isPublishing = ClientPanicked <->
  handshakeError c = None /\ (3 <= writable c)%nat /\
  exists err, url.Parse (String u) = Err err.
Proof.
  assert (getTcURL u = None <-> exists err, url.Parse (String u) = Err err) as Hg.
  { unfold getTcURL. destruct (splitPath u) as [app _].
    destruct (url.Parse (String u)) as [nu | err]; split.
    - discriminate.
    - intros [err H]. discriminate.
    - eauto.
    - reflexivity. }
  unfold InitializeClient. destruct (splitPath u) as [connectpath actionpath].
  destruct (handshakeError c) as [err|] eqn:Hh.
  { split; [discriminate | intros (H & _); discriminate]. }
  unfold andThen, write, Write.
  destruct (writable c) as [|[|[|n]]] eqn:En; fields;
    try (split; [discriminate | intros (_ & H & _); lia]).
  destruct (getTcURL u) as [tcURL|] eqn:Eg.
  - split.
    + match goal with |- (let '(_, _) := ?x in _) = _ -> _ => destruct x end. discriminate.
    + intros (_ & _ & H). apply Hg in H. discriminate.
  - split; [|reflexivity]. intros _. split; [reflexivity|]. split; [lia|].
    apply Hg. reflexivity.
Qed.

(** X18: the two initializations understand each other.  For every URL whose
    base URL can be built and whose target resolves on the server, and for
    both modes, there are messages [fromClient] and [fromServer] such that the
    client, reading [fromServer], writes [fromClient] and returns nil, and
    the server, reading [fromClient], writes [fromServer] and returns the
    target with the mode of the client. *)
Theorem client_and_server_agree
    (u : url.URL) (isPublishing : bool) (tcURL : string) (target : url.URL)
    (failure : error) :
  getTcURL u = Some tcURL ->
  createURL tcURL (fst (splitPath u)) (snd (splitPath u)) = Ok target ->
  exists fromClient fromServer unread,
    InitializeClient
      (mkConn None fromServer failure [] (List.length fromClient) failure) u isPublishing
    = ClientReturned (mkConn None unread failure fromClient 0 failure) None /\
    InitializeServer (mkConn None fromClient failure [] (List.length fromServer) failure)
    = (mkConn None [] failure fromServer 0 failure, Ok (target, isPublishing)).
Proof.
  intros Htc Hu.
  pose (status := fun (code description : string) (commandID : Z) =>
          CommandAMF0
            (MsgCommandAMF0.mk 5 16777216 "onStatus" commandID
               [ flvio.Nil;
                 flvio.Map [ ("level", flvio.Str "status");
                             ("code", flvio.Str code);
                             ("description", flvio.Str description) ] ])).
  pose (answer :=
          [ SetWindowAckSize 2500000; SetPeerBandwidth 2500000 2; SetChunkSize 65536;
            CommandAMF0
              (MsgCommandAMF0.mk 3 0 "_result" 1
                 [ flvio.Map [ ("fmsVer", flvio.Str "LNX 9,0,124,2");
                               ("capabilities", flvio.Float64 31%float) ];
                   flvio.Map [ ("level", flvio.Str "status");
                               ("code", flvio.Str "NetConnection.Connect.Success");
                               ("description", flvio.Str "Connection succeeded.");
                               ("objectEncoding", flvio.Float64 0%float) ] ]) ]).
  pose (hello :=
          [ SetWindowAckSize 2500000; SetPeerBandwidth 2500000 2; SetChunkSize 65536;
            connectCommand (fst (splitPath u)) tcURL ]).
  destruct isPublishing.
  - exists (hello
            ++ [ CommandAMF0 (MsgCommandAMF0.mk 3 0 "releaseStream" 2
                                [flvio.Nil; flvio.Str (snd (splitPath u))]);
                 CommandAMF0 (MsgCommandAMF0.mk 3 0 "FCPublish" 3
                                [flvio.Nil; flvio.Str (snd (splitPath u))]);
                 CommandAMF0 (MsgCommandAMF0.mk 3 0 "createStream" 4 [flvio.Nil]);
                 CommandAMF0 (MsgCommandAMF0.mk 4 16777216 "publish" 5
                                [flvio.Nil; flvio.Str (snd (splitPath u));
                                 flvio.Str (fst (splitPath u))]) ])%list.
    exists (answer
            ++ [ CommandAMF0 (MsgCommandAMF0.mk 3 0 "_result" 4
                                [flvio.Nil; flvio.Float64 1%float]);
                 status "NetStream.Publish.Start" "publish start" 5%Z ])%list.
    exists []. subst hello answer status. cbv beta. split.
    + unfold InitializeClient. destruct (splitPath u) as [connectpath actionpath].
      cbn [handshakeError]. rewrite Htc. vm_compute. reflexivity.
    + destruct (splitPath u) as [connectpath actionpath]. cbn [fst snd] in *.
      unfold InitializeServer. cbn.
      erewrite rtmp_facts.commandLoop_unfold by reflexivity. cbn.
      erewrite rtmp_facts.commandLoop_unfold by reflexivity. cbn.
      erewrite rtmp_facts.commandLoop_unfold by reflexivity. cbn.
      erewrite rtmp_facts.commandLoop_unfold by reflexivity. cbn.
      unfold publishCommand. cbn. rewrite Hu. cbn. reflexivity.
  - exists (hello
            ++ [ CommandAMF0 (MsgCommandAMF0.mk 3 0 "createStream" 2 [flvio.Nil]);
                 UserControlSetBufferLength 100;
                 CommandAMF0 (MsgCommandAMF0.mk 4 16777216 "play" 3
                                [flvio.Nil; flvio.Str (snd (splitPath u))]) ])%list.
    exists (answer
            ++ [ CommandAMF0 (MsgCommandAMF0.mk 3 0 "_result" 2
                                [flvio.Nil; flvio.Float64 1%float]);
                 UserControlStreamIsRecorded 1;
                 UserControlStreamBegin 1;
                 status "NetStream.Play.Reset" "play reset" 3%Z;
                 status "NetStream.Play.Start" "play start" 3%Z;
                 status "NetStream.Data.Start" "data start" 3%Z;
                 status "NetStream.Play.PublishNotify" "publish notify" 3%Z ])%list.
    exists [ status "NetStream.Play.Start" "play start" 3%Z;
             status "NetStream.Data.Start" "data start" 3%Z;
             status "NetStream.Play.PublishNotify" "publish notify" 3%Z ].
    subst hello answer status. cbv beta. split.
    + unfold InitializeClient. destruct (splitPath u) as [connectpath actionpath].
      cbn [handshakeError]. rewrite Htc. vm_compute. reflexivity.
    + destruct (splitPath u) as [connectpath actionpath]. cbn [fst snd] in *.
      unfold InitializeServer. cbn.
      erewrite rtmp_facts.commandLoop_unfold by reflexivity. cbn.
      erewrite rtmp_facts.commandLoop_unfold by reflexivity. cbn.
      unfold playCommand. cbn. rewrite Hu. cbn. reflexivity.
Qed.


End ClientMoreFacts.

(** *** The discovery of tracks *)

Section DiscoveryMoreFacts.

Context {U : url.Library} {X : Library}.

Lemma sniffH265_panics nalus : forall vps sps pps,
  sniffH265 nalus vps sps pps = None <-> In [] nalus.
Proof.
  induction nalus as [|nalu rest IH]; intros vps sps pps; cbn [sniffH265 In].
  - split; [discriminate | tauto].
  - destruct nalu as [|b tl].
    + split; auto.
    + cbv zeta.
      destruct (h265.NALUType b =? h265.NALUType_VPS_NUT)%Z;
        [|destruct (h265.NALUType b =? h265.NALUType_SPS_NUT)%Z;
          [|destruct (h265.NALUType b =? h265.NALUType_PPS_NUT)%Z]];
        rewrite IH; split; auto; intros [H | H]; [discriminate | exact H
                                                  | discriminate | exact H
                                                  | discriminate | exact H
                                                  | discriminate | exact H].
Qed.

Lemma metadataTurn_declared hasVideo hasAudio v a msg v' a' :
  declared hasVideo hasAudio v a ->
  metadataTurn hasVideo hasAudio v a msg = GoOn v' a' ->
  declared hasVideo hasAudio v' a'.
Proof.
  intros [Hv Ha] H. unfold metadataTurn in H.
  destruct msg; try (injection H as <- <-; split; assumption).
  - destruct hasAudio; cbn [negb] in H; [|discriminate].
    destruct a as [t|]; [injection H as <- <-; split; auto|].
    destruct (MsgAudio.AACType m =? flvio.AVC_SEQHDR)%Z.
    + destruct (trackFromAACDecoderConfig (MsgAudio.Payload m)); [|discriminate].
      injection H as <- <-. split; auto.
    + injection H as <- <-. split; auto.
  - destruct hasVideo; cbn [negb] in H; [|discriminate].
    destruct v as [t|]; [injection H as <- <-; split; auto|].
    destruct (MsgVideo.H264Type m =? flvio.AVC_SEQHDR)%Z.
    + destruct (trackFromH264DecoderConfig (MsgVideo.Payload m)); [|discriminate].
      injection H as <- <-. split; auto.
    + destruct ((MsgVideo.H264Type m =? 1)%Z && MsgVideo.IsKeyFrame m).
      * destruct (AVCCUnmarshal (MsgVideo.Payload m)) as [units | e]; [|discriminate].
        destruct (sniffH265 units None None None) as [[[[vp|] [sp|]] [pp|]]|];
          try discriminate; injection H as <- <-; split; auto.
      * injection H as <- <-. split; auto.
Qed.

Lemma metadataLoop_finds_declared hasVideo hasAudio failure inbox :
  forall v a rest v' a',
  declared hasVideo hasAudio v a ->
  metadataLoop hasVideo hasAudio v a inbox failure = (rest, Finished (Ok (v', a'))) ->
  isSome v' = hasVideo /\ isSome a' = hasAudio /\
  exists msg consumed, inbox = (msg :: consumed ++ rest)%list.
Proof.
  induction inbox as [|msg inbox IH]; intros v a rest v' a' Hd H; cbn [metadataLoop] in H.
  - discriminate.
  - destruct (metadataTurn hasVideo hasAudio v a msg) as [d | v1 a1] eqn:Ht.
    + injection H as <- ->.
      exfalso. unfold metadataTurn in Ht.
      destruct msg; try discriminate.
      * destruct (negb hasAudio); [discriminate|].
        destruct a; [discriminate|].
        destruct (MsgAudio.AACType m =? flvio.AVC_SEQHDR)%Z; [|discriminate].
        destruct (trackFromAACDecoderConfig (MsgAudio.Payload m)); [discriminate|].
        injection Ht as Ht. discriminate.
      * destruct (negb hasVideo); [discriminate|].
        destruct v; [discriminate|].
        destruct (MsgVideo.H264Type m =? flvio.AVC_SEQHDR)%Z.
        -- destruct (trackFromH264DecoderConfig (MsgVideo.Payload m)); [discriminate|].
           injection Ht as Ht. discriminate.
        -- destruct ((MsgVideo.H264Type m =? 1)%Z && MsgVideo.IsKeyFrame m);
             [|discriminate].
           destruct (AVCCUnmarshal (MsgVideo.Payload m)) as [units | e].
           ++ destruct (sniffH265 units None None None) as [[[[vp|] [sp|]] [pp|]]|];
                discriminate.
           ++ injection Ht as Ht. discriminate.
    + pose proof (@metadataTurn_declared _ _ _ _ _ _ _ Hd Ht) as [Hv1 Ha1].
      destruct ((negb hasVideo || isSome v1) && (negb hasAudio || isSome a1)) eqn:Hc.
      * injection H as <- <- <-.
        apply andb_true_iff in Hc. destruct Hc as [C1 C2].
        repeat apply conj.
        -- destruct hasVideo, (isSome v1); cbn in *; auto; try discriminate.
           symmetry. auto.
        -- destruct hasAudio, (isSome a1); cbn in *; auto; try discriminate.
           symmetry. auto.
        -- exists msg, []. reflexivity.
      * destruct (IH v1 a1 rest v' a' (conj Hv1 Ha1) H) as (E1 & E2 & m2 & k & Ek).
        repeat apply conj; auto.
        exists msg, (m2 :: k). rewrite Ek. reflexivity.
Qed.

(** X19: when discovery from metadata returns tracks, the payload was one
    map, the video track is there exactly when the map declares video and the
    audio track exactly when it declares audio, at least one of them is
    there, and at least one message has been read. *)
Theorem readTracksFromMetadata_finds_what_is_declared
    (c c' : Conn) (payload : list flvio.Value)
    (videoTrack : option format.Format) (audioTrack : option Audio_t) :
  readTracksFromMetadata c payload = (c', Finished (Ok (videoTrack, audioTrack))) ->
  exists md,
    payload = [flvio.Map md] /\
    metadataHasVideo md = Ok (isSome videoTrack) /\
    metadataHasAudio md = Ok (isSome audioTrack) /\
    isSome videoTrack || isSome audioTrack = true /\
    exists msg consumed, incoming c = (msg :: consumed ++ incoming c')%list.
Proof.
  intros H. unfold readTracksFromMetadata in H.
  destruct payload as [|p0 [|p1 more]]; try discriminate;
    destruct p0; try discriminate.
  destruct (metadataHasVideo kvs) as [hasVideo | e] eqn:Ev; [|discriminate].
  destruct (metadataHasAudio kvs) as [hasAudio | e] eqn:Ea; [|discriminate].
  destruct (negb hasVideo && negb hasAudio) eqn:Hn; [discriminate|].
  destruct (metadataLoop hasVideo hasAudio None None (incoming c) (readError c))
    as [rest d] eqn:Hl.
  injection H as <- ->.
  assert (declared hasVideo hasAudio None None) as Hd by (split; discriminate).
  destruct (@metadataLoop_finds_declared _ _ _ _ _ _ _ _ _ Hd Hl) as (E1 & E2 & msg & k & Ek).
  exists kvs. rewrite E1, E2. repeat apply conj; auto.
  - destruct hasVideo, hasAudio; auto; discriminate.
  - exists msg, k. exact Ek.
Qed.


Lemma messagesTurn_both startTime v a msg v1 a1 :
  messagesTurn startTime v a msg = ScanReturn (Ok (v1, a1)) ->
  isSome v1 || isSome a1 = true.
Proof.
  unfold messagesTurn, windowTest. intros H.
  destruct msg; try discriminate; cbv zeta in H.
  - destruct (MsgAudio.AACType m =? flvio.AVC_SEQHDR)%Z;
      [destruct a; [|destruct (trackFromAACDecoderConfig (MsgAudio.Payload m));
                     [destruct (isSome v) eqn:Ev|]]|];
      repeat match type of H with
             | (if ?b then _ else _) = _ => destruct b
             end; try discriminate.
    injection H as <- <-. rewrite Ev. reflexivity.
  - destruct (MsgVideo.H264Type m =? flvio.AVC_SEQHDR)%Z;
      [destruct v; [|destruct (trackFromH264DecoderConfig (MsgVideo.Payload m));
                     [destruct (isSome a) eqn:Ea|]]|];
      repeat match type of H with
             | (if ?b then _ else _) = _ => destruct b
             end; try discriminate.
    injection H as <- <-. reflexivity.
Qed.

Lemma afterScan_ok v a v' a' :
  afterScan v a = Ok (v', a') -> v' = v /\ a' = a /\ isSome v || isSome a = true.
Proof.
  unfold afterScan. destruct v, a; intros H; try discriminate;
    injection H as <- <-; repeat split.
Qed.

Lemma messagesLoop_tracks failure inbox :
  forall startTime v a msg rest v' a',
  messagesLoop startTime v a msg inbox failure = (rest, Ok (v', a')) ->
  exists consumed,
    inbox = (consumed ++ rest)%list /\
    v' = orElse v (videoTrackOf (msg :: consumed)) /\
    a' = orElse a (audioTrackOf (msg :: consumed)) /\
    isSome v' || isSome a' = true.
Proof.
  assert (forall A (o : option A), orElse o None = o) as Hnone by (destruct o; reflexivity).
  induction inbox as [|next inbox IH]; intros startTime v a msg rest v' a' H;
    cbn [messagesLoop] in H;
    destruct (messagesTurn startTime v a msg) as [r | v1 a1 | s1 v1 a1] eqn:Ht.
  - injection H as <- ->.
    pose proof (messagesTurn_both _ _ _ _ Ht) as Hb.
    assert (handed (messagesTurn startTime v a msg) = Some (v', a')) as Hh
      by (rewrite Ht; reflexivity).
    destruct (rtmp_facts.messagesTurn_tracks _ _ _ _ Hh []) as [E1 E2].
    cbn [videoTrackOf audioTrackOf] in E1, E2. rewrite !Hnone in E1, E2.
    exists []. repeat apply conj; auto.
  - injection H as <- H. apply afterScan_ok in H. destruct H as (-> & -> & Hb).
    assert (handed (messagesTurn startTime v a msg) = Some (v1, a1)) as Hh
      by (rewrite Ht; reflexivity).
    destruct (rtmp_facts.messagesTurn_tracks _ _ _ _ Hh []) as [E1 E2].
    cbn [videoTrackOf audioTrackOf] in E1, E2. rewrite !Hnone in E1, E2.
    exists []. repeat apply conj; auto.
  - discriminate.
  - injection H as <- ->.
    pose proof (messagesTurn_both _ _ _ _ Ht) as Hb.
    assert (handed (messagesTurn startTime v a msg) = Some (v', a')) as Hh
      by (rewrite Ht; reflexivity).
    destruct (rtmp_facts.messagesTurn_tracks _ _ _ _ Hh []) as [E1 E2].
    cbn [videoTrackOf audioTrackOf] in E1, E2. rewrite !Hnone in E1, E2.
    exists []. repeat apply conj; auto.
  - injection H as <- H. apply afterScan_ok in H. destruct H as (-> & -> & Hb).
    assert (handed (messagesTurn startTime v a msg) = Some (v1, a1)) as Hh
      by (rewrite Ht; reflexivity).
    destruct (rtmp_facts.messagesTurn_tracks _ _ _ _ Hh []) as [E1 E2].
    cbn [videoTrackOf audioTrackOf] in E1, E2. rewrite !Hnone in E1, E2.
    exists []. repeat apply conj; auto.
  - destruct (IH _ _ _ _ _ _ _ H) as (k & Ek & Ev & Ea & Hb).
    assert (handed (messagesTurn startTime v a msg) = Some (v1, a1)) as Hh
      by (rewrite Ht; reflexivity).
    destruct (rtmp_facts.messagesTurn_tracks _ _ _ _ Hh (next :: k)) as [E1 E2].
    exists (next :: k). repeat apply conj; auto; try congruence.
    rewrite Ek. reflexivity.
Qed.

(** X20: when the heuristic discovery returns tracks, the video track is the
    one of the first video configuration among the messages it has examined,
    the audio track the one of the first audio configuration among them (a
    later configuration never replaces a track), and at least one of the two
    is there. *)
Theorem readTracksFromMessages_first_configurations
    (c c' : Conn) (msg : Message)
    (videoTrack : option format.H264.t) (audioTrack : option Audio_t) :
  readTracksFromMessages c msg = (c', Ok (videoTrack, audioTrack)) ->
  exists consumed,
    incoming c = (consumed ++ incoming c')%list /\
    videoTrack = videoTrackOf (msg :: consumed) /\
    audioTrack = audioTrackOf (msg :: consumed) /\
    isSome videoTrack || isSome audioTrack = true.
Proof.
  unfold readTracksFromMessages. intros H.
  destruct (messagesLoop None None None msg (incoming c) (readError c)) as [rest r] eqn:Hl.
  injection H as <- ->.
  destruct (messagesLoop_tracks _ _ _ _ _ _ Hl) as (k & Ek & Ev & Ea & Hb).
  exists k. cbn [incoming withIncoming]. auto.
Qed.


Lemma withIncoming_same (c : Conn) : withIncoming c (incoming c) = c.
Proof. destruct c; reflexivity. Qed.

Lemma firstTrackMessage_skips failure skipped rest :
  forallb skippedByReadTracks skipped = true ->
  firstTrackMessage (skipped ++ rest) failure = firstTrackMessage rest failure.
Proof.
  induction skipped as [|m skipped IH]; intros H; [reflexivity|].
  cbn [forallb] in H. apply andb_true_iff in H. destruct H as [Hm Hs].
  cbn [app firstTrackMessage]. rewrite Hm. apply IH. exact Hs.
Qed.

Lemma firstTrackMessage_found failure inbox : forall rest msg,
  firstTrackMessage inbox failure = (rest, Ok msg) ->
  exists skipped,
    inbox = (skipped ++ msg :: rest)%list /\
    forallb skippedByReadTracks skipped = true /\
    skippedByReadTracks msg = false.
Proof.
  induction inbox as [|m inbox IH]; intros rest msg H; cbn [firstTrackMessage] in H.
  - discriminate.
  - destruct (skippedByReadTracks m) eqn:Hm.
    + destruct (IH _ _ H) as (k & Ek & Hk & Hn).
      exists (m :: k). cbn [forallb app]. rewrite Hm, Hk, Ek. auto.
    + injection H as <- <-. exists []. auto.
Qed.

Lemma firstTrackMessage_suffix failure inbox :
  exists consumed, inbox = (consumed ++ fst (firstTrackMessage inbox failure))%list.
Proof.
  induction inbox as [|m inbox [k IH]].
  - exists []. reflexivity.
  - cbn [firstTrackMessage]. destruct (skippedByReadTracks m).
    + exists (m :: k). cbn [app]. f_equal. exact IH.
    + exists [m]. reflexivity.
Qed.

Lemma metadataLoop_suffix hasVideo hasAudio failure inbox : forall v a,
  exists consumed,
    inbox = (consumed ++ fst (metadataLoop hasVideo hasAudio v a inbox failure))%list.
Proof.
  induction inbox as [|m inbox IH]; intros v a.
  - exists []. reflexivity.
  - cbn [metadataLoop].
    destruct (metadataTurn hasVideo hasAudio v a m) as [d | v1 a1].
    + exists [m]. reflexivity.
    + destruct ((negb hasVideo || isSome v1) && (negb hasAudio || isSome a1)).
      * exists [m]. reflexivity.
      * destruct (IH v1 a1) as [k Ek]. exists (m :: k). cbn [app]. f_equal. exact Ek.
Qed.

Lemma messagesLoop_suffix failure inbox : forall startTime v a msg,
  exists consumed,
    inbox = (consumed ++ fst (messagesLoop startTime v a msg inbox failure))%list.
Proof.
  induction inbox as [|m inbox IH]; intros startTime v a msg; cbn [messagesLoop];
    destruct (messagesTurn startTime v a msg) as [r | v1 a1 | s1 v1 a1];
    try (exists []; reflexivity).
  destruct (IH s1 v1 a1 m) as [k Ek]. exists (m :: k). cbn [app]. f_equal. exact Ek.
Qed.

Lemma readTracksFromMessages_reads c msg :
  exists consumed,
    incoming c = (consumed ++ incoming (fst (readTracksFromMessages c msg)))%list /\
    fst (readTracksFromMessages c msg)
    = withIncoming c (incoming (fst (readTracksFromMessages c msg))).
Proof.
  unfold readTracksFromMessages.
  destruct (messagesLoop_suffix (readError c) (incoming c) None None None msg) as [k Ek].
  destruct (messagesLoop None None None msg (incoming c) (readError c)) as [rest r].
  exists k. cbn [fst incoming withIncoming] in *. auto.
Qed.

Lemma readTracksFromMetadata_reads c payload :
  exists consumed,
    incoming c = (consumed ++ incoming (fst (readTracksFromMetadata c payload)))%list /\
    fst (readTracksFromMetadata c payload)
    = withIncoming c (incoming (fst (readTracksFromMetadata c payload))).
Proof.
  assert (exists consumed, incoming c = (consumed ++ incoming c)%list /\
                           c = withIncoming c (incoming c)) as Hsame.
  { exists []. rewrite withIncoming_same. auto. }
  unfold readTracksFromMetadata.
  destruct payload as [|p0 [|p1 more]]; try exact Hsame;
    destruct p0; try exact Hsame.
  destruct (metadataHasVideo kvs) as [hasVideo | e]; [|exact Hsame].
  destruct (metadataHasAudio kvs) as [hasAudio | e]; [|exact Hsame].
  destruct (negb hasVideo && negb hasAudio); [exact Hsame|].
  destruct (metadataLoop_suffix hasVideo hasAudio (readError c) (incoming c) None None)
    as [k Ek].
  destruct (metadataLoop hasVideo hasAudio None None (incoming c) (readError c))
    as [rest d].
  exists k. cbn [fst incoming withIncoming] in *. auto.
Qed.

Lemma fromMessages_fst r : fst (fromMessages r) = fst r.
Proof. destruct r as [c [[v a] | e]]; reflexivity. Qed.

Lemma reads_trans (c : Conn) (k1 : list Message) (middle : list Message) (c2 : Conn) :
  incoming c = (k1 ++ middle)%list ->
  (exists k2, middle = (k2 ++ incoming c2)%list /\
              c2 = withIncoming (withIncoming c middle) (incoming c2)) ->
  continues c c2 [].
Proof.
  intros H1 (k2 & H2 & E).
  remember (incoming c2) as unread eqn:Ei.
  change (c2 = withIncoming c unread) in E. subst c2.
  apply continues_read with (consumed := (k1 ++ k2)%list).
  rewrite H1, H2, app_assoc. reflexivity.
Qed.

(** X21: however it ends, [ReadTracks] only reads messages from the front of
    the incoming ones: it writes nothing and changes nothing else of the
    connection. *)
Theorem ReadTracks_only_reads (c : Conn) : continues c (fst (ReadTracks c)) [].
Proof.
  unfold ReadTracks.
  destruct (firstTrackMessage_suffix (readError c) (incoming c)) as [k1 E1].
  destruct (firstTrackMessage (incoming c) (readError c)) as [rest r].
  cbn [fst] in E1.
  assert (forall msg,
            continues c
              (fst (fromMessages (readTracksFromMessages (withIncoming c rest) msg))) [])
    as Hheur.
  { intros msg. rewrite fromMessages_fst.
    destruct (readTracksFromMessages_reads (withIncoming c rest) msg) as (k2 & E2 & E3).
    apply (@reads_trans c k1 rest _ E1). exists k2. cbn [incoming] in E2. auto. }
  destruct r as [msg | err]; [|apply (@continues_read c rest k1 E1)].
  destruct msg; try apply Hheur.
  destruct (MsgDataAMF0.Payload m) as [|p0 ps] eqn:Ep; [apply Hheur|].
  destruct (afterSetDataFrame (p0 :: ps)) as [|q0 metadata]; [apply Hheur|].
  destruct q0; try apply Hheur.
  destruct (s =? "onMetaData"); [|apply Hheur].
  destruct (readTracksFromMetadata_reads (withIncoming c rest) metadata) as (k2 & E2 & E3).
  cbn [incoming] in E2.
  destruct (readTracksFromMetadata (withIncoming c rest) metadata) as [c2 d].
  cbn [fst] in E2, E3.
  assert (continues c c2 []) as Hc2.
  { apply (@reads_trans c k1 rest _ E1). exists k2. auto. }
  destruct d as [[[v a] | err] |]; cbn [fst]; try exact Hc2.
  destruct (error_eqb err errEmptyMetadata); [|exact Hc2].
  unfold ReadMessage, Read.
  destruct (incoming c2) as [|next rest2] eqn:Ei; [exact Hc2|].
  rewrite fromMessages_fst.
  destruct (readTracksFromMessages_reads (withIncoming c2 rest2) next) as (k3 & E4 & E5).
  cbn [incoming] in E4.
  change ([] : list Message) with (([] : list Message) ++ [])%list.
  eapply continues_trans; [exact Hc2|].
  apply (@reads_trans c2 [next] rest2 _ Ei). exists k3. auto.
Qed.

(** X22: [ReadTracks] passes over any run of leading [onStatus] commands
    and of data messages that begin with "|RtmpSampleAccess": it behaves as
    on the connection without them. *)
Theorem ReadTracks_skips_notifications (c : Conn) (skipped rest : list Message) :
  incoming c = (skipped ++ rest)%list ->
  forallb skippedByReadTracks skipped = true ->
  ReadTracks c = ReadTracks (withIncoming c rest).
Proof.
  intros Hi Hs. unfold ReadTracks. rewrite Hi.
  rewrite (firstTrackMessage_skips (readError c) skipped rest Hs).
  reflexivity.
Qed.


Lemma metadataLoop_panics hasVideo hasAudio failure inbox : forall v a rest,
  metadataLoop hasVideo hasAudio v a inbox failure = (rest, Panics _) ->
  hasVideo = true /\
  exists before m nalus,
    inbox = (before ++ Video m :: rest)%list /\
    MsgVideo.H264Type m = 1%Z /\ MsgVideo.IsKeyFrame m = true /\
    AVCCUnmarshal (MsgVideo.Payload m) = Ok nalus /\ In [] nalus.
Proof.
  induction inbox as [|msg inbox IH]; intros v a rest H; cbn [metadataLoop] in H.
  - discriminate.
  - destruct (metadataTurn hasVideo hasAudio v a msg) as [d | v1 a1] eqn:Ht.
    + injection H as <- ->. unfold metadataTurn in Ht.
      destruct msg; try discriminate.
      * destruct (negb hasAudio); [discriminate|].
        destruct a; [discriminate|].
        destruct (MsgAudio.AACType m =? flvio.AVC_SEQHDR)%Z; [|discriminate].
        destruct (trackFromAACDecoderConfig (MsgAudio.Payload m)); discriminate.
      * destruct hasVideo; cbn [negb] in Ht; [|discriminate].
        destruct v; [discriminate|].
        destruct (MsgVideo.H264Type m =? flvio.AVC_SEQHDR)%Z.
        -- destruct (trackFromH264DecoderConfig (MsgVideo.Payload m)); discriminate.
        -- destruct (MsgVideo.H264Type m =? 1)%Z eqn:Et; [|discriminate].
           destruct (MsgVideo.IsKeyFrame m) eqn:Ek; [|discriminate].
           cbn [andb] in Ht.
           destruct (AVCCUnmarshal (MsgVideo.Payload m)) as [units | e] eqn:Eu;
             [|discriminate].
           destruct (sniffH265 units None None None) as [[[[vp|] [sp|]] [pp|]]|] eqn:Es;
             try discriminate.
           split; [reflexivity|].
           exists [], m, units. apply Z.eqb_eq in Et.
           repeat apply conj; auto. apply (sniffH265_panics units None None None). exact Es.
    + destruct ((negb hasVideo || isSome v1) && (negb hasAudio || isSome a1));
        [discriminate|].
      destruct (IH _ _ _ H) as (Hv & k & m & units & Ek & R).
      split; [exact Hv|].
      exists (msg :: k), m, units. rewrite Ek. auto.
Qed.

Lemma readTracksFromMetadata_panics c payload c' :
  readTracksFromMetadata c payload = (c', Panics _) ->
  exists md before m nalus,
    payload = [flvio.Map md] /\
    metadataHasVideo md = Ok true /\
    incoming c = (before ++ Video m :: incoming c')%list /\
    MsgVideo.H264Type m = 1%Z /\ MsgVideo.IsKeyFrame m = true /\
    AVCCUnmarshal (MsgVideo.Payload m) = Ok nalus /\ In [] nalus.
Proof.
  unfold readTracksFromMetadata. intros H.
  destruct payload as [|p0 [|p1 more]]; try discriminate;
    destruct p0; try discriminate.
  destruct (metadataHasVideo kvs) as [hasVideo | e] eqn:Ev; [|discriminate].
  destruct (metadataHasAudio kvs) as [hasAudio | e]; [|discriminate].
  destruct (negb hasVideo && negb hasAudio); [discriminate|].
  destruct (metadataLoop hasVideo hasAudio None None (incoming c) (readError c))
    as [rest d] eqn:El.
  injection H as <- ->. cbn [incoming withIncoming].
  destruct (metadataLoop_panics _ _ _ _ _ _ El) as (-> & k & m & units & R).
  exists kvs, k, m, units. auto.
Qed.

Lemma fromMessages_returns r c' : fromMessages r <> (c', ReadPanics).
Proof. destruct r as [c0 [[v a] | e]]; discriminate. Qed.

(** X23: [ReadTracks] panics only while it discovers the tracks from
    metadata: the first message that it does not pass over announces
    metadata, a single map that declares video, and among the messages read
    after it the last is a video message of type 1, a key frame, whose
    payload unmarshals to a list with an empty unit. *)
Theorem ReadTracks_panics_only_on_empty_unit (c c' : Conn) :
  ReadTracks c = (c', ReadPanics) ->
  exists skipped data md read m nalus,
    incoming c = (skipped ++ DataAMF0 data :: read ++ Video m :: incoming c')%list /\
    forallb skippedByReadTracks skipped = true /\
    announces data [flvio.Map md] /\
    metadataHasVideo md = Ok true /\
    MsgVideo.H264Type m = 1%Z /\ MsgVideo.IsKeyFrame m = true /\
    AVCCUnmarshal (MsgVideo.Payload m) = Ok nalus /\ In [] nalus.
Proof.
  unfold ReadTracks. intros H.
  destruct (firstTrackMessage (incoming c) (readError c)) as [rest r] eqn:Ef.
  destruct r as [msg | err]; [|discriminate].
  apply firstTrackMessage_found in Ef. destruct Ef as (skipped & Ei & Hs & _).
  destruct msg; try (exfalso; exact (@fromMessages_returns _ _ H)).
  match type of H with context [MsgDataAMF0.Payload ?d] => rename d into data end.
  destruct (MsgDataAMF0.Payload data) as [|p0 ps] eqn:Ep;
    [exfalso; exact (@fromMessages_returns _ _ H)|].
  destruct (afterSetDataFrame (p0 :: ps)) as [|q0 metadata] eqn:Ea;
    [exfalso; exact (@fromMessages_returns _ _ H)|].
  destruct q0; try (exfalso; exact (@fromMessages_returns _ _ H)).
  destruct (s =? "onMetaData") eqn:En; [|exfalso; exact (@fromMessages_returns _ _ H)].
  apply String.eqb_eq in En. subst s.
  destruct (readTracksFromMetadata (withIncoming c rest) metadata) as [c2 d] eqn:Em.
  destruct d as [[[v a] | err] |].
  - discriminate.
  - destruct (error_eqb err errEmptyMetadata); [|discriminate].
    destruct (ReadMessage c2) as [c3 [next | e]]; [|discriminate].
    exfalso. exact (@fromMessages_returns _ _ H).
  - injection H as <-.
    destruct (readTracksFromMetadata_panics _ _ Em)
      as (md & k & mv & units & -> & Hv & Ek & R).
    cbn [incoming withIncoming] in Ek.
    exists skipped, data, md, k, mv, units.
    split; [rewrite Ei, Ek; reflexivity|].
    split; [exact Hs|]. split; [unfold announces; rewrite Ep; exact Ea|].
    split; [exact Hv | exact R].
Qed.


Lemma fromMessages_found r c' v a :
  fromMessages r = (c', TracksRead (Ok (v, a))) ->
  exists p, v = H264Pointer p /\ r = (c', Ok (p, a)).
Proof.
  destruct r as [c0 [[v0 a0] | e]]; cbn [fromMessages]; intros H; [|discriminate].
  injection H as <- <- <-. eauto.
Qed.

Lemma readTracksFromMessages_some c msg c' v a :
  readTracksFromMessages c msg = (c', Ok (v, a)) -> isSome v || isSome a = true.
Proof.
  unfold readTracksFromMessages. intros H.
  destruct (messagesLoop None None None msg (incoming c) (readError c)) as [rest r] eqn:Hl.
  injection H as <- ->.
  destruct (messagesLoop_tracks _ _ _ _ _ _ Hl) as (k & _ & _ & _ & Hb). exact Hb.
Qed.

Lemma heuristic_found c msg c' v a :
  fromMessages (readTracksFromMessages c msg) = (c', TracksRead (Ok (v, a))) ->
  present v || isSome a = true /\ v <> NilFormat.
Proof.
  intros H. apply fromMessages_found in H. destruct H as (p & -> & H).
  apply readTracksFromMessages_some in H. split; [exact H | discriminate].
Qed.

Lemma readTracksFromMetadata_found c payload c' v a :
  readTracksFromMetadata c payload = (c', Finished (Ok (v, a))) ->
  exists md,
    payload = [flvio.Map md] /\
    metadataHasVideo md = Ok (isSome v) /\
    metadataHasAudio md = Ok (isSome a) /\
    isSome v || isSome a = true.
Proof.
  intros H. unfold readTracksFromMetadata in H.
  destruct payload as [|p0 [|p1 more]]; try discriminate;
    destruct p0; try discriminate.
  destruct (metadataHasVideo kvs) as [hasVideo | e] eqn:Ev; [|discriminate].
  destruct (metadataHasAudio kvs) as [hasAudio | e] eqn:Ea; [|discriminate].
  destruct (negb hasVideo && negb hasAudio) eqn:Hn; [discriminate|].
  destruct (metadataLoop hasVideo hasAudio None None (incoming c) (readError c))
    as [rest d] eqn:Hl.
  injection H as <- ->.
  assert (declared hasVideo hasAudio None None) as Hd by (split; discriminate).
  destruct (@metadataLoop_finds_declared _ _ _ _ _ _ _ _ _ Hd Hl) as (E1 & E2 & _).
  exists kvs. rewrite E1, E2. repeat apply conj; auto.
  destruct hasVideo, hasAudio; auto; discriminate.
Qed.

Lemma present_interfaceOf v : present (interfaceOf v) = isSome v.
Proof. destruct v as [[f | f]|]; reflexivity. Qed.

(** X24: when [ReadTracks] returns without error, a video format or an
    audio track is there; and the video value is the nil interface only when
    the first message not passed over announced metadata that declares audio
    and no video.  (The heuristic discovery returns a pointer, which is not
    the nil interface even when the pointer is nil.) *)
Theorem ReadTracks_finds_a_track
    (c c' : Conn) (videoTrack : FormatValue) (audioTrack : option Audio_t) :
  ReadTracks c = (c', TracksRead (Ok (videoTrack, audioTrack))) ->
  present videoTrack || isSome audioTrack = true /\
  (videoTrack = NilFormat ->
   exists skipped data md rest,
     incoming c = (skipped ++ DataAMF0 data :: rest)%list /\
     forallb skippedByReadTracks skipped = true /\
     announces data [flvio.Map md] /\
     metadataHasVideo md = Ok false /\
     metadataHasAudio md = Ok true).
Proof.
  unfold ReadTracks. intros H.
  destruct (firstTrackMessage (incoming c) (readError c)) as [rest r] eqn:Ef.
  destruct r as [msg | err]; [|discriminate].
  apply firstTrackMessage_found in Ef. destruct Ef as (skipped & Ei & Hs & _).
  assert (forall c0 m0,
            fromMessages (readTracksFromMessages c0 m0)
            = (c', TracksRead (Ok (videoTrack, audioTrack))) ->
            present videoTrack || isSome audioTrack = true /\
            (videoTrack = NilFormat ->
             exists skipped data md rest,
               incoming c = (skipped ++ DataAMF0 data :: rest)%list /\
               forallb skippedByReadTracks skipped = true /\
               announces data [flvio.Map md] /\
               metadataHasVideo md = Ok false /\
               metadataHasAudio md = Ok true)) as Hheur.
  { intros c0 m0 H0. apply heuristic_found in H0. destruct H0 as [Hb Hn].
    split; [exact Hb|]. intros E. contradiction. }
  destruct msg; try (exact (Hheur _ _ H)).
  match type of H with context [MsgDataAMF0.Payload ?d] => rename d into data end.
  destruct (MsgDataAMF0.Payload data) as [|p0 ps] eqn:Ep; [exact (Hheur _ _ H)|].
  destruct (afterSetDataFrame (p0 :: ps)) as [|q0 metadata] eqn:Es;
    [exact (Hheur _ _ H)|].
  destruct q0; try (exact (Hheur _ _ H)).
  destruct (s =? "onMetaData") eqn:En; [|exact (Hheur _ _ H)].
  apply String.eqb_eq in En. subst s.
  destruct (readTracksFromMetadata (withIncoming c rest) metadata) as [c2 d] eqn:Em.
  destruct d as [[[v a] | err] |].
  - injection H as <- <- <-.
    destruct (readTracksFromMetadata_found _ _ Em) as (md & -> & Ev & Ea & Hb).
    rewrite present_interfaceOf. split; [exact Hb|].
    intros Hnil. destruct v as [[f | f]|]; try discriminate.
    cbn [isSome] in Ev, Hb. cbn [orb] in Hb. rewrite Hb in Ea.
    exists skipped, data, md, rest. unfold announces. rewrite Ep. auto.
  - destruct (error_eqb err errEmptyMetadata); [|discriminate].
    destruct (ReadMessage c2) as [c3 [next | e]]; [|discriminate].
    exact (Hheur _ _ H).
  - discriminate.
Qed.

(** X25: when the first message not passed over announces metadata that
    declare neither video nor audio, [ReadTracks] reads one more message and
    returns what the heuristic discovery finds from it, or the error of the
    transport when there is no further message. *)
Theorem ReadTracks_falls_back_on_empty_metadata
    (c : Conn) (skipped : list Message) (data : MsgDataAMF0.t) (md : flvio.AMFMap)
    (rest : list Message) :
  incoming c = (skipped ++ DataAMF0 data :: rest)%list ->
  forallb skippedByReadTracks skipped = true ->
  announces data [flvio.Map md] ->
  metadataHasVideo md = Ok false ->
  metadataHasAudio md = Ok false ->
  ReadTracks c
  = match rest with
    | [] => (withIncoming c [], TracksRead (Err (readError c)))
    | msg :: rest' => fromMessages (readTracksFromMessages (withIncoming c rest') msg)
    end.
Proof.
  intros Hi Hs Hann Hv Ha. unfold ReadTracks. rewrite Hi.
  rewrite (firstTrackMessage_skips (readError c) skipped _ Hs).
  unfold announces in Hann. cbn [firstTrackMessage].
  assert (skippedByReadTracks (DataAMF0 data) = false) as ->.
  { cbn [skippedByReadTracks]. unfold afterSetDataFrame in Hann.
    destruct (MsgDataAMF0.Payload data) as [|p0 ps]; [reflexivity|].
    destruct p0; try reflexivity.
    destruct (s =? "@setDataFrame") eqn:E.
    - apply String.eqb_eq in E. subst s. reflexivity.
    - injection Hann as -> _. reflexivity. }
  cbv zeta.
  destruct (MsgDataAMF0.Payload data) as [|p0 ps] eqn:Ep; [discriminate|].
  rewrite Hann. cbn [String.eqb Ascii.eqb Bool.eqb].
  change ("onMetaData" =? "onMetaData") with true. cbv iota.
  unfold readTracksFromMetadata. rewrite Hv, Ha. cbn [negb andb].
  change (error_eqb errEmptyMetadata errEmptyMetadata) with true. cbv iota.
  unfold ReadMessage, Read. cbn [incoming withIncoming readError].
  destruct rest as [|msg rest']; reflexivity.
Qed.

End DiscoveryMoreFacts.

(** *** Runs of the engine, server and client *)

#[local] Existing Instance sample.urlLibrary.
#[local] Existing Instance sample.rtmpLibrary.
#[local] Existing Instance sample_more.printer.

Lemma commandLoop_publish_notification_witness :
  exists c2,
    commandLoop "rtmp://localhost:1935/live" "live"
      (sample_more.receiving [CommandAMF0 sample_more.publishCam] 1)
    = (c2, Ok (url.mkURL "rtmp" "" "localhost:1935" "/live/cam" "" false "" "", true)) /\
    incoming c2 = [] /\
    written c2
    = [ CommandAMF0
          (MsgCommandAMF0.mk 5 16777216 "onStatus" 5
             [ flvio.Nil;
               flvio.Map [ ("level", flvio.Str "status");
                           ("code", flvio.Str "NetStream.Publish.Start");
                           ("description", flvio.Str "publish start") ] ]) ].
Proof.
  exact (@commandLoop_publish_notification sample.urlLibrary
           "rtmp://localhost:1935/live" "live"
           (sample_more.receiving [CommandAMF0 sample_more.publishCam] 1)
           (sample_more.receiving [] 1) sample_more.publishCam flvio.Nil "cam"
           [flvio.Str "live"]
           (url.mkURL "rtmp" "" "localhost:1935" "/live/cam" "" false "" "")
           eq_refl eq_refl eq_refl eq_refl (le_n 1)).
Defined.

Lemma commandLoop_rejects_play_and_publish_witness :
  commandLoop "rtmp://localhost:1935/live" "live"
    (sample_more.receiving [CommandAMF0 sample_more.playNothing] 6)
  = (sample_more.receiving [] 6, Err (Errorf "invalid play command arguments")) /\
  commandLoop "rtmp://localhost:1935/live" "%zz"
    (sample_more.receiving [CommandAMF0 sample_more.publishCam] 1)
  = (sample_more.receiving [] 1, Err (ErrExternal "net/url" "invalid URL escape")).
Proof.
  split.
  - apply (proj1 (@commandLoop_rejects_play_and_publish sample.urlLibrary
                    "rtmp://localhost:1935/live" "live"
                    (sample_more.receiving [CommandAMF0 sample_more.playNothing] 6)
                    (sample_more.receiving [] 6) sample_more.playNothing eq_refl)).
    + intros first actionpath more. discriminate.
    + reflexivity.
  - apply (proj2 (@commandLoop_rejects_play_and_publish sample.urlLibrary
                    "rtmp://localhost:1935/live" "%zz"
                    (sample_more.receiving [CommandAMF0 sample_more.publishCam] 1)
                    (sample_more.receiving [] 1) sample_more.publishCam eq_refl)
             flvio.Nil "cam" [flvio.Str "live"]).
    + reflexivity.
    + vm_compute. reflexivity.
    + right. reflexivity.
Defined.

Lemma commandLoop_answers_createStream_witness :
  commandLoop "rtmp://localhost:1935/live" "live"
    (sample_more.receiving
       [CommandAMF0 sample_more.createStream; CommandAMF0 sample_more.publishCam] 2)
  = commandLoop "rtmp://localhost:1935/live" "live"
      (mkConn None [CommandAMF0 sample_more.publishCam] sample.closed
         [ CommandAMF0
             (MsgCommandAMF0.mk 3 0 "_result" 2 [flvio.Nil; flvio.Float64 1%float]) ]
         1 sample.closed) /\
  commandLoop "rtmp://localhost:1935/live" "live"
    (sample_more.receiving
       [CommandAMF0 sample_more.connect; CommandAMF0 sample_more.publishCam] 1)
  = commandLoop "rtmp://localhost:1935/live" "live"
      (sample_more.receiving [CommandAMF0 sample_more.publishCam] 1).
Proof.
  split.
  - exact (proj1 (@commandLoop_answers_createStream sample.urlLibrary
                    "rtmp://localhost:1935/live" "live"
                    (sample_more.receiving
                       [CommandAMF0 sample_more.createStream;
                        CommandAMF0 sample_more.publishCam] 2)
                    (sample_more.receiving [CommandAMF0 sample_more.publishCam] 2)
                    sample_more.createStream eq_refl)
             eq_refl 1%nat eq_refl).
  - apply (proj2 (@commandLoop_answers_createStream sample.urlLibrary
                    "rtmp://localhost:1935/live" "live"
                    (sample_more.receiving
                       [CommandAMF0 sample_more.connect;
                        CommandAMF0 sample_more.publishCam] 1)
                    (sample_more.receiving [CommandAMF0 sample_more.publishCam] 1)
                    sample_more.connect eq_refl)); discriminate.
Defined.

Lemma InitializeServer_answers_connect_witness :
  InitializeServer (sample_more.receiving [CommandAMF0 sample_more.connect] 4)
  = commandLoop "rtmp://localhost:1935/live" "live"
      (mkConn None [] sample.closed
         [ SetWindowAckSize 2500000;
           SetPeerBandwidth 2500000 2;
           SetChunkSize 65536;
           CommandAMF0
             (MsgCommandAMF0.mk 3 0 "_result" 1
                [ flvio.Map [ ("fmsVer", flvio.Str "LNX 9,0,124,2");
                              ("capabilities", flvio.Float64 31%float) ];
                  flvio.Map [ ("level", flvio.Str "status");
                              ("code", flvio.Str "NetConnection.Connect.Success");
                              ("description", flvio.Str "Connection succeeded.");
                              ("objectEncoding", flvio.Float64 0%float) ] ]) ]
         0 sample.closed).
Proof.
  exact (@InitializeServer_answers_connect sample.urlLibrary
           (sample_more.receiving [CommandAMF0 sample_more.connect] 4)
           (sample_more.receiving [] 4) sample_more.connect sample_more.connectArguments
           [] "live" "rtmp://localhost:1935/live"
           eq_refl eq_refl eq_refl eq_refl eq_refl (or_introl eq_refl) (le_n 4)).
Defined.

Lemma InitializeServer_writes_on_success_witness :
  exists early connect ma others between cmd first actionpath more connectpath tcURL,
    [ Acknowledge 0; CommandAMF0 sample_more.connect;
      CommandAMF0 sample_more.createStream; CommandAMF0 sample_more.publishCam ]
    = (early ++ CommandAMF0 connect :: between ++ CommandAMF0 cmd :: [])%list /\
    forallb (fun m => negb (isCommand m)) early = true /\
    MsgCommandAMF0.Name connect = "connect" /\
    MsgCommandAMF0.Arguments connect = flvio.Map ma :: others /\
    flvio.GetString ma "app" = Some connectpath /\
    match flvio.GetString ma "tcUrl" with
    | Some s => Some s
    | None => flvio.GetString ma "tcurl"
    end = Some tcURL /\
    forallb (fun m => negb (endsLoop m)) between = true /\
    MsgCommandAMF0.Name cmd = "publish" /\
    MsgCommandAMF0.Arguments cmd = first :: flvio.Str actionpath :: more /\
    createURL tcURL connectpath actionpath
    = Ok (url.mkURL "rtmp" "" "localhost:1935" "/live/cam" "" false "" "") /\
    (sample_more.settings
     ++ [ CommandAMF0 sample_more.connectAnswer;
          CommandAMF0 (sample_more.createStreamAnswer 2);
          CommandAMF0 (sample_more.status "NetStream.Publish.Start" "publish start" 5) ])%list
    = ([]
       ++ [ SetWindowAckSize 2500000;
            SetPeerBandwidth 2500000 2;
            SetChunkSize 65536;
            connectResult connect (flvio.GetFloat64 ma "objectEncoding") ]
       ++ createStreamResults between
       ++ notifications true cmd)%list.
Proof.
  exact (@InitializeServer_writes_on_success sample.urlLibrary
           (sample_more.receiving
              [ Acknowledge 0; CommandAMF0 sample_more.connect;
                CommandAMF0 sample_more.createStream;
                CommandAMF0 sample_more.publishCam ] 6)
           (mkConn None [] sample.closed
              (sample_more.settings
               ++ [ CommandAMF0 sample_more.connectAnswer;
                    CommandAMF0 (sample_more.createStreamAnswer 2);
                    CommandAMF0
                      (sample_more.status "NetStream.Publish.Start" "publish start" 5) ])
              0 sample.closed)
           (url.mkURL "rtmp" "" "localhost:1935" "/live/cam" "" false "" "") true
           eq_refl).
Defined.

Lemma InitializeClient_play_sequence_witness :
  InitializeClient
    (sample_more.receiving
       (sample_more.settings
        ++ CommandAMF0 sample_more.connectAnswer
           :: CommandAMF0 (sample_more.createStreamAnswer 2)
           :: UserControlStreamIsRecorded 1
           :: UserControlStreamBegin 1
           :: CommandAMF0 (sample_more.status "NetStream.Play.Reset" "play reset" 3)
           :: sample_more.afterPlayReset)
       7)
    sample_more.liveCam false
  = ClientReturned
      (mkConn None sample_more.afterPlayReset sample.closed
         [ SetWindowAckSize 2500000;
           SetPeerBandwidth 2500000 2;
           SetChunkSize 65536;
           connectCommand "live" "rtmp://localhost:1935/live";
           CommandAMF0 (MsgCommandAMF0.mk 3 0 "createStream" 2 [flvio.Nil]);
           UserControlSetBufferLength 100;
           CommandAMF0
             (MsgCommandAMF0.mk 4 16777216 "play" 3 [flvio.Nil; flvio.Str "cam"]) ]
         0 sample.closed)
      None.
Proof.
  exact (@InitializeClient_play_sequence sample.urlLibrary sample_more.printer
           (sample_more.receiving
              (sample_more.settings
               ++ CommandAMF0 sample_more.connectAnswer
                  :: CommandAMF0 (sample_more.createStreamAnswer 2)
                  :: UserControlStreamIsRecorded 1
                  :: UserControlStreamBegin 1
                  :: CommandAMF0 (sample_more.status "NetStream.Play.Reset" "play reset" 3)
                  :: sample_more.afterPlayReset)
              7)
           sample_more.liveCam "rtmp://localhost:1935/live"
           sample_more.settings []
           [UserControlStreamIsRecorded 1; UserControlStreamBegin 1]
           sample_more.afterPlayReset
           sample_more.connectAnswer (sample_more.createStreamAnswer 2)
           (sample_more.status "NetStream.Play.Reset" "play reset" 3)
           eq_refl eq_refl (le_n 7) eq_refl
           eq_refl eq_refl eq_refl eq_refl eq_refl eq_refl eq_refl eq_refl eq_refl).
Defined.

Lemma InitializeClient_publish_sequence_witness :
  InitializeClient
    (sample_more.receiving
       (sample_more.settings
        ++ [ CommandAMF0 sample_more.connectAnswer;
             CommandAMF0 (sample_more.createStreamAnswer 4);
             CommandAMF0 (sample_more.status "NetStream.Publish.Start" "publish start" 5) ])
       8)
    sample_more.liveCam true
  = ClientReturned
      (mkConn None [] sample.closed
         [ SetWindowAckSize 2500000;
           SetPeerBandwidth 2500000 2;
           SetChunkSize 65536;
           connectCommand "live" "rtmp://localhost:1935/live";
           CommandAMF0
             (MsgCommandAMF0.mk 3 0 "releaseStream" 2 [flvio.Nil; flvio.Str "cam"]);
           CommandAMF0 (MsgCommandAMF0.mk 3 0 "FCPublish" 3 [flvio.Nil; flvio.Str "cam"]);
           CommandAMF0 (MsgCommandAMF0.mk 3 0 "createStream" 4 [flvio.Nil]);
           CommandAMF0
             (MsgCommandAMF0.mk 4 16777216 "publish" 5
                [flvio.Nil; flvio.Str "cam"; flvio.Str "live"]) ]
         0 sample.closed)
      None.
Proof.
  exact (@InitializeClient_publish_sequence sample.urlLibrary sample_more.printer
           (sample_more.receiving
              (sample_more.settings
               ++ [ CommandAMF0 sample_more.connectAnswer;
                    CommandAMF0 (sample_more.createStreamAnswer 4);
                    CommandAMF0
                      (sample_more.status "NetStream.Publish.Start" "publish start" 5) ])
              8)
           sample_more.liveCam "rtmp://localhost:1935/live"
           sample_more.settings [] [] []
           sample_more.connectAnswer (sample_more.createStreamAnswer 4)
           (sample_more.status "NetStream.Publish.Start" "publish start" 5)
           eq_refl eq_refl (le_n 8) eq_refl
           eq_refl eq_refl eq_refl eq_refl eq_refl eq_refl eq_refl eq_refl eq_refl).
Defined.

Example InitializeClient_unparsable_url :
  InitializeClient (sample_more.receiving [] 8)
    (url.mkURL "rtmp" "" "local host" "/live/cam" "" false "" "") false
  = ClientPanicked.
Proof. vm_compute. reflexivity. Qed.

Lemma client_and_server_agree_witness :
  exists fromClient fromServer unread,
    InitializeClient
      (mkConn None fromServer sample.closed [] (List.length fromClient) sample.closed)
      sample_more.liveCam false
    = ClientReturned (mkConn None unread sample.closed fromClient 0 sample.closed) None /\
    InitializeServer
      (mkConn None fromClient sample.closed [] (List.length fromServer) sample.closed)
    = (mkConn None [] sample.closed fromServer 0 sample.closed,
       Ok (url.mkURL "rtmp" "" "localhost:1935" "/live/cam" "" false "" "", false)).
Proof.
  exact (@client_and_server_agree sample.urlLibrary sample_more.printer
           sample_more.liveCam false "rtmp://localhost:1935/live"
           (url.mkURL "rtmp" "" "localhost:1935" "/live/cam" "" false "" "")
           sample.closed eq_refl eq_refl).
Defined.

Lemma readTracksFromMetadata_finds_what_is_declared_witness :
  exists md,
    [flvio.Map sample.audioOnly] = [flvio.Map md] /\
    metadataHasVideo md = Ok false /\
    metadataHasAudio md = Ok true /\
    false || true = true /\
    exists msg consumed,
      [sample.audioConfig 0; sample.rawAudio 1]
      = (msg :: consumed ++ [sample.rawAudio 1])%list.
Proof.
  exact (@readTracksFromMetadata_finds_what_is_declared sample.rtmpLibrary
           (sample_more.receiving [sample.audioConfig 0; sample.rawAudio 1] 0)
           (sample_more.receiving [sample.rawAudio 1] 0)
           [flvio.Map sample.audioOnly] None (Some sample_more.audioTrack) eq_refl).
Defined.

Lemma readTracksFromMessages_first_configurations_witness :
  exists consumed,
    [sample.audioConfig 10; sample_more.videoConfig 20; sample.audioConfig 30]
    = (consumed ++ [sample.audioConfig 30])%list /\
    Some sample_more.videoTrack = videoTrackOf (sample.rawAudio 0 :: consumed) /\
    Some sample_more.audioTrack = audioTrackOf (sample.rawAudio 0 :: consumed) /\
    true || true = true.
Proof.
  exact (@readTracksFromMessages_first_configurations sample.rtmpLibrary
           (sample_more.receiving
              [sample.audioConfig 10; sample_more.videoConfig 20; sample.audioConfig 30] 0)
           (sample_more.receiving [sample.audioConfig 30] 0)
           (sample.rawAudio 0) (Some sample_more.videoTrack) (Some sample_more.audioTrack)
           eq_refl).
Defined.

Lemma ReadTracks_skips_notifications_witness :
  ReadTracks
    (sample_more.receiving
       [sample_more.onStatusCommand; sample_more.sampleAccess; sample.audioConfig 0] 0)
  = ReadTracks (sample_more.receiving [sample.audioConfig 0] 0).
Proof.
  exact (@ReadTracks_skips_notifications sample.rtmpLibrary
           (sample_more.receiving
              [sample_more.onStatusCommand; sample_more.sampleAccess;
               sample.audioConfig 0] 0)
           [sample_more.onStatusCommand; sample_more.sampleAccess]
           [sample.audioConfig 0] eq_refl eq_refl).
Defined.

Lemma ReadTracks_panics_only_on_empty_unit_witness :
  exists skipped data md read m nalus,
    [ sample_more.sampleAccess;
      DataAMF0 (sample_more.metadata sample_more.videoOnly);
      sample.rawVideo 0; Video sample_more.emptyKeyFrame; sample.audioConfig 0 ]
    = (skipped ++ DataAMF0 data :: read ++ Video m :: [sample.audioConfig 0])%list /\
    forallb skippedByReadTracks skipped = true /\
    announces data [flvio.Map md] /\
    metadataHasVideo md = Ok true /\
    MsgVideo.H264Type m = 1%Z /\ MsgVideo.IsKeyFrame m = true /\
    sample_more.avccUnits (List.length (MsgVideo.Payload m)) (MsgVideo.Payload m)
    = Ok nalus /\
    In [] nalus.
Proof.
  exact (@ReadTracks_panics_only_on_empty_unit sample_more.avccLibrary
           (sample_more.receiving
              [ sample_more.sampleAccess;
                DataAMF0 (sample_more.metadata sample_more.videoOnly);
                sample.rawVideo 0; Video sample_more.emptyKeyFrame;
                sample.audioConfig 0 ] 0)
           (sample_more.receiving [sample.audioConfig 0] 0) eq_refl).
Defined.

Lemma ReadTracks_finds_a_track_witness :
  false || true = true /\
  (NilFormat = NilFormat ->
   exists skipped data md rest,
     [ sample_more.onStatusCommand; DataAMF0 (sample_more.metadata sample.audioOnly);
       sample.audioConfig 0 ]
     = (skipped ++ DataAMF0 data :: rest)%list /\
     forallb skippedByReadTracks skipped = true /\
     announces data [flvio.Map md] /\
     metadataHasVideo md = Ok false /\
     metadataHasAudio md = Ok true).
Proof.
  exact (@ReadTracks_finds_a_track sample.rtmpLibrary
           (sample_more.receiving
              [ sample_more.onStatusCommand;
                DataAMF0 (sample_more.metadata sample.audioOnly);
                sample.audioConfig 0 ] 0)
           (sample_more.receiving [] 0) NilFormat (Some sample_more.audioTrack) eq_refl).
Defined.

(** The heuristic discovery of an audio track alone returns a nil pointer to
    an H264 format, which is not the nil interface. *)
Example ReadTracks_audio_only_by_heuristics :
  ReadTracks
    (sample_more.receiving [sample.rawAudio 0; sample.audioConfig 10;
                            sample.rawAudio 1000000000] 0)
  = (sample_more.receiving [] 0,
     TracksRead (Ok (H264Pointer None, Some sample_more.audioTrack))).
Proof. vm_compute. reflexivity. Qed.

Lemma ReadTracks_falls_back_on_empty_metadata_witness :
  ReadTracks
    (sample_more.receiving
       [ sample_more.sampleAccess; DataAMF0 (sample_more.metadata []);
         sample.audioConfig 0; sample_more.videoConfig 10 ] 0)
  = fromMessages
      (readTracksFromMessages (sample_more.receiving [sample_more.videoConfig 10] 0)
         (sample.audioConfig 0)).
Proof.
  exact (@ReadTracks_falls_back_on_empty_metadata sample.rtmpLibrary
           (sample_more.receiving
              [ sample_more.sampleAccess; DataAMF0 (sample_more.metadata []);
                sample.audioConfig 0; sample_more.videoConfig 10 ] 0)
           [sample_more.sampleAccess] (sample_more.metadata []) []
           [sample.audioConfig 0; sample_more.videoConfig 10]
           eq_refl eq_refl eq_refl eq_refl eq_refl).
Defined.

End rtmp_more_facts.
